(** * Globe visualisation: orbit, highlight overlay, style reload, flow renderers

    A shallow embedding of the React globe components of the repository and
    of the deck.gl wind layer, with the properties the specification states
    about them.

    Source variants embedded here (the names of the modules below):
    - [Frontend] : frontend/src/components/GlobeMap.jsx (orbit in both modes,
                   pause timer, the [moveend] listener of a selection);
    - [Viz]      : unnamed/part_000, lines 324-767 (whenStyleReady, terrain,
                   buildings, highlight, 2D arrows, 3D custom layer,
                   style.load handler, runSimulation, resetGlobe);
    - [Flux]     : unnamed/part_000, lines 768-1300 (highlight stored by
                   addHighlightLayer, resetGlobe that clears it, guarded
                   resume timer, the [moveend] listener of a selection);
    - [WindLayer]: unnamed/part_001 (deck.gl particle layer).

    Numbers.  JavaScript numbers are modelled as exact rationals ([Q]):
    [+], [-], [*], [Math.min] and [%] are the exact operations, rounding of
    binary64 is not modelled.  A value the code accumulates over many
    frames (the bearing of the orbit) is therefore described by the
    additions themselves (the iterated sum, its order) and not by a closed
    form, which rounding would not respect.  [Math.sin], [Math.cos] and
    [Math.random] are parameters of the platform; [Math.PI] is the
    rational value of the binary64 constant. *)

From Stdlib Require Import QArith Qround Qminmax Lqa ZArith List String Lia.
From stdpp Require Import gmap strings list.
Import ListNotations.

Set Warnings "-abstract-large-number".

Local Open Scope Q_scope.

(** ** JavaScript arithmetic on rationals *)

Module JS.

(** [x > y] and [x < y] on numbers. *)
Definition gt (x y : Q) : bool := negb (Qle_bool x y).
Definition lt (x y : Q) : bool := negb (Qle_bool y x).

(** [Math.min(x, y)]. *)
Definition min (x y : Q) : Q := if Qle_bool x y then x else y.

(** Truncation towards zero, the integer part used by [%]. *)
Definition trunc (x : Q) : Z := Z.quot (Qnum x) (Zpos (Qden x)).

(** [x % y]: the remainder has the sign of the dividend. *)
Definition rem (x y : Q) : Q := x - y * inject_Z (trunc (x / y)).

(** The mathematical [x mod y] (floor based, result in [[0, y)] for
    [0 < y]); not a JavaScript operator, used to state properties. *)
Definition modulo (x y : Q) : Q := x - y * inject_Z (Qfloor (x / y)).

(** [Math.PI], the binary64 number nearest to pi. *)
Definition PI : Q := 884279719003555 # 281474976710656.

(** [v || d] for an optional number: [undefined], [null] and [0] are
    falsy. *)
Definition orElse (v : option Q) (d : Q) : Q :=
  match v with
  | Some x => if Qeq_bool x 0 then d else x
  | None => d
  end.

End JS.

(** ** The mapping engine

    Modelled from the spec: the mapping engine (mapbox-gl) is an external
    collaborator, not code of the repository.  Section 6 of the
    specification lists the commands the components use; their behaviour
    below is the documented one of the engine: a source or layer id is
    registered at most once, an operation the engine refuses changes
    nothing and reports an error (here: a throw that ends the running
    callback), and a style swap discards every source and layer that is
    not part of the new style. *)

Module Engine.

Record GeoJSON := mkGeoJSON {
  geo_type : string;
  coordinates : list (list (Q * Q))
}.

Inductive SourceSpec :=
| RasterDem (url : string) (tileSize maxzoom : Z)
| GeoJsonSource (data : GeoJSON)
| StyleSource (kind : string).

Inductive LayerType := Fill | Line | FillExtrusion | Custom | Symbol | Raster.

Record Layer := mkLayer {
  layer_id : string;
  layer_type : LayerType;
  layer_source : option string;
  layer_paint : list (string * string)
}.

Record Bounds := mkBounds { west : Q; south : Q; east : Q; north : Q }.

Record Camera := mkCamera {
  center : Q * Q;
  zoom : Q;
  pitch : Q;
  bearing : Q
}.

(** The options object of [jumpTo] and [flyTo]: absent keys keep the
    current value. *)
Record CameraOptions := mkCameraOptions {
  opt_center : option (Q * Q);
  opt_zoom : option Q;
  opt_pitch : option Q;
  opt_bearing : option Q
}.

Inductive Projection := Globe | Mercator.

Record Style := mkStyle {
  style_sources : gmap string SourceSpec;
  style_layers : list Layer
}.

Record Map := mkMap {
  sources : gmap string SourceSpec;
  layers : list Layer;
  terrain : option (string * Q);
  styleLoaded : bool;
  bounds : Bounds;
  camera : Camera;
  projection : Projection
}.

Inductive Error :=
| SourceExists (id : string)
| NoSuchSource (id : string)
| SourceInUse (id : string)
| LayerExists (id : string)
| NoSuchLayer (id : string)
| StyleNotLoaded
| NullReference.

(** The result of running a callback: it completes, or it throws and
    leaves the state as it was at the throw. *)
Inductive outcome (S : Type) :=
| Ok (s : S)
| Threw (e : Error) (s : S).
Arguments Ok {S} s.
Arguments Threw {S} e s.

Definition andThen {S : Type} (r : outcome S) (k : S -> outcome S) : outcome S :=
  match r with
  | Ok s => k s
  | Threw e s => Threw e s
  end.

Definition finalState {S : Type} (r : outcome S) : S :=
  match r with
  | Ok s => s
  | Threw _ s => s
  end.

Definition completed {S : Type} (r : outcome S) : bool :=
  match r with
  | Ok _ => true
  | Threw _ _ => false
  end.

Definition is_some {A : Type} (o : option A) : bool :=
  match o with Some _ => true | None => false end.

Definition set_sources (v : gmap string SourceSpec) (m : Map) : Map :=
  mkMap v (layers m) (terrain m) (styleLoaded m) (bounds m) (camera m) (projection m).
Definition set_layers (v : list Layer) (m : Map) : Map :=
  mkMap (sources m) v (terrain m) (styleLoaded m) (bounds m) (camera m) (projection m).
Definition set_terrain (v : option (string * Q)) (m : Map) : Map :=
  mkMap (sources m) (layers m) v (styleLoaded m) (bounds m) (camera m) (projection m).
Definition set_camera (v : Camera) (m : Map) : Map :=
  mkMap (sources m) (layers m) (terrain m) (styleLoaded m) (bounds m) v (projection m).
Definition set_projection (v : Projection) (m : Map) : Map :=
  mkMap (sources m) (layers m) (terrain m) (styleLoaded m) (bounds m) (camera m) v.

Definition hasId (id : string) (l : Layer) : bool := String.eqb (layer_id l) id.

Definition getSource (id : string) (m : Map) : option SourceSpec := sources m !! id.

Definition getLayer (id : string) (m : Map) : option Layer := List.find (hasId id) (layers m).

Definition isStyleLoaded (m : Map) : bool := styleLoaded m.

Definition getBounds (m : Map) : Bounds := bounds m.

Definition usesSource (id : string) (l : Layer) : bool :=
  match layer_source l with
  | Some s => String.eqb s id
  | None => false
  end.

(** The commands that change the style throw while the style is not
    loaded. *)
Definition addSource (id : string) (spec : SourceSpec) (m : Map) : outcome Map :=
  if negb (isStyleLoaded m) then Threw StyleNotLoaded m
  else if is_some (getSource id m) then Threw (SourceExists id) m
  else Ok (set_sources (<[id := spec]> (sources m)) m).

Definition removeSource (id : string) (m : Map) : outcome Map :=
  if negb (isStyleLoaded m) then Threw StyleNotLoaded m
  else if is_some (getSource id m) then
    if existsb (usesSource id) (layers m) then Threw (SourceInUse id) m
    else Ok (set_sources (delete id (sources m)) m)
  else Threw (NoSuchSource id) m.

Fixpoint insertBefore (before : string) (l : Layer) (ls : list Layer) : list Layer :=
  match ls with
  | [] => [l]
  | x :: xs => if hasId before x then l :: x :: xs else x :: insertBefore before l xs
  end.

Definition sourceKnown (l : Layer) (m : Map) : bool :=
  match layer_source l with
  | Some s => is_some (getSource s m)
  | None => true
  end.

Definition addLayer (l : Layer) (before : option string) (m : Map) : outcome Map :=
  if negb (isStyleLoaded m) then Threw StyleNotLoaded m
  else if is_some (getLayer (layer_id l) m) then Threw (LayerExists (layer_id l)) m
  else if negb (sourceKnown l m) then
    Threw (NoSuchSource (match layer_source l with Some s => s | None => EmptyString end)) m
  else match before with
       | None => Ok (set_layers (layers m ++ [l]) m)
       | Some b =>
           if is_some (getLayer b m) then Ok (set_layers (insertBefore b l (layers m)) m)
           else Threw (NoSuchLayer b) m
       end.

Definition removeLayer (id : string) (m : Map) : outcome Map :=
  if negb (isStyleLoaded m) then Threw StyleNotLoaded m
  else if is_some (getLayer id m)
  then Ok (set_layers (List.filter (fun l => negb (hasId id l)) (layers m)) m)
  else Threw (NoSuchLayer id) m.

Definition setTerrain (src : string) (exaggeration : Q) (m : Map) : outcome Map :=
  if negb (isStyleLoaded m) then Threw StyleNotLoaded m
  else if is_some (getSource src m) then Ok (set_terrain (Some (src, exaggeration)) m)
  else Threw (NoSuchSource src) m.

Definition orKeep {A : Type} (o : option A) (d : A) : A :=
  match o with Some x => x | None => d end.

(** [jumpTo(options)]: the camera takes the given values at once.  The
    bearing is kept as it was committed (the engine's own
    normalisation of angles is not modelled). *)
Definition jumpTo (o : CameraOptions) (m : Map) : Map :=
  set_camera (mkCamera (orKeep (opt_center o) (center (camera m)))
                       (orKeep (opt_zoom o) (zoom (camera m)))
                       (orKeep (opt_pitch o) (pitch (camera m)))
                       (orKeep (opt_bearing o) (bearing (camera m)))) m.

(** [flyTo(options)]: the animated flight is abstracted to its end
    pose, the one the camera holds when the engine fires [moveend] for
    the flight. *)
Definition flyTo (o : CameraOptions) (m : Map) : Map := jumpTo o m.

Definition setProjection (p : Projection) (m : Map) : Map := set_projection p m.

(** [setStyle(style)]: every source and layer is replaced by those of
    the new style, the terrain setting is dropped, and the style is not
    loaded until the engine signals [style.load]. *)
Definition setStyle (st : Style) (m : Map) : Map :=
  mkMap (style_sources st) (style_layers st) None false (bounds m) (camera m) (projection m).

(** The engine has finished loading the style. *)
Definition markStyleLoaded (m : Map) : Map :=
  mkMap (sources m) (layers m) (terrain m) true (bounds m) (camera m) (projection m).

(** Sequencing of callbacks: the second runs when the first completed. *)
Definition chain {S : Type} (f g : S -> outcome S) : S -> outcome S :=
  fun s => andThen (f s) g.
Notation "f >>> g" := (chain f g) (at level 61, left associativity).

(** [map.getLayer(id) && map.removeLayer(id)], also written
    [if (map.getLayer(id)) map.removeLayer(id)]. *)
Definition removeLayerIfPresent (id : string) (m : Map) : outcome Map :=
  if is_some (getLayer id m) then removeLayer id m else Ok m.

(** [map.getSource(id) && map.removeSource(id)]. *)
Definition removeSourceIfPresent (id : string) (m : Map) : outcome Map :=
  if is_some (getSource id m) then removeSource id m else Ok m.

End Engine.

(** [modeRef.current]: "globe" or "focus". *)
Inductive Mode := GlobeMode | FocusMode.

(** ** The platform

    What the components take from the JavaScript runtime and from the
    engine's geometry: the successive values of [Math.random()] (each in
    [[0, 1)]), the trigonometric functions, the engine's screen projection,
    its terrain query and its Mercator conversion. *)

Class Platform := {
  random : nat -> Q;
  sin : Q -> Q;
  cos : Q -> Q;
  project : Engine.Map -> Q * Q -> Q * Q;
  queryTerrainElevation : Engine.Map -> Q * Q -> option Q;
  fromLngLat : Q * Q -> Q -> Q * Q * Q
}.

(** [Math.random()] returns a number in [[0, 1)]. *)
Definition randomInUnit (P : Platform) : Prop :=
  forall n : nat, 0 <= random n /\ random n < 1.

(** The viewport is a box: west is not east of east, south not north of
    north. *)
Definition boxBounds (b : Engine.Bounds) : Prop :=
  Engine.west b <= Engine.east b /\ Engine.south b <= Engine.north b.

(** A position lies in the box. *)
Definition withinBounds (b : Engine.Bounds) (lon lat : Q) : Prop :=
  Engine.west b <= lon /\ lon <= Engine.east b /\
  Engine.south b <= lat /\ lat <= Engine.north b.

(** ** The visualisation component (unnamed/part_000, lines 324-767) *)

Module Viz.
Import Engine.

Record Particle := mkParticle { lon : Q; lat : Q; age : Q }.

(** An element of [wind_series]; [speed_ms] may be missing. *)
Record FlowFrame := mkFrame {
  direction_deg : Q;
  speed_ms : option Q;
  date : string
}.

(** The parts of the backend's answers the component reads. *)
Record FluxResponse := mkFluxResponse { wind_series : option (list FlowFrame) }.
Record BoundaryResponse := mkBoundaryResponse { geojson : option GeoJSON }.

(** A stroke on the overlay canvas: [moveTo (x0, y0)], [lineTo (x1, y1)]. *)
Record Segment := mkSegment { x0 : Q; y0 : Q; x1 : Q; y1 : Q }.

(** [threeStateRef.current]: which objects exist, and the positions of
    the point cloud. *)
Record ThreeState := mkThree {
  scene : bool;
  three_camera : bool;
  renderer : bool;
  points : option (list (Q * Q * Q))
}.

(** The closures handed to [whenStyleReady]. *)
Inductive StyleTask :=
| TerrainTask
| BuildingsTask
| HighlightTask (g : GeoJSON).

Inductive Request :=
| BoundaryRequest (city : string)
| FluxRequest (city : string).

Record State := mkState {
  mapRef : option Map;
  markerRef : option (Q * Q);
  highlightDataRef : option GeoJSON;
  rotatingRef : bool;
  bearingRef : Q;
  modeRef : Mode;
  selectedCity : option string;
  show3D : bool;
  particleArray : list Particle;
  flowFrameRef : nat;
  windSeriesRef : list FlowFrame;
  threeStateRef : ThreeState;
  canvas : list Segment;
  drawLoops : list bool;
  pendingStyleLoad : list StyleTask;
  fetchLog : list Request;
  rngCalls : nat
}.

Definition set_mapRef (v : option Map) (s : State) : State :=
  mkState v (markerRef s) (highlightDataRef s) (rotatingRef s) (bearingRef s)
    (modeRef s) (selectedCity s) (show3D s) (particleArray s) (flowFrameRef s)
    (windSeriesRef s) (threeStateRef s) (canvas s) (drawLoops s)
    (pendingStyleLoad s) (fetchLog s) (rngCalls s).
Definition set_markerRef (v : option (Q * Q)) (s : State) : State :=
  mkState (mapRef s) v (highlightDataRef s) (rotatingRef s) (bearingRef s)
    (modeRef s) (selectedCity s) (show3D s) (particleArray s) (flowFrameRef s)
    (windSeriesRef s) (threeStateRef s) (canvas s) (drawLoops s)
    (pendingStyleLoad s) (fetchLog s) (rngCalls s).
Definition set_highlightDataRef (v : option GeoJSON) (s : State) : State :=
  mkState (mapRef s) (markerRef s) v (rotatingRef s) (bearingRef s) (modeRef s)
    (selectedCity s) (show3D s) (particleArray s) (flowFrameRef s) (windSeriesRef s)
    (threeStateRef s) (canvas s) (drawLoops s) (pendingStyleLoad s) (fetchLog s)
    (rngCalls s).
Definition set_rotatingRef (v : bool) (s : State) : State :=
  mkState (mapRef s) (markerRef s) (highlightDataRef s) v (bearingRef s) (modeRef s)
    (selectedCity s) (show3D s) (particleArray s) (flowFrameRef s) (windSeriesRef s)
    (threeStateRef s) (canvas s) (drawLoops s) (pendingStyleLoad s) (fetchLog s)
    (rngCalls s).
Definition set_bearingRef (v : Q) (s : State) : State :=
  mkState (mapRef s) (markerRef s) (highlightDataRef s) (rotatingRef s) v
    (modeRef s) (selectedCity s) (show3D s) (particleArray s) (flowFrameRef s)
    (windSeriesRef s) (threeStateRef s) (canvas s) (drawLoops s)
    (pendingStyleLoad s) (fetchLog s) (rngCalls s).
Definition set_selectedCity (v : option string) (s : State) : State :=
  mkState (mapRef s) (markerRef s) (highlightDataRef s) (rotatingRef s)
    (bearingRef s) (modeRef s) v (show3D s) (particleArray s) (flowFrameRef s)
    (windSeriesRef s) (threeStateRef s) (canvas s) (drawLoops s)
    (pendingStyleLoad s) (fetchLog s) (rngCalls s).
Definition set_show3D (v : bool) (s : State) : State :=
  mkState (mapRef s) (markerRef s) (highlightDataRef s) (rotatingRef s)
    (bearingRef s) (modeRef s) (selectedCity s) v (particleArray s) (flowFrameRef s)
    (windSeriesRef s) (threeStateRef s) (canvas s) (drawLoops s)
    (pendingStyleLoad s) (fetchLog s) (rngCalls s).
Definition set_particleArray (v : list Particle) (s : State) : State :=
  mkState (mapRef s) (markerRef s) (highlightDataRef s) (rotatingRef s)
    (bearingRef s) (modeRef s) (selectedCity s) (show3D s) v (flowFrameRef s)
    (windSeriesRef s) (threeStateRef s) (canvas s) (drawLoops s)
    (pendingStyleLoad s) (fetchLog s) (rngCalls s).
Definition set_flowFrameRef (v : nat) (s : State) : State :=
  mkState (mapRef s) (markerRef s) (highlightDataRef s) (rotatingRef s)
    (bearingRef s) (modeRef s) (selectedCity s) (show3D s) (particleArray s) v
    (windSeriesRef s) (threeStateRef s) (canvas s) (drawLoops s)
    (pendingStyleLoad s) (fetchLog s) (rngCalls s).
Definition set_windSeriesRef (v : list FlowFrame) (s : State) : State :=
  mkState (mapRef s) (markerRef s) (highlightDataRef s) (rotatingRef s)
    (bearingRef s) (modeRef s) (selectedCity s) (show3D s) (particleArray s)
    (flowFrameRef s) v (threeStateRef s) (canvas s) (drawLoops s)
    (pendingStyleLoad s) (fetchLog s) (rngCalls s).
Definition set_threeStateRef (v : ThreeState) (s : State) : State :=
  mkState (mapRef s) (markerRef s) (highlightDataRef s) (rotatingRef s)
    (bearingRef s) (modeRef s) (selectedCity s) (show3D s) (particleArray s)
    (flowFrameRef s) (windSeriesRef s) v (canvas s) (drawLoops s)
    (pendingStyleLoad s) (fetchLog s) (rngCalls s).
Definition set_canvas (v : list Segment) (s : State) : State :=
  mkState (mapRef s) (markerRef s) (highlightDataRef s) (rotatingRef s)
    (bearingRef s) (modeRef s) (selectedCity s) (show3D s) (particleArray s)
    (flowFrameRef s) (windSeriesRef s) (threeStateRef s) v (drawLoops s)
    (pendingStyleLoad s) (fetchLog s) (rngCalls s).
Definition set_drawLoops (v : list bool) (s : State) : State :=
  mkState (mapRef s) (markerRef s) (highlightDataRef s) (rotatingRef s)
    (bearingRef s) (modeRef s) (selectedCity s) (show3D s) (particleArray s)
    (flowFrameRef s) (windSeriesRef s) (threeStateRef s) (canvas s) v
    (pendingStyleLoad s) (fetchLog s) (rngCalls s).
Definition set_pendingStyleLoad (v : list StyleTask) (s : State) : State :=
  mkState (mapRef s) (markerRef s) (highlightDataRef s) (rotatingRef s)
    (bearingRef s) (modeRef s) (selectedCity s) (show3D s) (particleArray s)
    (flowFrameRef s) (windSeriesRef s) (threeStateRef s) (canvas s) (drawLoops s) v
    (fetchLog s) (rngCalls s).
Definition set_fetchLog (v : list Request) (s : State) : State :=
  mkState (mapRef s) (markerRef s) (highlightDataRef s) (rotatingRef s)
    (bearingRef s) (modeRef s) (selectedCity s) (show3D s) (particleArray s)
    (flowFrameRef s) (windSeriesRef s) (threeStateRef s) (canvas s) (drawLoops s)
    (pendingStyleLoad s) v (rngCalls s).
Definition set_rngCalls (v : nat) (s : State) : State :=
  mkState (mapRef s) (markerRef s) (highlightDataRef s) (rotatingRef s)
    (bearingRef s) (modeRef s) (selectedCity s) (show3D s) (particleArray s)
    (flowFrameRef s) (windSeriesRef s) (threeStateRef s) (canvas s) (drawLoops s)
    (pendingStyleLoad s) (fetchLog s) v.

Definition initialThree : ThreeState := mkThree false false false None.

(** The refs and state of a mounted component whose map is [m]. *)
Definition mounted (m : Map) : State :=
  mkState (Some m) None None true 0 GlobeMode None false [] 0%nat [] initialThree
          [] [] [] [] 0%nat.

(** Run an engine command on [mapRef.current]; the map is null only
    before the component is mounted. *)
Definition onMap (f : Map -> outcome Map) (s : State) : outcome State :=
  match mapRef s with
  | None => Threw NullReference s
  | Some m =>
      match f m with
      | Ok m' => Ok (set_mapRef (Some m') s)
      | Threw e m' => Threw e (set_mapRef (Some m') s)
      end
  end.

(** *** Bodies of the style tasks *)

Definition demSource : SourceSpec :=
  RasterDem "mapbox://mapbox.mapbox-terrain-dem-v1" 512 14.

Definition terrainTask : Map -> outcome Map :=
  (fun m => if is_some (getSource "mapbox-dem" m) then Ok m
            else addSource "mapbox-dem" demSource m)
  >>> setTerrain "mapbox-dem" (12 # 10).

Definition buildingsLayer : Layer :=
  mkLayer "3d-buildings" FillExtrusion (Some "composite"%string)
    [("fill-extrusion-color", "#bbb"); ("fill-extrusion-height", "get height");
     ("fill-extrusion-base", "get min_height"); ("fill-extrusion-opacity", "0.6")]%string.

Definition buildingsTask (m : Map) : outcome Map :=
  if is_some (getLayer "3d-buildings" m) || negb (is_some (getSource "composite" m))
  then Ok m
  else addLayer buildingsLayer (Some "waterway-label"%string) m.

Definition highlightFill : Layer :=
  mkLayer "highlight-fill" Fill (Some "highlight"%string)
    [("fill-color", "rgba(255,0,0,0.12)")]%string.

Definition highlightOutline : Layer :=
  mkLayer "highlight-outline" Line (Some "highlight"%string)
    [("line-color", "#ff0000"); ("line-width", "2"); ("line-blur", "0.2")]%string.

Definition highlightTask (g : GeoJSON) : Map -> outcome Map :=
  removeLayerIfPresent "highlight-fill"
  >>> removeLayerIfPresent "highlight-outline"
  >>> removeSourceIfPresent "highlight"
  >>> addSource "highlight" (GeoJsonSource g)
  >>> addLayer highlightFill None
  >>> addLayer highlightOutline None.

Definition runTask (t : StyleTask) : Map -> outcome Map :=
  match t with
  | TerrainTask => terrainTask
  | BuildingsTask => buildingsTask
  | HighlightTask g => highlightTask g
  end.

(** [whenStyleReady(map, fn)]: run [fn] now when the style is loaded,
    else register it once for the next [style.load]. *)
Definition whenStyleReady (t : StyleTask) (s : State) : outcome State :=
  match mapRef s with
  | None => Ok s
  | Some m =>
      if isStyleLoaded m then onMap (runTask t) s
      else Ok (set_pendingStyleLoad (pendingStyleLoad s ++ [t]) s)
  end.

Definition ensureTerrain (s : State) : outcome State :=
  match mapRef s with
  | None => Ok s
  | Some _ => whenStyleReady TerrainTask s
  end.

Definition add3DBuildings (s : State) : outcome State :=
  match mapRef s with
  | None => Ok s
  | Some _ => whenStyleReady BuildingsTask s
  end.

(** [addHighlightLayer(geojson)]; a GeoJSON object is never falsy. *)
Definition addHighlightLayer (g : GeoJSON) (s : State) : outcome State :=
  match mapRef s with
  | None => Ok s
  | Some _ => whenStyleReady (HighlightTask g) s
  end.

Definition restoreHighlight (s : State) : outcome State :=
  match highlightDataRef s with
  | Some g => addHighlightLayer g s
  | None => Ok s
  end.

(** [fetchAndDrawBoundary(name)], given what the request resolved to:
    [None] when the fetch or the JSON parsing failed.  A throw inside
    the [try] is caught and logged. *)
Definition fetchAndDrawBoundary (name : string) (resp : option BoundaryResponse)
    (s : State) : State :=
  let s1 := set_fetchLog (fetchLog s ++ [BoundaryRequest name]) s in
  match resp with
  | Some (mkBoundaryResponse (Some g)) =>
      finalState (addHighlightLayer g (set_highlightDataRef (Some g) s1))
  | _ => s1
  end.

(** *** 2D arrows *)

Definition spawnLon (b : Bounds) (r : Q) : Q := west b + r * (east b - west b).
Definition spawnLat (b : Bounds) (r : Q) : Q := south b + r * (north b - south b).

Section WithPlatform.
Context {P : Platform}.

(** One element of [Array.from({ length: N }, () => ...)]: three calls
    of [Math.random()], for [lon], [lat] and [age]. *)
Definition seedParticle (b : Bounds) (n : nat) : Particle :=
  mkParticle (spawnLon b (random n)) (spawnLat b (random (n + 1)))
             (random (n + 2) * 200).

Definition seedParticles (b : Bounds) (n count : nat) : list Particle :=
  List.map (fun i => seedParticle b (n + 3 * i)) (List.seq 0 count).

Definition heading (f : FlowFrame) : Q :=
  JS.rem (direction_deg f + 180) 360 * (JS.PI / 180).

Definition speed (f : FlowFrame) : Q := JS.orElse (speed_ms f) 0.

Definition baseLen (f : FlowFrame) : Q := JS.min 18 (speed f * (5 # 10)).

Definition driftStep (f : FlowFrame) : Q :=
  (15 # 10000) + JS.min (4 # 1000) (speed f * (3 # 10000)).

(** The body of [particleArray.current.forEach((p) => ...)] for one
    particle: stroke the arrow, drift, age, respawn.  [n] counts the
    calls of [Math.random()] so far. *)
Definition stepParticle (m : Map) (f : FlowFrame) (p : Particle) (n : nat)
    : Particle * Segment * nat :=
  let pos := project m (lon p, lat p) in
  let dx := baseLen f * sin (heading f) in
  let dy := baseLen f * cos (heading f) in
  let stroke := mkSegment (fst pos) (snd pos) (fst pos + dx) (snd pos - dy) in
  let lon1 := lon p + driftStep f * sin (heading f) in
  let lat1 := lat p + driftStep f * cos (heading f) in
  let age1 := age p + 1 in
  if JS.gt age1 300 then
    let b := getBounds m in
    (mkParticle (spawnLon b (random n)) (spawnLat b (random (n + 1))) 0,
     stroke, (n + 2)%nat)
  else (mkParticle lon1 lat1 age1, stroke, n).

Fixpoint forEachParticle (m : Map) (f : FlowFrame) (ps : list Particle) (n : nat)
    : list Particle * list Segment * nat :=
  match ps with
  | [] => ([], [], n)
  | p :: rest =>
      let '(p', stroke, n1) := stepParticle m f p n in
      let '(rest', strokes, n2) := forEachParticle m f rest n1 in
      (p' :: rest', stroke :: strokes, n2)
  end.

(** One run of the [draw] closure.  [captured3D] is the value of
    [show3D] the closure captured when [init2DArrows] was called; the
    map is the one [init2DArrows] read from [mapRef], which is never
    reassigned. *)
Definition draw (captured3D : bool) (s : State) : State :=
  if captured3D then set_canvas [] s
  else
    let s1 := set_canvas [] s in
    match mapRef s1, windSeriesRef s1 with
    | Some m, f0 :: fs =>
        let frames := f0 :: fs in
        let f := nth (flowFrameRef s1 mod length frames) frames f0 in
        let '(ps, strokes, n) := forEachParticle m f (particleArray s1) (rngCalls s1) in
        set_flowFrameRef ((flowFrameRef s1 + 1) mod length frames)
          (set_rngCalls n (set_canvas strokes (set_particleArray ps s1)))
    | _, _ => s1
    end.

(** [init2DArrows()]: seed 200 particles in the current bounds and
    start a [draw] loop, whose first run is immediate.  The canvas
    element exists whenever the component is mounted; its size is not
    modelled. *)
Definition init2DArrows (s : State) : State :=
  match mapRef s with
  | None => s
  | Some m =>
      let s1 := set_rngCalls (rngCalls s + 600)
                  (set_particleArray (seedParticles (getBounds m) (rngCalls s) 200) s) in
      draw (show3D s) (set_drawLoops (drawLoops s ++ [show3D s]) s1)
  end.

(** One display frame of the overlay: every live [draw] closure runs. *)
Definition animationFrame (s : State) : State :=
  fold_left (fun acc captured => draw captured acc) (drawLoops s) s.

(** *** 3D custom layer *)

Definition customLayer : Layer := mkLayer "flux-3d-particles" Custom None [].

(** One iteration of the sampling loop of [add3DLayer]. *)
Definition samplePoint (m : Map) (n : nat) : Q * Q * Q :=
  let b := getBounds m in
  let lon := spawnLon b (random n) in
  let lat := spawnLat b (random (n + 1)) in
  let alt := JS.orElse (queryTerrainElevation m (lon, lat)) 0 + 40
             + random (n + 2) * 80 in
  fromLngLat (lon, lat) alt.

(** [add3DLayer()].  Besides the three calls of [Math.random()] per
    sampled point, the three.js constructors draw the UUID of every new
    object from [Math.random()], four calls each: [Scene], [Camera] and
    [BufferGeometry] before the sampling loop (12 calls), [PointsMaterial]
    and [Points] after it (8 calls); 5420 calls in all.  The objects are
    stored in [threeStateRef] before the engine is asked to add the
    layer. *)
Definition add3DLayer (s : State) : outcome State :=
  match mapRef s with
  | None => Ok s
  | Some m =>
      if is_some (getLayer "flux-3d-particles" m) then Ok s
      else
        let pts := List.map (fun i => samplePoint m (rngCalls s + 12 + 3 * i))
                            (List.seq 0 1800) in
        onMap (addLayer customLayer (Some "waterway-label"%string))
              (set_threeStateRef (mkThree true true true (Some pts))
                 (set_rngCalls (rngCalls s + 5420) s))
  end.

Definition remove3DLayer (s : State) : outcome State :=
  onMap (removeLayerIfPresent "flux-3d-particles") s.

(** *** Events *)

(** The listener registered with [map.on("style.load", ...)]. *)
Definition styleLoadHandler : State -> outcome State :=
  ensureTerrain >>> add3DBuildings >>> restoreHighlight.

Fixpoint runPending (ts : list StyleTask) (s : State) : outcome State :=
  match ts with
  | [] => Ok s
  | t :: rest => andThen (onMap (runTask t) s) (runPending rest)
  end.

(** The engine signals [style.load]: the style is loaded, the
    permanent listener runs, then the listeners registered once. *)
Definition fireStyleLoad (s : State) : outcome State :=
  match mapRef s with
  | None => Ok s
  | Some m =>
      let ts := pendingStyleLoad s in
      andThen (styleLoadHandler
                 (set_pendingStyleLoad [] (set_mapRef (Some (markStyleLoaded m)) s)))
              (runPending ts)
  end.

(** A basemap button: [mapRef.current.setStyle(...)]. *)
Definition switchBase (st : Style) (s : State) : outcome State :=
  onMap (fun m => Ok (setStyle st m)) s.

(** A basemap swap followed by the engine's [style.load]. *)
Definition reloadStyle (st : Style) : State -> outcome State :=
  switchBase st >>> fireStyleLoad.

(** The geocoder's [result] listener, given what the boundary request
    resolved to. *)
Definition onGeocoderResult (name : string) (coords : Q * Q)
    (resp : option BoundaryResponse) (s : State) : outcome State :=
  let s1 := set_markerRef (Some coords)
              (set_rotatingRef false (set_selectedCity (Some name) s)) in
  onMap (fun m => Ok (flyTo (mkCameraOptions (Some coords) (Some 11) (Some 60) (Some 30)) m))
        (fetchAndDrawBoundary name resp s1).

Definition truthy (o : option string) : option string :=
  match o with
  | Some EmptyString => None
  | _ => o
  end.

(** [runSimulation()], given what the flux request resolved to ([None]:
    the fetch or the parsing failed).  Everything after the fetch is
    inside the [try]; a throw is caught and logged. *)
Definition runSimulation (resp : option FluxResponse) (s : State) : State :=
  match truthy (selectedCity s) with
  | None => s
  | Some city =>
      let s1 := set_fetchLog (fetchLog s ++ [FluxRequest city]) s in
      match resp with
      | None => s1
      | Some data =>
          let s2 := set_windSeriesRef
                      (match wind_series data with Some w => w | None => [] end) s1 in
          if show3D s2 then finalState ((remove3DLayer >>> add3DLayer) s2)
          else init2DArrows s2
      end
  end.

Definition resetGlobe : State -> outcome State :=
  onMap (fun m => Ok (flyTo (mkCameraOptions (Some (0, 20)) (Some (15 # 10)) (Some 0) (Some 0)) m))
  >>> onMap (removeLayerIfPresent "highlight-fill")
  >>> onMap (removeLayerIfPresent "highlight-outline")
  >>> onMap (removeSourceIfPresent "highlight")
  >>> (fun s => Ok (set_selectedCity None s))
  >>> remove3DLayer.

Definition defaultAnchor : Q * Q := (775946 # 10000, 129716 # 10000).

(** [toggle3D()]: the handler works with the [show3D] of the current
    render; the new value is committed when the handler returns. *)
Definition toggle3D (s : State) : outcome State :=
  let next := negb (show3D s) in
  let commit (r : outcome State) : outcome State :=
    match r with
    | Ok s' => Ok (set_show3D next s')
    | Threw e s' => Threw e (set_show3D next s')
    end in
  commit
    (if next then
       let center := match truthy (selectedCity s), markerRef s with
                     | Some _, Some c => c
                     | _, _ => defaultAnchor
                     end in
       (onMap (fun m => Ok (flyTo (mkCameraOptions (Some center) (Some 12) (Some 60) (Some 30))
                                  (setProjection Mercator m)))
        >>> remove3DLayer >>> add3DLayer) s
     else
       (remove3DLayer
        >>> onMap (fun m => Ok (setProjection Globe m))
        >>> (fun s' => Ok (init2DArrows s'))
        >>> onMap (fun m => Ok (flyTo (mkCameraOptions None None (Some 0) (Some 0)) m))) s).

(** *** Orbit *)

Definition animateOrbit (s : State) : State :=
  match rotatingRef s, mapRef s, modeRef s with
  | true, Some m, GlobeMode =>
      let b := bearingRef s + (5 # 100) in
      set_mapRef (Some (jumpTo (mkCameraOptions (Some (0, 20)) (Some (15 # 10)) None (Some b)) m))
                 (set_bearingRef b s)
  | _, _, _ => s
  end.

Definition ticks (n : nat) (s : State) : State := Nat.iter n animateOrbit s.

(** The [load] callback: terrain, buildings; the geocoder and the
    [style.load] listener are registered; the call of [animateOrbit()]
    that ends it is the first run of the orbit loop. *)
Definition onLoad : State -> outcome State :=
  ensureTerrain >>> add3DBuildings >>> (fun s => Ok (animateOrbit s)).

(** What one repaint does to a particle under frame [f] on map [m]:
    past the cap of 300 it is respawned inside the bounds with age 0,
    else it ages by one and drifts along the heading. *)
Definition repainted (m : Map) (f : FlowFrame) (p p' : Particle) : Prop :=
  (300 < age p + 1 ->
   age p' = 0 /\ withinBounds (getBounds m) (lon p') (lat p')) /\
  (age p + 1 <= 300 ->
   age p' = age p + 1 /\
   lon p' = lon p + driftStep f * sin (heading f) /\
   lat p' = lat p + driftStep f * cos (heading f)).

(** The stroke of a particle: from its projected position, of length
    [len] along heading [h] (clockwise from screen-up). *)
Definition strokeOf (m : Map) (h len : Q) (p : Particle) : Segment :=
  let pos := project m (lon p, lat p) in
  mkSegment (fst pos) (snd pos) (fst pos + len * sin h) (snd pos - len * cos h).

(** The frame a repaint reads. *)
Definition currentFrame (s : State) (f0 : FlowFrame) : FlowFrame :=
  nth (flowFrameRef s mod length (windSeriesRef s)) (windSeriesRef s) f0.

End WithPlatform.

(** The layers that are not the two highlight layers. *)
Definition stripHighlight (ls : list Layer) : list Layer :=
  List.filter (fun l => negb (hasId "highlight-outline" l))
              (List.filter (fun l => negb (hasId "highlight-fill" l)) ls).

(** A layer other than the two highlight layers that draws from the
    source "highlight". *)
Definition foreignUser (l : Layer) : bool :=
  usesSource "highlight" l && negb (hasId "highlight-fill" l)
  && negb (hasId "highlight-outline" l).

(** Only the highlight layers draw from the source "highlight". *)
Definition highlightOwned (m : Map) : Prop := existsb foreignUser (layers m) = false.

(** The map the highlight task leaves. *)
Definition withHighlight (g : GeoJSON) (m : Map) : Map :=
  set_layers (stripHighlight (layers m) ++ [highlightFill; highlightOutline])
             (set_sources (<["highlight" := GeoJsonSource g]> (sources m)) m).

(** The map the terrain task leaves. *)
Definition withTerrain (m : Map) : Map :=
  set_terrain (Some ("mapbox-dem"%string, 12 # 10))
    (set_sources (match sources m !! "mapbox-dem"%string with
                  | Some _ => sources m
                  | None => <["mapbox-dem" := demSource]> (sources m)
                  end) m).

(** The buildings task has nothing to do. *)
Definition buildingsSettled (m : Map) : bool :=
  is_some (getLayer "3d-buildings" m) || negb (is_some (getSource "composite" m)).

(** The map the buildings task leaves. *)
Definition withBuildings (m : Map) : Map :=
  if buildingsSettled m then m
  else set_layers (insertBefore "waterway-label" buildingsLayer (layers m)) m.

(** The highlight layers registered on the map, fill then outline. *)
Definition highlightLayers (s : State) : option Layer * option Layer :=
  match mapRef s with
  | Some m => (getLayer "highlight-fill" m, getLayer "highlight-outline" m)
  | None => (None, None)
  end.

(** The custom layer of the point cloud is registered. *)
Definition customRegistered (s : State) : bool :=
  match mapRef s with
  | Some m => is_some (getLayer "flux-3d-particles" m)
  | None => false
  end.

(** The map without the custom layer, and with it put (back) before
    the waterway labels. *)
Definition withoutCustom (m : Map) : Map :=
  set_layers (List.filter (fun l => negb (hasId "flux-3d-particles" l)) (layers m)) m.

Definition withCustom (m : Map) : Map :=
  set_layers (insertBefore "waterway-label" (mkLayer "flux-3d-particles" Custom None [])
                           (layers (withoutCustom m)))
             (withoutCustom m).

(** A callback that leaves [highlightDataRef] as it is, whether it
    completes or throws. *)
Definition keepsHighlight (f : State -> outcome State) : Prop :=
  forall s, highlightDataRef (finalState (f s)) = highlightDataRef s.

(** The map a replay of the three attachments leaves. *)
Definition replayed (h : option GeoJSON) (m : Map) : Map :=
  match h with
  | Some g => withHighlight g (withBuildings (withTerrain m))
  | None => withBuildings (withTerrain m)
  end.

End Viz.

(** ** Timers of the platform

    [setTimeout] and [clearTimeout] over a clock in milliseconds.  A timer
    fires when the clock reaches its due time; the only timers the
    components create run their resume callback, so a timer carries no
    callback of its own.  Timer ids start at 1, so a stored id is never
    falsy. *)

Module Timers.

Record Timer := mkTimer { timer_id : nat; due : N }.

Record Clock := mkClock { now : N; pending : list Timer; nextId : nat }.

Definition initialClock : Clock := mkClock 0 [] 1.

Definition setTimeout (delay : N) (c : Clock) : nat * Clock :=
  (nextId c,
   mkClock (now c) (pending c ++ [mkTimer (nextId c) (now c + delay)]) (S (nextId c))).

Definition clearTimeout (id : nat) (c : Clock) : Clock :=
  mkClock (now c) (List.filter (fun t => negb (Nat.eqb (timer_id t) id)) (pending c))
          (nextId c).

Definition isDue (t : N) (x : Timer) : bool := N.leb (due x) t.

(** [dt] milliseconds pass: the timers that fire, and the clock after. *)
Definition elapse (dt : N) (c : Clock) : list Timer * Clock :=
  let t := (now c + dt)%N in
  (List.filter (isDue t) (pending c),
   mkClock t (List.filter (fun x => negb (isDue t x)) (pending c)) (nextId c)).

End Timers.

(** What happens to a component between two user interactions: display
    frames and the passing of time. *)
Inductive Idle :=
| Frame
| Elapse (dt : N).

Fixpoint elapsed (evs : list Idle) : N :=
  match evs with
  | [] => 0%N
  | Frame :: rest => elapsed rest
  | Elapse dt :: rest => (dt + elapsed rest)%N
  end.

(** The resume delay of [pauseOrbit], in milliseconds. *)
Definition resumeDelay : N := 5000.

(** What reaches a component while the user does nothing: display
    frames, time passing, and the engine's [moveend], which runs the
    listeners that selections registered with [once("moveend", ...)] and
    that are still waiting (the end of a flight, or of a drag, fires
    it). *)
Inductive Signal :=
| Quiet (ev : Idle)
| MoveEnd.

Definition isMoveEnd (g : Signal) : bool :=
  match g with
  | MoveEnd => true
  | Quiet _ => false
  end.

(** The time that passes during the signals. *)
Fixpoint waited (gs : list Signal) : N :=
  match gs with
  | [] => 0%N
  | Quiet (Elapse dt) :: rest => (dt + waited rest)%N
  | _ :: rest => waited rest
  end.

(** ** The frontend component (frontend/src/components/GlobeMap.jsx)

    The orbit and its pause timer; the highlight and the simulation panel
    of this file are not part of this module. *)

Module Frontend.
Import Engine Timers.

(** [moveEndOnce] counts the listeners registered with
    [once("moveend", ...)] that have not run yet. *)
Record State := mkState {
  mapRef : option Map;
  rotatingRef : bool;
  bearingRef : Q;
  modeRef : Mode;
  resumeTimerRef : option nat;
  clock : Clock;
  moveEndOnce : nat
}.

Definition set_mapRef (v : option Map) (s : State) : State :=
  mkState v (rotatingRef s) (bearingRef s) (modeRef s) (resumeTimerRef s) (clock s)
    (moveEndOnce s).
Definition set_rotatingRef (v : bool) (s : State) : State :=
  mkState (mapRef s) v (bearingRef s) (modeRef s) (resumeTimerRef s) (clock s)
    (moveEndOnce s).
Definition set_bearingRef (v : Q) (s : State) : State :=
  mkState (mapRef s) (rotatingRef s) v (modeRef s) (resumeTimerRef s) (clock s)
    (moveEndOnce s).
Definition set_modeRef (v : Mode) (s : State) : State :=
  mkState (mapRef s) (rotatingRef s) (bearingRef s) v (resumeTimerRef s) (clock s)
    (moveEndOnce s).
Definition set_resumeTimerRef (v : option nat) (s : State) : State :=
  mkState (mapRef s) (rotatingRef s) (bearingRef s) (modeRef s) v (clock s)
    (moveEndOnce s).
Definition set_clock (v : Clock) (s : State) : State :=
  mkState (mapRef s) (rotatingRef s) (bearingRef s) (modeRef s) (resumeTimerRef s)
    v (moveEndOnce s).
Definition set_moveEndOnce (v : nat) (s : State) : State :=
  mkState (mapRef s) (rotatingRef s) (bearingRef s) (modeRef s) (resumeTimerRef s)
    (clock s) v.

Definition mounted (m : Map) : State :=
  mkState (Some m) true 0 GlobeMode None initialClock 0.

Definition step (mode : Mode) : Q :=
  match mode with
  | GlobeMode => 5 # 100
  | FocusMode => 2 # 10
  end.

(** One run of [animateOrbit]; the re-scheduling with
    [requestAnimationFrame] is the [Frame] event. *)
Definition animateOrbit (s : State) : State :=
  match rotatingRef s, mapRef s with
  | true, Some m =>
      let b := bearingRef s + step (modeRef s) in
      let o := match modeRef s with
               | GlobeMode => mkCameraOptions (Some (0, 20)) (Some (15 # 10)) (Some 0) (Some b)
               | FocusMode => mkCameraOptions (Some (center (camera m))) (Some (zoom (camera m)))
                                              (Some (pitch (camera m))) (Some b)
               end in
      set_mapRef (Some (jumpTo o m)) (set_bearingRef b s)
  | _, _ => s
  end.

(** The callback of the resume timer. *)
Definition resumeOrbit (s : State) : State := set_rotatingRef true s.

Definition pauseOrbit (s : State) : State :=
  let s1 := set_rotatingRef false s in
  let c1 := match resumeTimerRef s1 with
            | Some id => clearTimeout id (clock s1)
            | None => clock s1
            end in
  let '(id, c2) := setTimeout resumeDelay c1 in
  set_resumeTimerRef (Some id) (set_clock c2 s1).

(** Time passes: the due timers fire. *)
Definition advance (dt : N) (s : State) : State :=
  let '(fired, c) := elapse dt (clock s) in
  fold_left (fun acc _ => resumeOrbit acc) fired (set_clock c s).

Definition idle (ev : Idle) (s : State) : State :=
  match ev with
  | Frame => animateOrbit s
  | Elapse dt => advance dt s
  end.

Definition run (evs : list Idle) (s : State) : State :=
  fold_left (fun acc ev => idle ev acc) evs s.

(** The geocoder's [result] listener, as far as the orbit goes: focus
    mode, rotation off, flight to the place, and one more listener
    waiting for [moveend]. *)
Definition onGeocoderResult (coords : Q * Q) (s : State) : State :=
  let s1 := set_rotatingRef false (set_modeRef FocusMode s) in
  match mapRef s1 with
  | Some m =>
      let s2 := set_mapRef (Some (flyTo (mkCameraOptions (Some coords) (Some 10) (Some 60)
                                                         (Some 30)) m)) s1 in
      set_moveEndOnce (S (moveEndOnce s2)) s2
  | None => s1
  end.

(** The [moveend] listener registered after the flight. *)
Definition onMoveEnd (s : State) : State :=
  set_rotatingRef true (set_bearingRef 30 s).

(** The engine fires [moveend]: every waiting listener runs, once. *)
Definition fireMoveEnd (s : State) : State :=
  set_moveEndOnce 0 (Nat.iter (moveEndOnce s) onMoveEnd s).

(** [n] consecutive runs of [animateOrbit]. *)
Definition ticks (n : nat) (s : State) : State := Nat.iter n animateOrbit s.

(** The bearing the engine's camera holds: the one last committed with
    [jumpTo]. *)
Definition committedBearing (s : State) : option Q :=
  match mapRef s with
  | Some m => Some (bearing (camera m))
  | None => None
  end.

(** Every pending timer is the one [resumeTimerRef] holds. *)
Definition tracked (s : State) : Prop :=
  forall t, In t (pending (clock s)) -> resumeTimerRef s = Some (timer_id t).

(** What a signal does to the component, and a run of signals with no
    interaction of the user in between. *)
Definition settle (g : Signal) (s : State) : State :=
  match g with
  | Quiet ev => idle ev s
  | MoveEnd => fireMoveEnd s
  end.

Definition unattended (gs : list Signal) (s : State) : State :=
  fold_left (fun acc g => settle g acc) gs s.

(** Some listener is waiting for [moveend] and the signals bring one. *)
Definition heard (s : State) (gs : list Signal) : bool :=
  negb (Nat.eqb (moveEndOnce s) 0) && existsb isMoveEnd gs.

(** What the user and the platform do to the orbit: a drag or zoom
    starts (the [dragstart] and [zoomstart] listeners call [pauseOrbit]),
    a display frame comes, or time passes. *)
Inductive Input :=
| Drag
| Wait (ev : Idle).

Definition react (i : Input) (s : State) : State :=
  match i with
  | Drag => pauseOrbit s
  | Wait ev => idle ev s
  end.

Definition session (ins : list Input) (s : State) : State :=
  fold_left (fun acc i => react i acc) ins s.

(** The orbit is on or a timer that will switch it back on is pending,
    and never more than one timer is. *)
Definition resumable (s : State) : Prop :=
  tracked s /\ (length (pending (clock s)) <= 1)%nat /\
  (rotatingRef s = false -> pending (clock s) <> []).

End Frontend.

(** ** The component with the results panel (unnamed/part_000, lines 768-1300) *)

Module Flux.
Import Engine Timers.

(** [moveEndOnce] counts the listeners registered with
    [once("moveend", ...)] that have not run yet. *)
Record State := mkState {
  mapRef : option Map;
  highlightDataRef : option GeoJSON;
  rotatingRef : bool;
  bearingRef : Q;
  modeRef : Mode;
  resumeTimerRef : option nat;
  selectedCity : option string;
  clock : Clock;
  moveEndOnce : nat
}.

Definition set_mapRef (v : option Map) (s : State) : State :=
  mkState v (highlightDataRef s) (rotatingRef s) (bearingRef s) (modeRef s)
    (resumeTimerRef s) (selectedCity s) (clock s) (moveEndOnce s).
Definition set_highlightDataRef (v : option GeoJSON) (s : State) : State :=
  mkState (mapRef s) v (rotatingRef s) (bearingRef s) (modeRef s) (resumeTimerRef s)
    (selectedCity s) (clock s) (moveEndOnce s).
Definition set_rotatingRef (v : bool) (s : State) : State :=
  mkState (mapRef s) (highlightDataRef s) v (bearingRef s) (modeRef s)
    (resumeTimerRef s) (selectedCity s) (clock s) (moveEndOnce s).
Definition set_bearingRef (v : Q) (s : State) : State :=
  mkState (mapRef s) (highlightDataRef s) (rotatingRef s) v (modeRef s)
    (resumeTimerRef s) (selectedCity s) (clock s) (moveEndOnce s).
Definition set_modeRef (v : Mode) (s : State) : State :=
  mkState (mapRef s) (highlightDataRef s) (rotatingRef s) (bearingRef s) v
    (resumeTimerRef s) (selectedCity s) (clock s) (moveEndOnce s).
Definition set_resumeTimerRef (v : option nat) (s : State) : State :=
  mkState (mapRef s) (highlightDataRef s) (rotatingRef s) (bearingRef s) (modeRef s)
    v (selectedCity s) (clock s) (moveEndOnce s).
Definition set_selectedCity (v : option string) (s : State) : State :=
  mkState (mapRef s) (highlightDataRef s) (rotatingRef s) (bearingRef s) (modeRef s)
    (resumeTimerRef s) v (clock s) (moveEndOnce s).
Definition set_clock (v : Clock) (s : State) : State :=
  mkState (mapRef s) (highlightDataRef s) (rotatingRef s) (bearingRef s) (modeRef s)
    (resumeTimerRef s) (selectedCity s) v (moveEndOnce s).
Definition set_moveEndOnce (v : nat) (s : State) : State :=
  mkState (mapRef s) (highlightDataRef s) (rotatingRef s) (bearingRef s) (modeRef s)
    (resumeTimerRef s) (selectedCity s) (clock s) v.

Definition mounted (m : Map) : State :=
  mkState (Some m) None true 0 GlobeMode None None initialClock 0.

Definition onMap (f : Map -> outcome Map) (s : State) : outcome State :=
  match mapRef s with
  | None => Threw NullReference s
  | Some m =>
      match f m with
      | Ok m' => Ok (set_mapRef (Some m') s)
      | Threw e m' => Threw e (set_mapRef (Some m') s)
      end
  end.

Definition animateOrbit (s : State) : State :=
  match rotatingRef s, mapRef s, modeRef s with
  | true, Some m, GlobeMode =>
      let b := bearingRef s + (5 # 100) in
      set_mapRef (Some (jumpTo (mkCameraOptions (Some (0, 20)) (Some (15 # 10)) (Some 0) (Some b)) m))
                 (set_bearingRef b s)
  | _, _, _ => s
  end.

(** The callback of the resume timer: only in globe mode. *)
Definition resumeOrbit (s : State) : State :=
  match modeRef s with
  | GlobeMode => set_rotatingRef true s
  | FocusMode => s
  end.

Definition pauseOrbit (s : State) : State :=
  let s1 := set_rotatingRef false s in
  let c1 := match resumeTimerRef s1 with
            | Some id => clearTimeout id (clock s1)
            | None => clock s1
            end in
  let '(id, c2) := setTimeout resumeDelay c1 in
  set_resumeTimerRef (Some id) (set_clock c2 s1).

Definition advance (dt : N) (s : State) : State :=
  let '(fired, c) := elapse dt (clock s) in
  fold_left (fun acc _ => resumeOrbit acc) fired (set_clock c s).

Definition idle (ev : Idle) (s : State) : State :=
  match ev with
  | Frame => animateOrbit s
  | Elapse dt => advance dt s
  end.

Definition run (evs : list Idle) (s : State) : State :=
  fold_left (fun acc ev => idle ev acc) evs s.

Definition ticks (n : nat) (s : State) : State := Nat.iter n animateOrbit s.

Definition tracked (s : State) : Prop :=
  forall t, In t (pending (clock s)) -> resumeTimerRef s = Some (timer_id t).

Definition highlightFill : Layer :=
  mkLayer "highlight-fill" Fill (Some "highlight"%string)
    [("fill-color", "rgba(255,0,0,0.2)")]%string.

Definition highlightOutline : Layer :=
  mkLayer "highlight-outline" Line (Some "highlight"%string)
    [("line-color", "red"); ("line-width", "2")]%string.

(** [if (getSource("highlight")) { remove the two layers when present;
    removeSource("highlight") }]. *)
Definition dropHighlight (m : Map) : outcome Map :=
  if is_some (getSource "highlight" m) then
    (removeLayerIfPresent "highlight-fill"
     >>> removeLayerIfPresent "highlight-outline"
     >>> removeSource "highlight") m
  else Ok m.

Definition addHighlightLayer (feature : GeoJSON) (s : State) : outcome State :=
  match mapRef s with
  | None => Ok s
  | Some _ =>
      onMap (dropHighlight
             >>> addSource "highlight" (GeoJsonSource feature)
             >>> addLayer highlightFill None
             >>> addLayer highlightOutline None)
            (set_highlightDataRef (Some feature) s)
  end.

Definition restoreHighlight (s : State) : outcome State :=
  match mapRef s, highlightDataRef s with
  | Some _, Some g => addHighlightLayer g s
  | _, _ => Ok s
  end.

Definition resetGlobe : State -> outcome State :=
  (fun s => Ok (set_rotatingRef true (set_modeRef GlobeMode (set_selectedCity None s))))
  >>> onMap (fun m => Ok (flyTo (mkCameraOptions (Some (0, 20)) (Some (15 # 10)) (Some 0) (Some 0)) m))
  >>> onMap dropHighlight
  >>> (fun s => Ok (set_highlightDataRef None s)).

(** A basemap button: [setStyle(...)], then [restoreHighlight] once on
    the engine's [styledata], taken here when the new style is loaded. *)
Definition reloadStyle (st : Style) : State -> outcome State :=
  onMap (fun m => Ok (markStyleLoaded (setStyle st m))) >>> restoreHighlight.

(** The geocoder's [result] listener, given what the boundary request
    resolved to ([None]: the fetch or the parsing failed).  The highlight
    is drawn inside the [try]: a throw of the engine is caught and
    logged. *)
Definition onGeocoderResult (name : string) (coords : Q * Q)
    (resp : option Viz.BoundaryResponse) (s : State) : outcome State :=
  let s1 := set_rotatingRef false (set_modeRef FocusMode (set_selectedCity (Some name) s)) in
  let s2 := match resp with
            | Some (Viz.mkBoundaryResponse (Some g)) => finalState (addHighlightLayer g s1)
            | _ => s1
            end in
  andThen
    (onMap (fun m => Ok (flyTo (mkCameraOptions (Some coords) (Some 10) (Some 60) (Some 30)) m))
           s2)
    (fun s3 => Ok (set_moveEndOnce (S (moveEndOnce s3)) s3)).

(** The [moveend] listener registered once after the flight. *)
Definition onMoveEnd (s : State) : State := set_rotatingRef true s.

(** The engine fires [moveend]: every waiting listener runs, once. *)
Definition fireMoveEnd (s : State) : State :=
  set_moveEndOnce 0 (Nat.iter (moveEndOnce s) onMoveEnd s).

Definition settle (g : Signal) (s : State) : State :=
  match g with
  | Quiet ev => idle ev s
  | MoveEnd => fireMoveEnd s
  end.

Definition unattended (gs : list Signal) (s : State) : State :=
  fold_left (fun acc g => settle g acc) gs s.

Definition heard (s : State) (gs : list Signal) : bool :=
  negb (Nat.eqb (moveEndOnce s) 0) && existsb isMoveEnd gs.

(** The map [addHighlightLayer] leaves. *)
Definition withHighlight (g : GeoJSON) (m : Map) : Map :=
  set_layers (Viz.stripHighlight (layers m) ++ [highlightFill; highlightOutline])
             (set_sources (<["highlight" := GeoJsonSource g]> (sources m)) m).

(** The highlight layers exist only together with their source. *)
Definition layersNeedSource (m : Map) : Prop :=
  getSource "highlight" m = None ->
  getLayer "highlight-fill" m = None /\ getLayer "highlight-outline" m = None.

End Flux.

(** ** The deck.gl wind layer (unnamed/part_001) *)

Module WindLayer.

Record Particle := mkParticle { lon : Q; lat : Q }.

(** [this.state.particles], and the count of [Math.random()] calls. *)
Record State := mkState { particles : list Particle; rngCalls : nat }.

Section WithPlatform.
Context {P : Platform}.

(** [this.props.numParticles || 500]. *)
Definition numParticlesOr500 (prop : option nat) : nat :=
  match prop with
  | Some 0%nat | None => 500%nat
  | Some n => n
  end.

Definition newParticle (n : nat) : Particle :=
  mkParticle (random n * 360 - 180) (random (n + 1) * 180 - 90).

Definition initializeState (numParticles : option nat) (n : nat) : State :=
  let count := numParticlesOr500 numParticles in
  mkState (List.map (fun i => newParticle (n + 2 * i)) (List.seq 0 count))
          (n + 2 * count).

(** The body of [particles.forEach((p) => ...)]: the random motion ... *)
Definition perturb (p : Particle) (n : nat) : Particle :=
  mkParticle (lon p + (random n - (5 # 10)) * 2)
             (lat p + (random (n + 1) - (5 # 10)) * 2).

(** ... and the four wrap-around tests, in the order of the source. *)
Definition wrap (p : Particle) : Particle :=
  let lon2 := if JS.gt (lon p) 180 then lon p - 360 else lon p in
  let lon3 := if JS.lt lon2 (-180) then lon2 + 360 else lon2 in
  let lat2 := if JS.gt (lat p) 90 then -90 else lat p in
  let lat3 := if JS.lt lat2 (-90) then 90 else lat2 in
  mkParticle lon3 lat3.

Definition updateParticle (p : Particle) (n : nat) : Particle := wrap (perturb p n).

Fixpoint forEachParticle (ps : list Particle) (n : nat) : list Particle :=
  match ps with
  | [] => []
  | p :: rest => updateParticle p n :: forEachParticle rest (n + 2)
  end.

Definition updateParticles (s : State) : State :=
  mkState (forEachParticle (particles s) (rngCalls s))
          (rngCalls s + 2 * length (particles s)).

End WithPlatform.

(** The invariant of the layer: every particle is on the globe. *)
Definition onGlobe (p : Particle) : Prop :=
  -180 <= lon p /\ lon p <= 180 /\ -90 <= lat p /\ lat p <= 90.

End WindLayer.

(** ** Sample data

    A platform, two basemap styles and a mounted map on which the
    statements below are exercised. *)

Module Sample.
Import Engine.

(** A platform whose random numbers cycle through 0, 1/7, ..., 6/7,
    with polynomial stand-ins for the trigonometric functions and an
    equirectangular screen projection. *)
Definition platform : Platform := {|
  random := fun n => inject_Z (Z.of_nat (n mod 7)) / 7;
  sin := fun x => x - x * x * x / 6;
  cos := fun x => 1 - x * x / 2;
  project := fun _ p => ((fst p + 180) * 2, (90 - snd p) * 2);
  queryTerrainElevation := fun _ _ => None;
  fromLngLat := fun p alt => ((fst p + 180) / 360, (90 - snd p) / 180, alt / 40075017)
|}.

(** Modelled from the spec: the basemap styles are data of the engine;
    only the source and layer ids the components refer to are given. *)
Definition satelliteStreets : Style :=
  mkStyle (<["composite" := StyleSource "vector"]>
             (<["mapbox-satellite" := StyleSource "raster"]> ∅))
          [mkLayer "satellite" Raster (Some "mapbox-satellite"%string) [];
           mkLayer "road-label" Symbol (Some "composite"%string) [];
           mkLayer "waterway-label" Symbol (Some "composite"%string) [];
           mkLayer "settlement-major-label" Symbol (Some "composite"%string) []].

Definition streets : Style :=
  mkStyle (<["composite" := StyleSource "vector"]> ∅)
          [mkLayer "land" Fill (Some "composite"%string) [];
           mkLayer "road-label" Symbol (Some "composite"%string) [];
           mkLayer "waterway-label" Symbol (Some "composite"%string) [];
           mkLayer "settlement-major-label" Symbol (Some "composite"%string) []].

Definition viewport : Bounds := mkBounds (-10) 35 30 60.

(** The map right after [new mapboxgl.Map(...)] has loaded its style. *)
Definition map : Map :=
  mkMap (style_sources satelliteStreets) (style_layers satelliteStreets) None true
        viewport (mkCamera (0, 20) (15 # 10) 0 0) Globe.

Definition paris : GeoJSON :=
  mkGeoJSON "Polygon" [[(2 # 1, 49 # 1); (3 # 1, 49 # 1); (3 # 1, 48 # 1); (2 # 1, 49 # 1)]].

(** "Paris" was searched and its boundary fetched. *)
Definition parisSelected : Viz.State :=
  finalState (Viz.onGeocoderResult "Paris" (235 # 100, 4885 # 100)
                (Some (Viz.mkBoundaryResponse (Some paris))) (Viz.mounted map)).

(** The 3D mode was switched on. *)
Definition in3D : Viz.State := finalState (@Viz.toggle3D platform (Viz.mounted map)).

(** "Paris" was selected, then the 3D mode was switched on. *)
Definition selected3D : Viz.State := finalState (@Viz.toggle3D platform parisSelected).


Definition unlabelled : Style :=
  mkStyle (<["composite" := StyleSource "vector"]> ∅)
          [mkLayer "land" Fill (Some "composite"%string) [];
           mkLayer "road" Line (Some "composite"%string) []].


(** The flux answer of the specification's scenario: one frame, wind
    from 90 degrees at 4 m/s. *)
Definition east4 : Viz.FluxResponse :=
  Viz.mkFluxResponse (Some [Viz.mkFrame 90 (Some 4) "2024-12-15"]).

(** The simulation was run in 2D mode for "Paris". *)
Definition simulated2D : Viz.State :=
  @Viz.runSimulation platform (Some east4) parisSelected.

(** ... and one display frame went by. *)
Definition afterFrame : Viz.State := @Viz.animationFrame platform simulated2D.

End Sample.

(** ** Observations on states *)

Module Observe.
Import Engine.

(** How many layers carry the id. *)
Definition layerCount (id : string) (m : Map) : nat :=
  length (List.filter (hasId id) (layers m)).

(** A callback of the visualisation component that leaves the field
    [proj] as it is, whether it completes or throws. *)
Definition keeps {A : Type} (proj : Viz.State -> A)
    (f : Viz.State -> outcome Viz.State) : Prop :=
  forall s, proj (finalState (f s)) = proj s.

(** Every particle of the 2D renderer has an age between 0 and the cap. *)
Definition agesInRange (ps : list Viz.Particle) : Prop :=
  Forall (fun p => 0 <= Viz.age p /\ Viz.age p <= 300) ps.

(** [n] consecutive repaints of a [draw] closure that is not suppressed. *)
Definition repaints {P : Platform} (n : nat) (s : Viz.State) : Viz.State :=
  Nat.iter n (Viz.draw false) s.

(** The particle array of the 2D renderer as a session leaves it when it
    started with [n] particles: ages in range, and [n] or 200 particles. *)
Definition renderable (n : nat) (s : Viz.State) : Prop :=
  agesInRange (Viz.particleArray s) /\
  (length (Viz.particleArray s) = n \/ length (Viz.particleArray s) = 200%nat).


(** The first point of the 3D cloud, when there is one. *)
Definition firstPoint (s : Viz.State) : option (Q * Q * Q) :=
  match Viz.points (Viz.threeStateRef s) with
  | Some (q :: _) => Some q
  | _ => None
  end.

(** A callback of the visualisation component under which [inv] is
    stable, whether it completes or throws. *)
Definition preserves (inv : Viz.State -> Prop)
    (f : Viz.State -> outcome Viz.State) : Prop :=
  forall s, inv s -> inv (finalState (f s)).

End Observe.

(** ** Sessions of the visualisation component

    The events a mounted component reacts to, and the state each handler
    leaves behind, whether it completes or throws. *)

Module Session.
Import Engine.

Inductive Event :=
| Load
| StyleLoad
| SwitchBase (st : Style)
| GeocoderResult (name : string) (coords : Q * Q) (resp : option Viz.BoundaryResponse)
| RunSimulation (resp : option Viz.FluxResponse)
| ResetGlobe
| Toggle3D
| OrbitFrame
| PaintFrame.

Definition isToggle (e : Event) : bool :=
  match e with
  | Toggle3D => true
  | _ => false
  end.

(** How often the 3D button was pressed. *)
Definition toggles (evs : list Event) : nat := length (List.filter isToggle evs).

Section WithPlatform.
Context {P : Platform}.

Definition handle (e : Event) (s : Viz.State) : Viz.State :=
  match e with
  | Load => finalState (Viz.onLoad s)
  | StyleLoad => finalState (Viz.fireStyleLoad s)
  | SwitchBase st => finalState (Viz.switchBase st s)
  | GeocoderResult name coords resp => finalState (Viz.onGeocoderResult name coords resp s)
  | RunSimulation resp => Viz.runSimulation resp s
  | ResetGlobe => finalState (Viz.resetGlobe s)
  | Toggle3D => finalState (Viz.toggle3D s)
  | OrbitFrame => Viz.animateOrbit s
  | PaintFrame => Viz.animationFrame s
  end.

Definition run (evs : list Event) (s : Viz.State) : Viz.State :=
  fold_left (fun acc e => handle e acc) evs s.

End WithPlatform.

End Session.

(** ** The results panel of the frontend component
    (frontend/src/components/GlobeMap.jsx, lines 218-259)

    [runSimulation] stores the backend's answer in [rawResults]; an effect
    derives [results] from it and the wind-speed slider. *)

Module Results.

Record FluxPoint := mkPoint { date : string; flux_L : Q }.

(** The fields of a flux answer the panel shows.  A ratio is [None] when
    it is not a finite number (division by a zero demand). *)
Record FluxData := mkData {
  city : string;
  start_date : string;
  end_date : string;
  interval : string;
  area_km2 : Q;
  mean_AH_gm3 : Q;
  total_stock_L : Q;
  net_flux_L : Q;
  demand_L : Q;
  flux_to_demand_ratio : option Q;
  wind_speed_ms : Q;
  daily_flux_series : list FluxPoint
}.

(** A JSON object of the backend as the panel reads it: its [error]
    when it has one, and the flux fields when it has a
    [daily_flux_series]. *)
Record Json := mkJson {
  error : option string;
  flux : option FluxData
}.

(** [rawResults] and [results]: [null] or an object. *)
Definition Raw : Type := option Json.

(** What the request of [runSimulation] resolved to: the fetch (or the
    parsing) rejected with a message, or an answer with [resp.ok] and a
    body.  The body is taken to be a JSON object, as the backend sends;
    a body that is a number, a string or an array has neither field and
    is read as the empty object is. *)
Inductive Response :=
| Rejected (message : string)
| Answer (ok : bool) (data : Json).

(** [data.error || "Backend error"]: a missing or empty [error] is
    falsy. *)
Definition errorOr (data : Json) (d : string) : string :=
  match Viz.truthy (error data) with
  | Some e => e
  | None => d
  end.

(** [runSimulation()] of the frontend component: the new [rawResults].
    Without a selected city it alerts and returns; a throw inside the
    [try] stores [{ error: err.message }]. *)
Definition runSimulation (selectedCity : option string) (resp : Response) (raw : Raw) : Raw :=
  match Viz.truthy selectedCity with
  | None => raw
  | Some _ =>
      match resp with
      | Rejected message => Some (mkJson (Some message) None)
      | Answer false data => Some (mkJson (Some (errorOr data "Backend error")) None)
      | Answer true data => Some data
      end
  end.

(** [x / y] when the quotient is a finite number. *)
Definition divide (x y : Q) : option Q :=
  if Qeq_bool y 0 then None else Some (x / y).

Definition scalePoint (scaling : Q) (d : FluxPoint) : FluxPoint :=
  mkPoint (date d) (flux_L d * scaling).

(** The object the effect builds for a flux answer. *)
Definition scale (windSpeed : Q) (r : FluxData) : FluxData :=
  let scaling := windSpeed / 2 in
  let scaledFlux := net_flux_L r * scaling in
  mkData (city r) (start_date r) (end_date r) (interval r) (area_km2 r) (mean_AH_gm3 r)
         (total_stock_L r) scaledFlux (demand_L r) (divide scaledFlux (demand_L r))
         windSpeed (List.map (scalePoint scaling) (daily_flux_series r)).


Definition total (series : list FluxPoint) : Q :=
  fold_right (fun d acc => flux_L d + acc) 0 series.

End Results.

(** ** The simulation form (src/components/SimulationForm.jsx) *)

Module Form.

Inductive Message := NoMessage | Running | Completed | ErrorDuring.

(** [message] and [zipLink]; the empty link is not shown. *)
Record State := mkState { message : Message; zipLink : string }.

(** What the POST resolved to: a rejection (network or parsing), the JSON
    value [null], or an object with or without [zip_name]. *)
Inductive Response :=
| Rejected
| JsonNull
| Json (zip_name : option string).

Definition downloadBase : string := "http://127.0.0.1:5000/download/".

(** [`${v}`] of an optional string. *)
Definition interpolate (v : option string) : string :=
  match v with
  | Some x => x
  | None => "undefined"
  end.

(** [runSimulation(e)], given what the request resolved to.  Reading
    [zip_name] of [null] throws after the message was set; the [catch]
    then sets the error message. *)
Definition runSimulation (resp : Response) (s : State) : State :=
  let s1 := mkState Running EmptyString in
  match resp with
  | Rejected => mkState ErrorDuring (zipLink s1)
  | JsonNull => mkState ErrorDuring (zipLink s1)
  | Json z => mkState Completed (downloadBase ++ interpolate z)
  end.

End Form.

(** ** Drawing the wind layer (unnamed/part_001, lines 48-80) *)

Module WindLayerDraw.

(** [this.state.model]: absent, or the positions it was last given; and
    the number of [model.draw] calls issued. *)
Record State := mkState {
  layer : WindLayer.State;
  model : option (list Q);
  drawCalls : nat
}.

Definition clipX (p : WindLayer.Particle) : Q := ((WindLayer.lon p + 180) / 360) * 2 - 1.
Definition clipY (p : WindLayer.Particle) : Q := ((90 - WindLayer.lat p) / 180) * 2 - 1.

(** The [positions] array: x, y, 0 for every particle, in order. *)
Definition positionsOf (ps : list WindLayer.Particle) : list Q :=
  flat_map (fun p => [clipX p; clipY p; 0]) ps.

Section WithPlatform.
Context {P : Platform}.

Definition created (numParticles : option nat) (n : nat) : State :=
  mkState (WindLayer.initializeState numParticles n) None 0.

(** [draw({ uniforms })]: the first call creates the model, the later
    ones update its positions and draw. *)
Definition draw (s : State) : State :=
  let l := WindLayer.updateParticles (layer s) in
  let positions := positionsOf (WindLayer.particles l) in
  match model s with
  | None => mkState l (Some positions) (drawCalls s)
  | Some _ => mkState l (Some positions) (S (drawCalls s))
  end.

Definition draws (k : nat) (s : State) : State := Nat.iter k draw s.

End WithPlatform.

(** A coordinate of clip space. *)
Definition inClip (x : Q) : Prop := -1 <= x /\ x <= 1.

End WindLayerDraw.

(** ** The highlight of the frontend component
    (frontend/src/components/GlobeMap.jsx, lines 110-114, 143-158, 184-216)

    The feature is cached by the geocoder's listener, drawn by
    [addHighlightLayer] and drawn again by the [style.load] listener. *)

Module Overlay.
Import Engine.

Record State := mkState {
  mapRef : option Map;
  highlightFeatureRef : option GeoJSON;
  activeLayer : string
}.

Definition set_mapRef (v : option Map) (s : State) : State :=
  mkState v (highlightFeatureRef s) (activeLayer s).
Definition set_highlightFeatureRef (v : option GeoJSON) (s : State) : State :=
  mkState (mapRef s) v (activeLayer s).
Definition set_activeLayer (v : string) (s : State) : State :=
  mkState (mapRef s) (highlightFeatureRef s) v.

Definition mounted (m : Map) : State := mkState (Some m) None "satellite".

Definition onMap (f : Map -> outcome Map) (s : State) : outcome State :=
  match mapRef s with
  | None => Threw NullReference s
  | Some m =>
      match f m with
      | Ok m' => Ok (set_mapRef (Some m') s)
      | Threw e m' => Threw e (set_mapRef (Some m') s)
      end
  end.

(** The layers and the removal are those of the results component; the
    feature is not stored here. *)
Definition addHighlightLayer (feature : GeoJSON) (s : State) : outcome State :=
  match mapRef s with
  | None => Ok s
  | Some _ =>
      onMap (Flux.dropHighlight
             >>> addSource "highlight" (GeoJsonSource feature)
             >>> addLayer Flux.highlightFill None
             >>> addLayer Flux.highlightOutline None) s
  end.

(** The listener registered with [on("style.load", ...)]. *)
Definition styleLoadHandler (s : State) : outcome State :=
  match highlightFeatureRef s with
  | Some f => addHighlightLayer f s
  | None => Ok s
  end.

(** The boundary part of the geocoder's listener, given the feature the
    request resolved to ([None]: the request failed, or the answer was
    [null] or carried an [error]).  A throw inside the [try] is caught
    and logged. *)
Definition onBoundary (answer : option GeoJSON) (s : State) : State :=
  match answer with
  | Some g => finalState (addHighlightLayer g (set_highlightFeatureRef (Some g) s))
  | None => s
  end.

(** [handleLayerChange(layer)]; [satellite] and [streets] are the two
    styles the component names. *)
Definition handleLayerChange (satellite streets : Style) (layer : string) (s : State)
    : outcome State :=
  match mapRef s with
  | None => Ok s
  | Some _ =>
      andThen
        (if String.eqb layer "satellite" then onMap (fun m => Ok (setStyle satellite m)) s
         else if String.eqb layer "streets" then onMap (fun m => Ok (setStyle streets m)) s
         else Ok s)
        (fun s' => Ok (set_activeLayer layer s'))
  end.

(** The engine signals [style.load]: the style is loaded, the listener
    runs. *)
Definition fireStyleLoad (s : State) : outcome State :=
  match mapRef s with
  | None => Ok s
  | Some m => styleLoadHandler (set_mapRef (Some (markStyleLoaded m)) s)
  end.

(** The map right after a swap to style [st] has loaded. *)
Definition swapped (st : Style) (m : Map) : Map := markStyleLoaded (setStyle st m).

End Overlay.

(** * Properties *)

(** ** Arithmetic of the JavaScript operators *)

Lemma gt_true (x y : Q) : JS.gt x y = true <-> y < x.
Proof.
  unfold JS.gt. destruct (Qle_bool x y) eqn:E; simpl.
  - apply Qle_bool_iff in E. split; [discriminate | intros H; lra].
  - split; [intros _ | reflexivity].
    apply Qnot_le_lt. intros H. apply Qle_bool_iff in H. congruence.
Qed.

Lemma gt_false (x y : Q) : JS.gt x y = false <-> x <= y.
Proof.
  unfold JS.gt. destruct (Qle_bool x y) eqn:E; simpl.
  - apply Qle_bool_iff in E. split; [intros _; exact E | reflexivity].
  - split; [discriminate | intros H; apply Qle_bool_iff in H; congruence].
Qed.

Lemma lt_true (x y : Q) : JS.lt x y = true <-> x < y.
Proof. unfold JS.lt. apply (gt_true y x). Qed.

Lemma lt_false (x y : Q) : JS.lt x y = false <-> y <= x.
Proof. unfold JS.lt. apply (gt_false y x). Qed.

Lemma min_le_l (x y : Q) : JS.min x y <= x.
Proof.
  unfold JS.min. destruct (Qle_bool x y) eqn:E; [lra |].
  apply Qlt_le_weak, (gt_true x y). unfold JS.gt. now rewrite E.
Qed.

Lemma min_le_r (x y : Q) : JS.min x y <= y.
Proof.
  unfold JS.min. destruct (Qle_bool x y) eqn:E; [now apply Qle_bool_iff | lra].
Qed.

Lemma seventh_in_unit (k : nat) :
  0 <= inject_Z (Z.of_nat (k mod 7)) / 7 /\ inject_Z (Z.of_nat (k mod 7)) / 7 < 1.
Proof.
  assert (H : (0 <= Z.of_nat (k mod 7) < 7)%Z).
  { pose proof (Nat.mod_upper_bound k 7). lia. }
  destruct H as [H0 H1].
  rewrite Zle_Qle in H0. rewrite Zlt_Qlt in H1.
  change (inject_Z 0) with 0 in H0. change (inject_Z 7) with 7 in H1.
  set (x := inject_Z (Z.of_nat (k mod 7))) in *.
  split.
  - apply Qle_shift_div_l; [reflexivity | lra].
  - apply Qlt_shift_div_r; [reflexivity | lra].
Qed.

Lemma sample_random_in_unit : randomInUnit Sample.platform.
Proof. intros n. apply seventh_in_unit. Qed.

(** ** The wind layer keeps its particles on the globe *)

Section WindLayerFacts.
Import WindLayer.
Context {P : Platform}.
Hypothesis unit_random : randomInUnit P.

Lemma newParticle_on_globe (n : nat) : onGlobe (newParticle n).
Proof.
  unfold onGlobe, newParticle; simpl.
  destruct (unit_random n) as [A B], (unit_random (n + 1)%nat) as [C D].
  repeat split; lra.
Qed.

Lemma perturb_within_one_degree (p : Particle) (n : nat) :
  -1 <= lon (perturb p n) - lon p /\ lon (perturb p n) - lon p < 1 /\
  -1 <= lat (perturb p n) - lat p /\ lat (perturb p n) - lat p < 1.
Proof.
  unfold perturb; simpl.
  destruct (unit_random n) as [R0 R1], (unit_random (n + 1)%nat) as [S0 S1].
  repeat split; lra.
Qed.

Lemma wrap_on_globe (p : Particle) :
  -181 <= lon p -> lon p <= 181 -> onGlobe (wrap p).
Proof.
  unfold onGlobe, wrap; simpl. intros A B.
  destruct (JS.gt (lon p) 180) eqn:G1;
    [apply gt_true in G1 | apply gt_false in G1];
    match goal with |- context [JS.lt ?a ?b] =>
      destruct (JS.lt a b) eqn:L1; [apply lt_true in L1 | apply lt_false in L1] end;
    (destruct (JS.gt (lat p) 90) eqn:G2;
     [apply gt_true in G2 | apply gt_false in G2]);
    match goal with |- context [JS.lt ?a ?b] =>
      destruct (JS.lt a b) eqn:L2; [apply lt_true in L2 | apply lt_false in L2] end;
    repeat split; lra.
Qed.

Lemma updateParticle_on_globe (p : Particle) (n : nat) :
  onGlobe p -> onGlobe (updateParticle p n).
Proof.
  intros (A & B & C & D). unfold updateParticle.
  destruct (perturb_within_one_degree p n) as (E & F & _).
  apply wrap_on_globe; lra.
Qed.

Lemma forEachParticle_on_globe (ps : list Particle) :
  forall n, Forall onGlobe ps -> Forall onGlobe (forEachParticle ps n).
Proof.
  induction ps as [| p rest IH]; intros n H; simpl; [constructor |].
  inversion H; subst. constructor; [now apply updateParticle_on_globe | now apply IH].
Qed.

End WindLayerFacts.

(** C10.  For the deck.gl wind layer: [initializeState] puts every
    particle at a longitude in [-180, 180] and a latitude in [-90, 90],
    and if every particle is in that range before [updateParticles], every
    particle is in it after (each coordinate moved by at most one degree,
    then wrapped). *)
Theorem windlayer_particles_stay_on_globe (P : Platform) :
  randomInUnit P ->
  (forall (numParticles : option nat) (n : nat),
      Forall WindLayer.onGlobe
             (WindLayer.particles (WindLayer.initializeState numParticles n))) /\
  (forall s : WindLayer.State,
      Forall WindLayer.onGlobe (WindLayer.particles s) ->
      Forall WindLayer.onGlobe (WindLayer.particles (WindLayer.updateParticles s))) /\
  (forall (p : WindLayer.Particle) (n : nat),
      -1 <= WindLayer.lon (WindLayer.perturb p n) - WindLayer.lon p /\
      WindLayer.lon (WindLayer.perturb p n) - WindLayer.lon p < 1 /\
      -1 <= WindLayer.lat (WindLayer.perturb p n) - WindLayer.lat p /\
      WindLayer.lat (WindLayer.perturb p n) - WindLayer.lat p < 1).
Proof.
  intros HR. split; [| split]; [| | now apply perturb_within_one_degree].
  - intros np n. unfold WindLayer.initializeState; simpl.
    apply List.Forall_forall. intros p Hp. apply in_map_iff in Hp.
    destruct Hp as (i & <- & _). now apply newParticle_on_globe.
  - intros s H. unfold WindLayer.updateParticles; simpl.
    now apply forEachParticle_on_globe.
Qed.

Lemma windlayer_particles_stay_on_globe_witness :
  Forall WindLayer.onGlobe
    (WindLayer.particles
       (@WindLayer.updateParticles Sample.platform
          (@WindLayer.initializeState Sample.platform (Some 4%nat) 0))).
Proof.
  destruct (windlayer_particles_stay_on_globe Sample.platform sample_random_in_unit)
    as (Hinit & Hupd & _).
  apply Hupd, Hinit.
Defined.

(** ** The orbit *)

Lemma modulo_proper (x y : Q) : x == y -> JS.modulo x 360 == JS.modulo y 360.
Proof.
  intros H. unfold JS.modulo.
  assert (E : Qfloor (x / 360) = Qfloor (y / 360)).
  { apply Qfloor_comp. now rewrite H. }
  rewrite E, H. reflexivity.
Qed.

Lemma inject_succ (n : nat) : inject_Z (Z.of_nat (S n)) == inject_Z (Z.of_nat n) + 1.
Proof. rewrite Nat2Z.inj_succ, <- Z.add_1_r, inject_Z_plus. reflexivity. Qed.

Section FrontendOrbit.
Import Engine Frontend.

Lemma animateOrbit_rotating (s : State) (m : Map) :
  rotatingRef s = true -> mapRef s = Some m ->
  rotatingRef (animateOrbit s) = true /\
  modeRef (animateOrbit s) = modeRef s /\
  bearingRef (animateOrbit s) = bearingRef s + step (modeRef s) /\
  (exists m', mapRef (animateOrbit s) = Some m') /\
  committedBearing (animateOrbit s) = Some (bearingRef (animateOrbit s)) /\
  clock (animateOrbit s) = clock s /\
  resumeTimerRef (animateOrbit s) = resumeTimerRef s.
Proof.
  intros HR HM. unfold animateOrbit, committedBearing. rewrite HR, HM.
  destruct (modeRef s) eqn:E; simpl; rewrite ?E; repeat split; eauto.
Qed.

(** In the exact arithmetic of the model the iterated sum has a closed
    form; it serves to evaluate long runs. *)
Lemma ticks_rotating (n : nat) : forall (s : State) (m : Map),
  rotatingRef s = true -> mapRef s = Some m ->
  rotatingRef (ticks n s) = true /\
  modeRef (ticks n s) = modeRef s /\
  (exists m', mapRef (ticks n s) = Some m') /\
  bearingRef (ticks n s) == bearingRef s + inject_Z (Z.of_nat n) * step (modeRef s) /\
  (n <> 0%nat -> committedBearing (ticks n s) = Some (bearingRef (ticks n s))).
Proof.
  induction n as [| n IH]; intros s m HR HM.
  - simpl. repeat split; eauto; [ring | congruence].
  - destruct (IH s m HR HM) as (R & Mo & (m' & Hm') & B & _).
    change (ticks (S n) s) with (animateOrbit (ticks n s)).
    destruct (animateOrbit_rotating (ticks n s) m' R Hm') as (R' & Mo' & B' & M' & C' & _).
    split; [exact R' |]. split; [congruence |]. split; [exact M' |].
    split; [| intros _; exact C'].
    rewrite B', B, Mo, inject_succ. ring.
Qed.

Lemma animateOrbit_keeps_timers (s : State) :
  rotatingRef (animateOrbit s) = rotatingRef s /\
  clock (animateOrbit s) = clock s /\
  resumeTimerRef (animateOrbit s) = resumeTimerRef s.
Proof.
  unfold animateOrbit. destruct (rotatingRef s) eqn:R, (mapRef s); simpl; auto.
Qed.

End FrontendOrbit.

Section VizOrbit.
Import Engine Viz.

Lemma viz_ticks_focus (n : nat) (s : State) :
  modeRef s = FocusMode -> ticks n s = s.
Proof.
  intros HM. induction n as [| n IH]; [reflexivity |].
  change (ticks (S n) s) with (animateOrbit (ticks n s)). rewrite IH.
  unfold animateOrbit. rewrite HM. destruct (rotatingRef s), (mapRef s); reflexivity.
Qed.

Lemma viz_animateOrbit_globe (s : State) (m : Map) :
  rotatingRef s = true -> mapRef s = Some m -> modeRef s = GlobeMode ->
  rotatingRef (animateOrbit s) = true /\ modeRef (animateOrbit s) = GlobeMode /\
  bearingRef (animateOrbit s) = bearingRef s + (5 # 100) /\
  exists m', mapRef (animateOrbit s) = Some m' /\
             bearing (camera m') = bearingRef (animateOrbit s).
Proof.
  intros HR HM HG. unfold animateOrbit. rewrite HR, HM, HG. simpl.
  split; [exact HR |]. split; [exact HG |]. split; [reflexivity |].
  eexists. split; reflexivity.
Qed.

Lemma viz_ticks_globe (n : nat) : forall (s : State) (m : Map),
  rotatingRef s = true -> mapRef s = Some m -> modeRef s = GlobeMode ->
  rotatingRef (ticks n s) = true /\ modeRef (ticks n s) = GlobeMode /\
  (exists m', mapRef (ticks n s) = Some m' /\
              (n <> 0%nat -> bearing (camera m') = bearingRef (ticks n s))) /\
  bearingRef (ticks n s) == bearingRef s + inject_Z (Z.of_nat n) * (5 # 100).
Proof.
  induction n as [| n IH]; intros s m HR HM HG.
  - simpl. repeat split; eauto; [| ring]. exists m. split; [assumption | congruence].
  - destruct (IH s m HR HM HG) as (R & Mo & (m' & Hm' & _) & B).
    change (ticks (S n) s) with (animateOrbit (ticks n s)).
    destruct (viz_animateOrbit_globe (ticks n s) m' R Hm' Mo)
      as (R' & Mo' & B' & m'' & Hm'' & C).
    split; [exact R' |]. split; [exact Mo' |]. split.
    + exists m''. split; [exact Hm'' |]. intros _. exact C.
    + rewrite B', B, inject_succ. ring.
Qed.

End VizOrbit.

Section OrbitSums.
Import Engine.

Lemma step_positive (mode : Mode) : 0 <= Frontend.step mode.
Proof. destruct mode; unfold Frontend.step; lra. Qed.

Lemma frontend_ticks_sum (n : nat) (s : Frontend.State) (m : Map) :
  Frontend.rotatingRef s = true -> Frontend.mapRef s = Some m ->
  Frontend.rotatingRef (Frontend.ticks n s) = true /\
  Frontend.modeRef (Frontend.ticks n s) = Frontend.modeRef s /\
  (exists m', Frontend.mapRef (Frontend.ticks n s) = Some m') /\
  Frontend.bearingRef (Frontend.ticks n s)
  = Nat.iter n (fun b => b + Frontend.step (Frontend.modeRef s)) (Frontend.bearingRef s) /\
  Frontend.bearingRef s <= Frontend.bearingRef (Frontend.ticks n s).
Proof.
  intros HR HM. induction n as [| n (R & Mo & (m' & Hm') & B & L)].
  - cbn [Frontend.ticks Nat.iter nat_rect]. repeat split; eauto. lra.
  - change (Frontend.ticks (S n) s) with (Frontend.animateOrbit (Frontend.ticks n s)).
    destruct (animateOrbit_rotating (Frontend.ticks n s) m' R Hm')
      as (R' & Mo' & B' & M' & _).
    split; [exact R' |]. split; [congruence |]. split; [exact M' |].
    rewrite B', Mo. pose proof (step_positive (Frontend.modeRef s)) as S0.
    split; [| lra].
    change (Nat.iter (S n) ?f ?x) with (f (Nat.iter n f x)). cbv beta. now rewrite B.
Qed.

Lemma viz_ticks_sum (n : nat) (s : Viz.State) (m : Map) :
  Viz.rotatingRef s = true -> Viz.mapRef s = Some m -> Viz.modeRef s = GlobeMode ->
  Viz.rotatingRef (Viz.ticks n s) = true /\ Viz.modeRef (Viz.ticks n s) = GlobeMode /\
  (exists m', Viz.mapRef (Viz.ticks n s) = Some m' /\
              (n <> 0%nat -> bearing (camera m') = Viz.bearingRef (Viz.ticks n s))) /\
  Viz.bearingRef (Viz.ticks n s)
  = Nat.iter n (fun b => b + (5 # 100)) (Viz.bearingRef s) /\
  Viz.bearingRef s <= Viz.bearingRef (Viz.ticks n s).
Proof.
  intros HR HM HG. induction n as [| n (R & Mo & (m' & Hm' & _) & B & L)].
  - cbn [Viz.ticks Nat.iter nat_rect]. repeat split; eauto; [| lra].
    exists m. split; [assumption | congruence].
  - change (Viz.ticks (S n) s) with (Viz.animateOrbit (Viz.ticks n s)).
    destruct (viz_animateOrbit_globe (Viz.ticks n s) m' R Hm' Mo)
      as (R' & Mo' & B' & m'' & Hm'' & C).
    split; [exact R' |]. split; [exact Mo' |]. split.
    { exists m''. split; [exact Hm'' |]. intros _. exact C. }
    rewrite B'. split; [| lra].
    change (Nat.iter (S n) ?f ?x) with (f (Nat.iter n f x)). cbv beta. now rewrite B.
Qed.

End OrbitSums.

(** C3 (as amended).  While the orbit is unpaused and the map mounted,
    the bearing committed to the engine after [n] ticks is the initial
    bearing with the step added [n] times, one addition per tick, and it
    is not reduced modulo 360: it never decreases.  In the frontend
    component the step is 0.05 in globe mode and 0.2 in focus mode; in
    the visualisation component, whose mode is globe throughout, it is
    0.05. *)
Theorem orbit_bearing_after_ticks (n : nat) :
  (forall (s : Frontend.State) (m : Engine.Map),
      Frontend.rotatingRef s = true -> Frontend.mapRef s = Some m ->
      Frontend.bearingRef (Frontend.ticks n s)
        = Nat.iter n (fun b => b + Frontend.step (Frontend.modeRef s))
                   (Frontend.bearingRef s) /\
      (n <> 0%nat ->
       Frontend.committedBearing (Frontend.ticks n s)
         = Some (Frontend.bearingRef (Frontend.ticks n s))) /\
      Frontend.bearingRef s <= Frontend.bearingRef (Frontend.ticks n s)) /\
  (forall (s : Viz.State) (m : Engine.Map),
      Viz.rotatingRef s = true -> Viz.mapRef s = Some m -> Viz.modeRef s = GlobeMode ->
      Viz.bearingRef (Viz.ticks n s)
        = Nat.iter n (fun b => b + (5 # 100)) (Viz.bearingRef s) /\
      (exists m', Viz.mapRef (Viz.ticks n s) = Some m' /\
                  (n <> 0%nat ->
                   Engine.bearing (Engine.camera m') = Viz.bearingRef (Viz.ticks n s))) /\
      Viz.bearingRef s <= Viz.bearingRef (Viz.ticks n s)).
Proof.
  split.
  - intros s m HR HM.
    destruct (frontend_ticks_sum n s m HR HM) as (_ & _ & _ & B & L).
    destruct (ticks_rotating n s m HR HM) as (_ & _ & _ & _ & C).
    repeat split; assumption.
  - intros s m HR HM HG.
    destruct (viz_ticks_sum n s m HR HM HG) as (_ & _ & M & B & L).
    repeat split; assumption.
Qed.

Lemma orbit_bearing_after_ticks_witness :
  Frontend.bearingRef (Frontend.ticks 3 (Frontend.mounted Sample.map))
  = Nat.iter 3 (fun b => b + Frontend.step (Frontend.modeRef (Frontend.mounted Sample.map)))
             (Frontend.bearingRef (Frontend.mounted Sample.map)) /\
  Viz.bearingRef (Viz.ticks 3 (Viz.mounted Sample.map))
  = Nat.iter 3 (fun b => b + (5 # 100)) (Viz.bearingRef (Viz.mounted Sample.map)).
Proof.
  destruct (orbit_bearing_after_ticks 3) as [F V].
  destruct (F (Frontend.mounted Sample.map) Sample.map eq_refl eq_refl) as (B & _ & _).
  destruct (V (Viz.mounted Sample.map) Sample.map eq_refl eq_refl eq_refl) as (B' & _ & _).
  split; assumption.
Defined.

(** C3, the claim as stated fails.  In both components, after 7300
    ticks in globe mode from bearing 0 the committed bearing is above
    360, while [(0 + 7300 * 0.05) mod 360] is below 360. *)
Lemma orbit_bearing_wrap_counterexample :
  (exists b : Q,
      Frontend.committedBearing (Frontend.ticks 7300 (Frontend.mounted Sample.map)) = Some b /\
      360 < b /\
      JS.modulo (0 + inject_Z 7300 * Frontend.step GlobeMode) 360 < 360 /\
      ~ b == JS.modulo (0 + inject_Z 7300 * Frontend.step GlobeMode) 360) /\
  (exists m' : Engine.Map,
      Viz.mapRef (Viz.ticks 7300 (Viz.mounted Sample.map)) = Some m' /\
      360 < Engine.bearing (Engine.camera m') /\
      ~ Engine.bearing (Engine.camera m') == JS.modulo (0 + inject_Z 7300 * (5 # 100)) 360).
Proof.
  assert (M5 : JS.modulo (0 + inject_Z 7300 * Frontend.step GlobeMode) 360 == 5).
  { vm_compute. reflexivity. }
  split.
  - destruct (ticks_rotating 7300 (Frontend.mounted Sample.map) Sample.map eq_refl eq_refl)
      as (_ & _ & _ & B & C).
    exists (Frontend.bearingRef (Frontend.ticks 7300 (Frontend.mounted Sample.map))).
    assert (B365 : Frontend.bearingRef (Frontend.ticks 7300 (Frontend.mounted Sample.map))
                   == 365).
    { rewrite B. vm_compute. reflexivity. }
    split; [apply C; discriminate |].
    split; [apply (Qlt_le_trans _ 365); [reflexivity | apply Qle_lteq; right;
                                                      apply Qeq_sym; exact B365] |].
    split; [apply (Qle_lt_trans _ 5); [apply Qle_lteq; right; exact M5 | reflexivity] |].
    intros H.
    pose proof (Qeq_trans _ _ _ (Qeq_sym _ _ B365) (Qeq_trans _ _ _ H M5)) as X.
    vm_compute in X. discriminate.
  - destruct (viz_ticks_globe 7300 (Viz.mounted Sample.map) Sample.map eq_refl eq_refl eq_refl)
      as (_ & _ & (m' & Hm' & C) & B).
    exists m'. split; [exact Hm' |].
    assert (B365 : Engine.bearing (Engine.camera m') == 365).
    { rewrite (C ltac:(discriminate)). rewrite B. vm_compute. reflexivity. }
    split; [apply (Qlt_le_trans _ 365); [reflexivity | apply Qle_lteq; right;
                                                      apply Qeq_sym; exact B365] |].
    intros H.
    pose proof (Qeq_trans _ _ _ (Qeq_sym _ _ B365) (Qeq_trans _ _ _ H M5)) as X.
    vm_compute in X. discriminate.
Qed.

(** ** The pause timer *)

Section FrontendPause.
Import Engine Timers Frontend.

Lemma clear_tracked (id : nat) (l : list Timer) :
  (forall t, In t l -> timer_id t = id) ->
  List.filter (fun t => negb (Nat.eqb (timer_id t) id)) l = [].
Proof.
  induction l as [| t rest IH]; intros H; [reflexivity |].
  simpl. rewrite (H t (or_introl eq_refl)), Nat.eqb_refl. simpl.
  apply IH. intros t' Ht'. apply H. now right.
Qed.

Lemma pauseOrbit_arms (s : State) :
  tracked s ->
  rotatingRef (pauseOrbit s) = false /\
  now (clock (pauseOrbit s)) = now (clock s) /\
  exists id, pending (clock (pauseOrbit s)) = [mkTimer id (now (clock s) + resumeDelay)] /\
             resumeTimerRef (pauseOrbit s) = Some id.
Proof.
  intros T. unfold tracked in T. unfold pauseOrbit. simpl.
  destruct (resumeTimerRef s) as [id |] eqn:E; simpl.
  - rewrite clear_tracked.
    + simpl. repeat split. eexists. split; reflexivity.
    + intros t Ht. specialize (T t Ht). congruence.
  - destruct (pending (clock s)) as [| t rest] eqn:F.
    + simpl. repeat split. eexists. split; reflexivity.
    + specialize (T t (or_introl eq_refl)). discriminate.
Qed.

Lemma run_resumed (evs : list Idle) : forall s : State,
  rotatingRef s = true -> pending (clock s) = [] ->
  rotatingRef (run evs s) = true /\ pending (clock (run evs s)) = [] /\
  resumeTimerRef (run evs s) = resumeTimerRef s.
Proof.
  induction evs as [| ev rest IH]; intros s R E; [now repeat split |].
  change (run (ev :: rest) s) with (run rest (idle ev s)).
  assert (H : rotatingRef (idle ev s) = true /\ pending (clock (idle ev s)) = [] /\
              resumeTimerRef (idle ev s) = resumeTimerRef s).
  { destruct ev as [| dt]; simpl.
    - destruct (animateOrbit_keeps_timers s) as (A & B & C). rewrite A, B, C. auto.
    - unfold advance, elapse. rewrite E. simpl. auto. }
  destruct H as (R' & E' & I'). destruct (IH _ R' E') as (A & B & C).
  rewrite C, I'. auto.
Qed.

Lemma run_armed (evs : list Idle) : forall (s : State) (id : nat) (D : N),
  rotatingRef s = false -> pending (clock s) = [mkTimer id D] ->
  (now (clock s) < D)%N ->
  rotatingRef (run evs s) = (D <=? now (clock s) + elapsed evs)%N /\
  resumeTimerRef (run evs s) = resumeTimerRef s /\
  (forall t, In t (pending (clock (run evs s))) -> timer_id t = id).
Proof.
  induction evs as [| ev rest IH]; intros s id D R E L.
  - simpl. rewrite N.add_0_r, R, E. repeat split.
    + symmetry. apply N.leb_gt. exact L.
    + intros t [<- | []]. reflexivity.
  - change (run (ev :: rest) s) with (run rest (idle ev s)).
    destruct ev as [| dt].
    + simpl idle. destruct (animateOrbit_keeps_timers s) as (A & B & C).
      rewrite <- A in R. rewrite <- B in E, L.
      destruct (IH _ id D R E L) as (X & Y & Z).
      rewrite X, Y, B, C. auto.
    + simpl idle. simpl elapsed.
      destruct (N.leb D (now (clock s) + dt)) eqn:Due.
      * assert (A : advance dt s = resumeOrbit
                      (set_clock (mkClock (now (clock s) + dt) [] (nextId (clock s))) s)).
        { unfold advance, elapse. rewrite E. simpl. unfold isDue. simpl. rewrite Due.
          reflexivity. }
        rewrite A.
        destruct (run_resumed rest
                    (resumeOrbit (set_clock (mkClock (now (clock s) + dt) [] (nextId (clock s))) s))
                    eq_refl eq_refl) as (X & Y & Z).
        rewrite X, Y, Z. simpl. repeat split.
        -- symmetry. apply N.leb_le. apply N.leb_le in Due. lia.
        -- intros t [].
      * assert (A : advance dt s =
                    set_clock (mkClock (now (clock s) + dt) [mkTimer id D] (nextId (clock s))) s).
        { unfold advance, elapse. rewrite E. simpl. unfold isDue. simpl. rewrite Due.
          reflexivity. }
        rewrite A.
        destruct (IH (set_clock (mkClock (now (clock s) + dt) [mkTimer id D] (nextId (clock s))) s)
                     id D R eq_refl) as (X & Y & Z).
        { simpl. apply N.leb_gt in Due. exact Due. }
        rewrite X, Y. simpl. rewrite N.add_assoc. auto.
Qed.

Lemma run_keeps_tracked (evs : list Idle) (s : State) :
  tracked s -> tracked (run evs (pauseOrbit s)).
Proof.
  intros T. destruct (pauseOrbit_arms s T) as (R & Nw & id & E & I).
  assert (L : (now (clock (pauseOrbit s)) < now (clock s) + resumeDelay)%N).
  { rewrite Nw. unfold resumeDelay. lia. }
  destruct (run_armed evs (pauseOrbit s) id _ R E L) as (_ & Y & Z).
  intros t Ht. rewrite Y, I. f_equal. symmetry. now apply Z.
Qed.

Lemma pause_then_idle (evs : list Idle) (s : State) :
  tracked s ->
  rotatingRef (run evs (pauseOrbit s)) = (resumeDelay <=? elapsed evs)%N.
Proof.
  intros T. destruct (pauseOrbit_arms s T) as (R & Nw & id & E & I).
  assert (L : (now (clock (pauseOrbit s)) < now (clock s) + resumeDelay)%N).
  { rewrite Nw. unfold resumeDelay. lia. }
  destruct (run_armed evs (pauseOrbit s) id _ R E L) as (X & _).
  rewrite X, Nw.
  destruct (N.leb_spec resumeDelay (elapsed evs));
    [apply N.leb_le | apply N.leb_gt]; lia.
Qed.

End FrontendPause.

Lemma mounted_tracked (m : Engine.Map) : Frontend.tracked (Frontend.mounted m).
Proof. intros t []. Qed.

(** ** Engine commands *)

Section EngineFacts.
Import Engine.

Lemma find_hasId_app (id : string) (l1 l2 : list Layer) :
  List.find (hasId id) (l1 ++ l2)
  = match List.find (hasId id) l1 with
    | Some x => Some x
    | None => List.find (hasId id) l2
    end.
Proof.
  induction l1 as [| x rest IH]; simpl; [reflexivity |].
  destruct (hasId id x); [reflexivity | exact IH].
Qed.

Lemma find_filter_same (id : string) (ls : list Layer) :
  List.find (hasId id) (List.filter (fun l => negb (hasId id l)) ls) = None.
Proof.
  induction ls as [| x rest IH]; simpl; [reflexivity |].
  destruct (hasId id x) eqn:E; simpl; [exact IH | now rewrite E].
Qed.

Lemma find_filter_other (id id' : string) (ls : list Layer) :
  id <> id' ->
  List.find (hasId id') (List.filter (fun l => negb (hasId id l)) ls)
  = List.find (hasId id') ls.
Proof.
  intros N. induction ls as [| x rest IH]; simpl; [reflexivity |].
  destruct (hasId id x) eqn:E; simpl.
  - assert (F : hasId id' x = false).
    { unfold hasId in *. apply String.eqb_eq in E. apply String.eqb_neq. congruence. }
    now rewrite F.
  - destruct (hasId id' x); [reflexivity | exact IH].
Qed.

Lemma filter_absent (id : string) (ls : list Layer) :
  List.find (hasId id) ls = None ->
  List.filter (fun l => negb (hasId id l)) ls = ls.
Proof.
  induction ls as [| x rest IH]; simpl; [reflexivity |].
  destruct (hasId id x) eqn:E; simpl; [discriminate |].
  intros H. now rewrite IH.
Qed.

Lemma is_some_false {A : Type} (o : option A) : is_some o = false <-> o = None.
Proof. destruct o; simpl; split; congruence. Qed.

Lemma is_some_true {A : Type} (o : option A) : is_some o = true <-> o <> None.
Proof. destruct o; simpl; split; congruence. Qed.

Lemma set_layers_same (m : Map) : set_layers (layers m) m = m.
Proof. now destruct m. Qed.

Lemma set_sources_same (m : Map) : set_sources (sources m) m = m.
Proof. now destruct m. Qed.

Lemma removeLayerIfPresent_ok (id : string) (m : Map) :
  isStyleLoaded m = true ->
  removeLayerIfPresent id m
  = Ok (set_layers (List.filter (fun l => negb (hasId id l)) (layers m)) m).
Proof.
  intros L. unfold removeLayerIfPresent, removeLayer. rewrite L. simpl.
  destruct (getLayer id m) eqn:E; simpl; [reflexivity |].
  unfold getLayer in E. now rewrite filter_absent, set_layers_same.
Qed.

Lemma removeSourceIfPresent_ok (id : string) (m : Map) :
  isStyleLoaded m = true -> existsb (usesSource id) (layers m) = false ->
  removeSourceIfPresent id m = Ok (set_sources (delete id (sources m)) m).
Proof.
  intros L U. unfold removeSourceIfPresent, removeSource. rewrite L, U. simpl.
  destruct (getSource id m) eqn:E; simpl; [reflexivity |].
  unfold getSource in E. now rewrite delete_id, set_sources_same.
Qed.

End EngineFacts.

(** ** The highlight overlay *)

Section HighlightFacts.
Import Engine Viz.

Lemma strip_no_fill (ls : list Layer) :
  List.find (hasId "highlight-fill") (stripHighlight ls) = None.
Proof.
  unfold stripHighlight. rewrite find_filter_other by discriminate.
  apply find_filter_same.
Qed.

Lemma strip_no_outline (ls : list Layer) :
  List.find (hasId "highlight-outline") (stripHighlight ls) = None.
Proof. unfold stripHighlight. apply find_filter_same. Qed.

Lemma strip_other (id : string) (ls : list Layer) :
  id <> "highlight-fill"%string -> id <> "highlight-outline"%string ->
  List.find (hasId id) (stripHighlight ls) = List.find (hasId id) ls.
Proof.
  intros A B. unfold stripHighlight.
  rewrite find_filter_other by congruence. now rewrite find_filter_other by congruence.
Qed.

Lemma strip_no_users (ls : list Layer) :
  existsb foreignUser ls = false ->
  existsb (usesSource "highlight") (stripHighlight ls) = false.
Proof.
  unfold stripHighlight. induction ls as [| x rest IH]; simpl; [reflexivity |].
  intros H. apply orb_false_iff in H. destruct H as [F R].
  unfold foreignUser in F.
  destruct (hasId "highlight-fill" x) eqn:E1; simpl; [now apply IH |].
  destruct (hasId "highlight-outline" x) eqn:E2; simpl; [now apply IH |].
  rewrite ?E1, ?E2 in F. simpl in F. rewrite ?andb_true_r in F. rewrite F. simpl.
  now apply IH.
Qed.

Lemma highlightTask_ok (g : GeoJSON) (m : Map) :
  isStyleLoaded m = true -> highlightOwned m ->
  highlightTask g m = Ok (withHighlight g m).
Proof.
  intros L O. assert (L' : styleLoaded m = true) by exact L.
  unfold highlightTask, chain.
  rewrite removeLayerIfPresent_ok by exact L. simpl.
  rewrite removeLayerIfPresent_ok by exact L. simpl.
  rewrite removeSourceIfPresent_ok; [| exact L | now apply strip_no_users]. simpl.
  unfold addSource, isStyleLoaded. simpl. rewrite L'. simpl.
  unfold getSource. simpl. rewrite lookup_delete_eq. simpl.
  rewrite insert_delete_eq.
  unfold addLayer, isStyleLoaded. simpl. rewrite L'. simpl.
  unfold getLayer. simpl.
  change (List.filter _ (List.filter _ (layers m))) with (stripHighlight (layers m)).
  rewrite strip_no_fill. simpl.
  unfold sourceKnown, getSource. simpl. rewrite lookup_insert_eq. simpl.
  rewrite find_hasId_app, strip_no_outline. simpl.
  rewrite lookup_insert_eq. simpl. rewrite L'. simpl.
  unfold withHighlight, set_layers, set_sources. simpl.
  rewrite <- app_assoc. reflexivity.
Qed.

Lemma withHighlight_facts (g : GeoJSON) (m : Map) :
  getSource "highlight" (withHighlight g m) = Some (GeoJsonSource g) /\
  getLayer "highlight-fill" (withHighlight g m) = Some highlightFill /\
  getLayer "highlight-outline" (withHighlight g m) = Some highlightOutline /\
  (forall id, id <> "highlight"%string ->
              getSource id (withHighlight g m) = getSource id m) /\
  (forall id, id <> "highlight-fill"%string -> id <> "highlight-outline"%string ->
              getLayer id (withHighlight g m) = getLayer id m) /\
  terrain (withHighlight g m) = terrain m /\
  isStyleLoaded (withHighlight g m) = isStyleLoaded m.
Proof.
  unfold withHighlight, getSource, getLayer. simpl. repeat split.
  - apply lookup_insert_eq.
  - now rewrite find_hasId_app, strip_no_fill.
  - now rewrite find_hasId_app, strip_no_outline.
  - intros id N. now rewrite lookup_insert_ne by congruence.
  - intros id A B. rewrite find_hasId_app, strip_other by assumption.
    destruct (List.find (hasId id) (layers m)) eqn:E; [reflexivity |].
    assert (F1 : hasId id highlightFill = false).
    { unfold hasId. apply String.eqb_neq. simpl. congruence. }
    assert (F2 : hasId id highlightOutline = false).
    { unfold hasId. apply String.eqb_neq. simpl. congruence. }
    cbn [List.find]. now rewrite F1, F2.
Qed.

End HighlightFacts.

(** ** The style reload handler *)

Section ReplayFacts.
Import Engine Viz.

Lemma terrainTask_ok (m : Map) :
  isStyleLoaded m = true -> terrainTask m = Ok (withTerrain m).
Proof.
  intros L. assert (L' : styleLoaded m = true) by exact L.
  unfold terrainTask, chain, withTerrain, getSource.
  destruct (sources m !! "mapbox-dem"%string) as [d |] eqn:E; simpl.
  - unfold setTerrain, isStyleLoaded, getSource. rewrite L', E. simpl.
    now rewrite set_sources_same.
  - unfold addSource, isStyleLoaded, getSource. rewrite L', E. simpl.
    unfold setTerrain, isStyleLoaded, getSource. simpl.
    rewrite L', lookup_insert_eq. reflexivity.
Qed.

Lemma buildingsTask_ok (m : Map) :
  isStyleLoaded m = true -> getLayer "waterway-label" m <> None ->
  buildingsTask m = Ok (withBuildings m).
Proof.
  intros L W. assert (L' : styleLoaded m = true) by exact L.
  unfold buildingsTask, withBuildings, buildingsSettled.
  destruct (is_some (getLayer "3d-buildings" m)) eqn:B; simpl; [reflexivity |].
  destruct (is_some (getSource "composite" m)) eqn:C; simpl; [| reflexivity].
  unfold addLayer, isStyleLoaded, sourceKnown. simpl. rewrite L', B, C. simpl.
  apply is_some_true in W. now rewrite W.
Qed.

Lemma find_insertBefore_new (b : string) (l : Layer) (ls : list Layer) :
  List.find (hasId (layer_id l)) ls = None ->
  List.find (hasId (layer_id l)) (insertBefore b l ls) = Some l.
Proof.
  assert (S : hasId (layer_id l) l = true) by (unfold hasId; apply String.eqb_refl).
  induction ls as [| x rest IH]; simpl; intros H; [now rewrite S |].
  destruct (hasId (layer_id l) x) eqn:E; [discriminate |].
  destruct (hasId b x); simpl; [now rewrite S | rewrite E; now apply IH].
Qed.

Lemma find_insertBefore_other (id b : string) (l : Layer) (ls : list Layer) :
  id <> layer_id l -> List.find (hasId b) ls <> None ->
  List.find (hasId id) (insertBefore b l ls) = List.find (hasId id) ls.
Proof.
  intros N. assert (F : hasId id l = false).
  { unfold hasId. apply String.eqb_neq. congruence. }
  induction ls as [| x rest IH]; simpl; intros H; [congruence |].
  destruct (hasId b x) eqn:E; simpl.
  - now rewrite F.
  - destruct (hasId id x); [reflexivity | now apply IH].
Qed.

Lemma existsb_insertBefore (p : Layer -> bool) (b : string) (l : Layer) (ls : list Layer) :
  existsb p (insertBefore b l ls) = p l || existsb p ls.
Proof.
  induction ls as [| x rest IH]; simpl; [reflexivity |].
  destruct (hasId b x); simpl; [reflexivity |].
  rewrite IH. destruct (p l), (p x); reflexivity.
Qed.

Lemma withTerrain_facts (m : Map) :
  getSource "mapbox-dem" (withTerrain m) <> None /\
  terrain (withTerrain m) = Some ("mapbox-dem"%string, 12 # 10) /\
  layers (withTerrain m) = layers m /\
  isStyleLoaded (withTerrain m) = isStyleLoaded m /\
  (forall id, id <> "mapbox-dem"%string ->
              getSource id (withTerrain m) = getSource id m) /\
  (getSource "mapbox-dem" m <> None -> sources (withTerrain m) = sources m).
Proof.
  unfold withTerrain, getSource. simpl.
  destruct (sources m !! "mapbox-dem"%string) eqn:E; repeat split; try congruence.
  - rewrite lookup_insert_eq. discriminate.
  - intros id N. now rewrite lookup_insert_ne by congruence.
Qed.

Lemma withBuildings_facts (m : Map) :
  getLayer "waterway-label" m <> None ->
  buildingsSettled (withBuildings m) = true /\
  sources (withBuildings m) = sources m /\
  terrain (withBuildings m) = terrain m /\
  isStyleLoaded (withBuildings m) = isStyleLoaded m /\
  (forall id, id <> "3d-buildings"%string ->
              getLayer id (withBuildings m) = getLayer id m) /\
  (getSource "composite" m <> None -> getLayer "3d-buildings" (withBuildings m) <> None) /\
  (highlightOwned m -> highlightOwned (withBuildings m)).
Proof.
  intros W. unfold withBuildings.
  destruct (buildingsSettled m) eqn:S.
  - split; [exact S |]. do 4 (split; [reflexivity |]). split; [| auto].
    intros C. unfold buildingsSettled in S. apply is_some_true in C. rewrite C in S.
    simpl in S. rewrite orb_false_r in S. now apply is_some_true.
  - unfold buildingsSettled in *. apply orb_false_iff in S. destruct S as [B C].
    apply is_some_false in B. unfold getLayer in *. simpl.
    pose proof (find_insertBefore_new "waterway-label" buildingsLayer (layers m) B) as F.
    simpl in F. repeat split.
    + unfold getLayer. simpl. now rewrite F.
    + intros id N. now apply find_insertBefore_other.
    + intros _. rewrite F. discriminate.
    + unfold highlightOwned. simpl. intros O. now rewrite existsb_insertBefore, O.
Qed.

Lemma existsb_filter_false (p q : Layer -> bool) (ls : list Layer) :
  existsb p ls = false -> existsb p (List.filter q ls) = false.
Proof.
  induction ls as [| x rest IH]; simpl; [reflexivity |].
  intros H. apply orb_false_iff in H. destruct H as [A B].
  destruct (q x); simpl; [rewrite A |]; now apply IH.
Qed.

Lemma withHighlight_owned (g : GeoJSON) (m : Map) :
  highlightOwned m -> highlightOwned (withHighlight g m).
Proof.
  unfold highlightOwned, withHighlight, stripHighlight. simpl. intros O.
  rewrite existsb_app. simpl. rewrite orb_false_r.
  now apply existsb_filter_false, existsb_filter_false.
Qed.

Lemma whenStyleReady_loaded (t : StyleTask) (s : State) (m m' : Map) :
  mapRef s = Some m -> isStyleLoaded m = true -> runTask t m = Ok m' ->
  whenStyleReady t s = Ok (set_mapRef (Some m') s).
Proof.
  intros HM L R. unfold whenStyleReady, onMap. now rewrite HM, L, R.
Qed.

Lemma set_mapRef_same (s : State) (m : Map) :
  mapRef s = Some m -> set_mapRef (Some m) s = s.
Proof. destruct s; simpl. now intros ->. Qed.

Lemma restoreHighlight_ok (s : State) (m : Map) :
  mapRef s = Some m -> isStyleLoaded m = true -> highlightOwned m ->
  restoreHighlight s
  = Ok (match highlightDataRef s with
        | Some g => set_mapRef (Some (withHighlight g m)) s
        | None => s
        end).
Proof.
  intros HM L O. unfold restoreHighlight, addHighlightLayer.
  destruct (highlightDataRef s) as [g |]; [| reflexivity].
  rewrite HM. apply (whenStyleReady_loaded (HighlightTask g) s m); try assumption.
  simpl. now apply highlightTask_ok.
Qed.

Lemma styleLoadHandler_ok (s : State) (m : Map) :
  mapRef s = Some m -> isStyleLoaded m = true ->
  getLayer "waterway-label" m <> None -> highlightOwned m ->
  styleLoadHandler s = Ok (set_mapRef (Some (replayed (highlightDataRef s) m)) s).
Proof.
  intros HM L W O.
  destruct (withTerrain_facts m) as (_ & _ & TL & TS & _).
  assert (W1 : getLayer "waterway-label" (withTerrain m) <> None).
  { unfold getLayer. now rewrite TL. }
  destruct (withBuildings_facts (withTerrain m) W1) as (_ & _ & _ & BS & _ & _ & BO).
  unfold styleLoadHandler, chain.
  assert (E1 : ensureTerrain s = Ok (set_mapRef (Some (withTerrain m)) s)).
  { unfold ensureTerrain. rewrite HM.
    apply (whenStyleReady_loaded TerrainTask s m); try assumption.
    now apply terrainTask_ok. }
  rewrite E1. simpl andThen.
  assert (E2 : add3DBuildings (set_mapRef (Some (withTerrain m)) s)
               = Ok (set_mapRef (Some (withBuildings (withTerrain m))) s)).
  { unfold add3DBuildings. simpl mapRef.
    rewrite (whenStyleReady_loaded BuildingsTask _ (withTerrain m)
               (withBuildings (withTerrain m))); [reflexivity | reflexivity | congruence |].
    apply buildingsTask_ok; [congruence | exact W1]. }
  rewrite E2. simpl andThen.
  rewrite (restoreHighlight_ok _ (withBuildings (withTerrain m))).
  - simpl highlightDataRef. unfold replayed.
    destruct (highlightDataRef s); reflexivity.
  - reflexivity.
  - congruence.
  - apply BO. unfold highlightOwned. now rewrite TL.
Qed.

Lemma strip_app (l1 l2 : list Layer) :
  stripHighlight (l1 ++ l2) = stripHighlight l1 ++ stripHighlight l2.
Proof. unfold stripHighlight. now rewrite !List.filter_app. Qed.

Lemma strip_strip (ls : list Layer) : stripHighlight (stripHighlight ls) = stripHighlight ls.
Proof.
  unfold stripHighlight at 1.
  rewrite (filter_absent "highlight-fill") by apply strip_no_fill.
  apply filter_absent, strip_no_outline.
Qed.

Lemma withHighlight_twice (g : GeoJSON) (m : Map) :
  withHighlight g (withHighlight g m) = withHighlight g m.
Proof.
  unfold withHighlight, set_layers, set_sources. simpl.
  rewrite insert_insert_eq, strip_app, strip_strip.
  change (stripHighlight [highlightFill; highlightOutline]) with (@nil Layer).
  now rewrite app_nil_r.
Qed.

Lemma withTerrain_settled (m : Map) :
  getSource "mapbox-dem" m <> None ->
  terrain m = Some ("mapbox-dem"%string, 12 # 10) ->
  withTerrain m = m.
Proof.
  unfold withTerrain, getSource. destruct m as [src ls t l b c p]; simpl.
  intros S ->. destruct (src !! "mapbox-dem"%string); [reflexivity | congruence].
Qed.

Lemma withBuildings_settled (m : Map) : buildingsSettled m = true -> withBuildings m = m.
Proof. unfold withBuildings. now intros ->. Qed.

Lemma replayed_twice (h : option GeoJSON) (m : Map) :
  getLayer "waterway-label" m <> None ->
  replayed h (replayed h m) = replayed h m.
Proof.
  intros W.
  destruct (withTerrain_facts m) as (TD & TT & TL & _ & _ & _).
  assert (W1 : getLayer "waterway-label" (withTerrain m) <> None).
  { unfold getLayer. now rewrite TL. }
  destruct (withBuildings_facts (withTerrain m) W1) as (BSet & BSrc & BT & _ & BL & _ & _).
  set (m2 := withBuildings (withTerrain m)) in *.
  assert (D2 : getSource "mapbox-dem" m2 <> None).
  { unfold getSource. rewrite BSrc. exact TD. }
  assert (T2 : terrain m2 = Some ("mapbox-dem"%string, 12 # 10)) by congruence.
  destruct h as [g |]; unfold replayed; fold m2.
  - destruct (withHighlight_facts g m2) as (_ & _ & _ & HS & HL & HT & _).
    rewrite (withTerrain_settled (withHighlight g m2)).
    + rewrite (withBuildings_settled (withHighlight g m2)); [apply withHighlight_twice |].
      unfold buildingsSettled in *.
      rewrite HL by discriminate. now rewrite HS by discriminate.
    + rewrite HS by discriminate. exact D2.
    + congruence.
  - rewrite (withTerrain_settled m2 D2 T2). now apply withBuildings_settled.
Qed.

End ReplayFacts.

(** C7.  With the style loaded (the state right after a basemap reload
    included), [restoreHighlight] re-attaches the source "highlight" with
    the cached feature and the fill and outline layers drawn from it, and
    logs no request; it changes nothing when no feature is stored. *)
Theorem restore_reattaches_cached_highlight (s : Viz.State) (m : Engine.Map) :
  Viz.mapRef s = Some m -> Engine.isStyleLoaded m = true -> Viz.highlightOwned m ->
  match Viz.highlightDataRef s with
  | Some f =>
      exists (s' : Viz.State) (m' : Engine.Map),
        Viz.restoreHighlight s = Engine.Ok s' /\ Viz.mapRef s' = Some m' /\
        Engine.getSource "highlight" m' = Some (Engine.GeoJsonSource f) /\
        Engine.getLayer "highlight-fill" m' = Some Viz.highlightFill /\
        Engine.getLayer "highlight-outline" m' = Some Viz.highlightOutline /\
        Viz.fetchLog s' = Viz.fetchLog s /\
        Viz.highlightDataRef s' = Some f
  | None => Viz.restoreHighlight s = Engine.Ok s
  end.
Proof.
  intros HM L O. rewrite (restoreHighlight_ok s m HM L O).
  destruct (Viz.highlightDataRef s) as [f |] eqn:E; [| reflexivity].
  destruct (withHighlight_facts f m) as (A & B & C & _).
  exists (Viz.set_mapRef (Some (Viz.withHighlight f m)) s), (Viz.withHighlight f m).
  repeat split; assumption.
Qed.

(** The scenario of the specification: "Paris" selected and its boundary
    fetched, the basemap switched to streets; at the style-ready signal
    the layers are restored from the cached polygon and the log still
    holds the one boundary request. *)
Lemma restore_reattaches_cached_highlight_witness :
  let s := Engine.finalState
             (Viz.onMap (fun m => Engine.Ok (Engine.markStyleLoaded
                                               (Engine.setStyle Sample.streets m)))
                        Sample.parisSelected) in
  exists (s' : Viz.State) (m' : Engine.Map),
    Viz.restoreHighlight s = Engine.Ok s' /\ Viz.mapRef s' = Some m' /\
    Engine.getSource "highlight" m' = Some (Engine.GeoJsonSource Sample.paris) /\
    Engine.getLayer "highlight-fill" m' = Some Viz.highlightFill /\
    Engine.getLayer "highlight-outline" m' = Some Viz.highlightOutline /\
    Viz.fetchLog s' = [Viz.BoundaryRequest "Paris"] /\
    Viz.highlightDataRef s' = Some Sample.paris.
Proof.
  intros s.
  assert (H : exists m, Viz.mapRef s = Some m /\ Engine.isStyleLoaded m = true /\
                        Viz.highlightOwned m).
  { eexists. split; [reflexivity |]. split; reflexivity. }
  destruct H as (m & A & B & C).
  pose proof (restore_reattaches_cached_highlight s m A B C) as T.
  change (Viz.highlightDataRef s) with (Some Sample.paris) in T.
  destruct T as (s' & m' & T1 & T2 & T3 & T4 & T5 & T6 & T7).
  exists s', m'. repeat split; assumption.
Defined.

(** ** Resetting the globe *)

Section ResetFacts.
Import Engine Viz.

Lemma keepsHighlight_chain (f g : State -> outcome State) :
  keepsHighlight f -> keepsHighlight g -> keepsHighlight (f >>> g).
Proof.
  intros F G s. unfold chain, andThen. specialize (F s).
  destruct (f s) as [s1 | e s1]; simpl in *; [| exact F].
  now rewrite G.
Qed.

Lemma keepsHighlight_onMap (f : Map -> outcome Map) : keepsHighlight (onMap f).
Proof.
  intros s. unfold onMap. destruct (mapRef s); [| reflexivity].
  destruct (f m); reflexivity.
Qed.

Lemma viz_resetGlobe_keeps_highlight : keepsHighlight resetGlobe.
Proof.
  unfold resetGlobe, remove3DLayer.
  repeat apply keepsHighlight_chain; try apply keepsHighlight_onMap.
  intros s. reflexivity.
Qed.

Lemma flux_resetGlobe_clears_highlight (s s' : Flux.State) :
  Flux.resetGlobe s = Ok s' ->
  Flux.highlightDataRef s' = None /\ Flux.restoreHighlight s' = Ok s'.
Proof.
  unfold Flux.resetGlobe, chain, andThen.
  match goal with |- context [Flux.onMap ?f ?x] => destruct (Flux.onMap f x) as [s1 | e s1] end;
    [| discriminate].
  destruct (Flux.onMap Flux.dropHighlight s1) as [s2 | e s2]; [| discriminate].
  intros H. injection H as <-. split; [reflexivity |].
  unfold Flux.restoreHighlight. simpl. now destruct (Flux.mapRef s2).
Qed.

End ResetFacts.

(** C1, the failing run.  In the visualisation component, after "Paris"
    is selected and its boundary fetched, [resetGlobe] removes the
    highlight layers but leaves the feature in [highlightDataRef]; the
    next basemap reload then puts both highlight layers back. *)
Theorem viz_reset_leaves_highlight_cached :
  let r1 := Viz.resetGlobe Sample.parisSelected in
  let r2 := Viz.reloadStyle Sample.streets (Engine.finalState r1) in
  Viz.highlightLayers Sample.parisSelected
    = (Some Viz.highlightFill, Some Viz.highlightOutline) /\
  Engine.completed r1 = true /\
  Viz.highlightLayers (Engine.finalState r1) = (None, None) /\
  Viz.highlightDataRef (Engine.finalState r1) = Some Sample.paris /\
  Engine.completed r2 = true /\
  Viz.highlightLayers (Engine.finalState r2)
    = (Some Viz.highlightFill, Some Viz.highlightOutline).
Proof. vm_compute. repeat split; reflexivity. Qed.

Section ReplayOnAnyStyle.
Import Engine Viz.




End ReplayOnAnyStyle.




(** ** Replays are idempotent *)

Section IdempotenceFacts.
Import Engine Viz.

Lemma replayed_facts (h : option GeoJSON) (m : Map) :
  isStyleLoaded m = true -> getLayer "waterway-label" m <> None -> highlightOwned m ->
  isStyleLoaded (replayed h m) = true /\
  getLayer "waterway-label" (replayed h m) <> None /\
  highlightOwned (replayed h m).
Proof.
  intros L W O.
  destruct (withTerrain_facts m) as (_ & _ & TL & TS & _).
  assert (W1 : getLayer "waterway-label" (withTerrain m) <> None).
  { unfold getLayer. now rewrite TL. }
  assert (O1 : highlightOwned (withTerrain m)).
  { unfold highlightOwned. now rewrite TL. }
  destruct (withBuildings_facts (withTerrain m) W1) as (_ & _ & _ & BS & BL & _ & BO).
  set (m2 := withBuildings (withTerrain m)) in *.
  assert (W2 : getLayer "waterway-label" m2 <> None) by (rewrite BL; [exact W1 | discriminate]).
  destruct h as [g |]; unfold replayed; fold m2.
  - destruct (withHighlight_facts g m2) as (_ & _ & _ & _ & HL & _ & HS).
    split; [congruence |]. split; [now rewrite HL by discriminate |].
    now apply withHighlight_owned, BO.
  - split; [congruence |]. split; [exact W2 | now apply BO].
Qed.

Lemma styleLoadHandler_twice (s : State) (m : Map) :
  mapRef s = Some m -> isStyleLoaded m = true ->
  getLayer "waterway-label" m <> None -> highlightOwned m ->
  exists s', styleLoadHandler s = Ok s' /\ styleLoadHandler s' = Ok s'.
Proof.
  intros HM L W O.
  destruct (replayed_facts (highlightDataRef s) m L W O) as (L' & W' & O').
  exists (set_mapRef (Some (replayed (highlightDataRef s) m)) s).
  split; [now apply styleLoadHandler_ok |].
  rewrite (styleLoadHandler_ok (set_mapRef (Some (replayed (highlightDataRef s) m)) s)
             (replayed (highlightDataRef s) m) eq_refl L' W' O').
  simpl highlightDataRef. now rewrite replayed_twice.
Qed.

End IdempotenceFacts.

(** C9.  With the map mounted, in every map state: when the terrain
    source is registered [ensureTerrain] does not throw and leaves sources
    and layers as they are (it applies the terrain setting again, which
    changes nothing once it is set); when the buildings layer is
    registered [add3DBuildings] does not throw and leaves the map as it
    is; when the custom 3D layer is registered [add3DLayer] leaves the
    state as it is, and so does [remove3DLayer] when it is not registered;
    and a second replay of the style-load handler changes nothing. *)
Theorem replay_is_idempotent (P : Platform) (s : Viz.State) (m : Engine.Map) :
  Viz.mapRef s = Some m ->
  (Engine.getSource "mapbox-dem" m <> None ->
   exists (s' : Viz.State) (m' : Engine.Map),
     Viz.ensureTerrain s = Engine.Ok s' /\ Viz.mapRef s' = Some m' /\
     Engine.sources m' = Engine.sources m /\ Engine.layers m' = Engine.layers m /\
     (Engine.terrain m = Some ("mapbox-dem"%string, 12 # 10) -> m' = m)) /\
  (Engine.getLayer "3d-buildings" m <> None ->
   exists s' : Viz.State,
     Viz.add3DBuildings s = Engine.Ok s' /\ Viz.mapRef s' = Some m /\
     (Engine.isStyleLoaded m = true -> s' = s)) /\
  (Engine.getLayer "flux-3d-particles" m <> None -> Viz.add3DLayer s = Engine.Ok s) /\
  (Engine.getLayer "flux-3d-particles" m = None -> Viz.remove3DLayer s = Engine.Ok s) /\
  (Engine.isStyleLoaded m = true -> Engine.getLayer "waterway-label" m <> None ->
   Viz.highlightOwned m ->
   exists s' : Viz.State,
     Viz.styleLoadHandler s = Engine.Ok s' /\ Viz.styleLoadHandler s' = Engine.Ok s').
Proof.
  intros HM. repeat split.
  - intros D. destruct (Engine.isStyleLoaded m) eqn:L.
    + exists (Viz.set_mapRef (Some (Viz.withTerrain m)) s), (Viz.withTerrain m).
      destruct (withTerrain_facts m) as (_ & _ & TL & _ & _ & TS).
      split.
      { unfold Viz.ensureTerrain. rewrite HM.
        apply (whenStyleReady_loaded Viz.TerrainTask s m); try assumption.
        now apply terrainTask_ok. }
      split; [reflexivity |]. split; [now apply TS |]. split; [exact TL |].
      intros T. now apply withTerrain_settled.
    + exists (Viz.set_pendingStyleLoad (Viz.pendingStyleLoad s ++ [Viz.TerrainTask]) s), m.
      split.
      { unfold Viz.ensureTerrain, Viz.whenStyleReady. now rewrite HM, L. }
      repeat split. exact HM.
  - intros B. destruct (Engine.isStyleLoaded m) eqn:L.
    + exists s. split; [| split; [exact HM | reflexivity]].
      unfold Viz.add3DBuildings. rewrite HM.
      rewrite (whenStyleReady_loaded Viz.BuildingsTask s m m HM L).
      * now rewrite set_mapRef_same.
      * simpl. unfold Viz.buildingsTask. apply is_some_true in B. now rewrite B.
    + exists (Viz.set_pendingStyleLoad (Viz.pendingStyleLoad s ++ [Viz.BuildingsTask]) s).
      split.
      { unfold Viz.add3DBuildings, Viz.whenStyleReady. now rewrite HM, L. }
      split; [exact HM | discriminate].
  - intros C. unfold Viz.add3DLayer. rewrite HM. apply is_some_true in C. now rewrite C.
  - intros C. unfold Viz.remove3DLayer, Viz.onMap, Engine.removeLayerIfPresent.
    rewrite HM, C. simpl. now rewrite set_mapRef_same.
  - intros L W O. now apply (styleLoadHandler_twice s m).
Qed.

Lemma replay_is_idempotent_witness :
  exists s' : Viz.State,
    Viz.styleLoadHandler Sample.parisSelected = Engine.Ok s' /\
    Viz.styleLoadHandler s' = Engine.Ok s'.
Proof.
  assert (H : exists m, Viz.mapRef Sample.parisSelected = Some m /\
                        Engine.isStyleLoaded m = true /\
                        Engine.getLayer "waterway-label" m <> None /\
                        Viz.highlightOwned m).
  { eexists. split; [reflexivity |]. split; [reflexivity |]. split; [discriminate | reflexivity]. }
  destruct H as (m & A & B & C & D).
  destruct (replay_is_idempotent Sample.platform Sample.parisSelected m A) as (_ & _ & _ & _ & T).
  exact (T B C D).
Defined.

(** ** The 2D arrow renderer *)

Section ArrowFacts.
Import Engine Viz.
Context {P : Platform}.

Lemma spawn_within (b : Bounds) (r1 r2 : Q) :
  boxBounds b -> 0 <= r1 -> r1 < 1 -> 0 <= r2 -> r2 < 1 ->
  withinBounds b (spawnLon b r1) (spawnLat b r2).
Proof.
  unfold boxBounds, withinBounds, spawnLon, spawnLat. intros [A B] R0 R1 S0 S1.
  repeat split; nra.
Qed.

Lemma stepParticle_spec (m : Map) (f : FlowFrame) (p : Particle) (n : nat) :
  randomInUnit P -> boxBounds (getBounds m) ->
  repainted m f p (fst (fst (stepParticle m f p n))).
Proof.
  intros HR HB. unfold repainted, stepParticle.
  destruct (JS.gt (age p + 1) 300) eqn:G; simpl;
    [apply gt_true in G | apply gt_false in G]; split; intros H; try lra.
  - split; [reflexivity |].
    destruct (HR n) as [A B], (HR (n + 1)%nat) as [C D]. now apply spawn_within.
  - repeat split.
Qed.

Lemma stepParticle_stroke (m : Map) (f : FlowFrame) (p : Particle) (n : nat) :
  snd (fst (stepParticle m f p n)) = strokeOf m (heading f) (baseLen f) p.
Proof. unfold stepParticle, strokeOf. now destruct (JS.gt (age p + 1) 300). Qed.

Lemma forEachParticle_repainted (m : Map) (f : FlowFrame) (ps : list Particle) :
  randomInUnit P -> boxBounds (getBounds m) ->
  forall n, Forall2 (repainted m f) ps (fst (fst (forEachParticle m f ps n))).
Proof.
  intros HR HB. induction ps as [| p rest IH]; intros n; simpl; [constructor |].
  pose proof (stepParticle_spec m f p n HR HB) as S.
  destruct (stepParticle m f p n) as [[p' st] n1].
  specialize (IH n1). destruct (forEachParticle m f rest n1) as [[rest' sts] n2].
  simpl in *. now constructor.
Qed.

Lemma forEachParticle_strokes (m : Map) (f : FlowFrame) (ps : list Particle) :
  forall n, snd (fst (forEachParticle m f ps n))
            = List.map (strokeOf m (heading f) (baseLen f)) ps.
Proof.
  induction ps as [| p rest IH]; intros n; simpl; [reflexivity |].
  pose proof (stepParticle_stroke m f p n) as S.
  destruct (stepParticle m f p n) as [[p' st] n1].
  specialize (IH n1). destruct (forEachParticle m f rest n1) as [[rest' sts] n2].
  simpl in *. now rewrite S, IH.
Qed.

Lemma draw_paints (s : State) (m : Map) (f0 : FlowFrame) (fs : list FlowFrame) :
  mapRef s = Some m -> windSeriesRef s = f0 :: fs ->
  let f := currentFrame s f0 in
  particleArray (draw false s)
  = fst (fst (forEachParticle m f (particleArray s) (rngCalls s))) /\
  canvas (draw false s)
  = snd (fst (forEachParticle m f (particleArray s) (rngCalls s))) /\
  flowFrameRef (draw false s) = ((flowFrameRef s + 1) mod length (f0 :: fs))%nat /\
  windSeriesRef (draw false s) = windSeriesRef s.
Proof.
  intros HM HW. unfold currentFrame. cbv zeta. unfold draw.
  cbn [mapRef windSeriesRef particleArray rngCalls flowFrameRef set_canvas].
  rewrite HM, !HW.
  set (f := nth (flowFrameRef s mod length (f0 :: fs)) (f0 :: fs) f0).
  destruct (forEachParticle m f (particleArray s) (rngCalls s)) as [[ps sts] n].
  cbn [mapRef windSeriesRef particleArray rngCalls flowFrameRef canvas fst snd
       set_canvas set_particleArray set_rngCalls set_flowFrameRef].
  repeat split; auto.
Qed.

Lemma seedParticles_within (b : Bounds) (n count : nat) :
  randomInUnit P -> boxBounds b ->
  Forall (fun p => withinBounds b (lon p) (lat p)) (seedParticles b n count).
Proof.
  intros HR HB. unfold seedParticles. apply List.Forall_forall. intros p Hp.
  apply in_map_iff in Hp. destruct Hp as (i & <- & _). simpl.
  destruct (HR (n + 3 * i)%nat) as [A B], (HR (n + 3 * i + 1)%nat) as [C D].
  now apply spawn_within.
Qed.

End ArrowFacts.

Lemma trunc_floor (q : Q) : 0 <= q -> JS.trunc q = Qfloor q.
Proof.
  destruct q as [n d]. unfold Qle, JS.trunc, Qfloor. simpl. intros H.
  apply Z.quot_div_nonneg; lia.
Qed.

Lemma rem_modulo (x : Q) : 0 <= x -> JS.rem x 360 == JS.modulo x 360.
Proof.
  intros H. unfold JS.rem, JS.modulo. rewrite trunc_floor; [reflexivity |].
  apply Qle_shift_div_l; [reflexivity | lra].
Qed.

Lemma min_proper (c a b : Q) : a == b -> JS.min c a == JS.min c b.
Proof.
  intros E. unfold JS.min.
  destruct (Qle_bool c a) eqn:A, (Qle_bool c b) eqn:B; try reflexivity; try exact E.
  - apply Qle_bool_iff in A. assert (N : ~ c <= b).
    { intros H. apply Qle_bool_iff in H. congruence. }
    lra.
  - apply Qle_bool_iff in B. assert (N : ~ c <= a).
    { intros H. apply Qle_bool_iff in H. congruence. }
    lra.
Qed.

Lemma orElse_number (x : Q) : JS.orElse (Some x) 0 == x.
Proof.
  unfold JS.orElse. destruct (Qeq_bool x 0) eqn:E; [| reflexivity].
  apply Qeq_bool_iff in E. now rewrite E.
Qed.

(** C5.  A repaint of the 2D arrows (not suppressed, wind series not
    empty) strokes, for every particle, a segment from its projected
    position with heading [((d + 180) % 360) * (PI / 180)] and length
    [min(18, s * 0.5)], at most 18, where [d] and [s] are the direction
    and speed of the current frame; [%] is the mathematical [mod] for
    [d >= -180].  For the series [[{direction_deg: 90, speed_ms: 4}]] the
    heading is [270 * (PI / 180)] and the length [min(18, 4 * 0.5)]. *)
Theorem arrows_follow_wind (P : Platform) (s : Viz.State) (m : Engine.Map)
    (f0 : Viz.FlowFrame) (fs : list Viz.FlowFrame) :
  Viz.mapRef s = Some m -> Viz.windSeriesRef s = f0 :: fs ->
  let f := Viz.currentFrame s f0 in
  let h := JS.rem (Viz.direction_deg f + 180) 360 * (JS.PI / 180) in
  let len := JS.min 18 (JS.orElse (Viz.speed_ms f) 0 * (5 # 10)) in
  Viz.canvas (Viz.draw false s) = List.map (Viz.strokeOf m h len) (Viz.particleArray s) /\
  (0 <= Viz.direction_deg f + 180 ->
   JS.rem (Viz.direction_deg f + 180) 360 == JS.modulo (Viz.direction_deg f + 180) 360) /\
  (forall sp : Q, Viz.speed_ms f = Some sp -> len == JS.min 18 (sp * (5 # 10))) /\
  len <= 18 /\
  (fs = [] -> Viz.direction_deg f0 = 90 -> Viz.speed_ms f0 = Some 4 ->
   Viz.canvas (Viz.draw false s)
   = List.map (Viz.strokeOf m (270 * (JS.PI / 180)) (JS.min 18 (4 * (5 # 10))))
              (Viz.particleArray s)).
Proof.
  intros HM HW f h len.
  destruct (draw_paints s m f0 fs HM HW) as (_ & C & _).
  assert (E : Viz.canvas (Viz.draw false s)
              = List.map (Viz.strokeOf m h len) (Viz.particleArray s)).
  { rewrite C. apply forEachParticle_strokes. }
  split; [exact E |]. split; [apply rem_modulo |]. split; [| split].
  - intros sp Hsp. subst len. rewrite Hsp. apply min_proper.
    now rewrite orElse_number.
  - apply min_le_l.
  - intros -> D S. rewrite E. subst h len f. unfold Viz.currentFrame.
    rewrite HW. cbn [length]. rewrite Nat.mod_1_r. cbn [nth].
    rewrite D, S. reflexivity.
Qed.

Lemma arrows_follow_wind_witness :
  exists m : Engine.Map,
    Viz.mapRef Sample.simulated2D = Some m /\
    Viz.canvas (@Viz.draw Sample.platform false Sample.simulated2D)
    = List.map (@Viz.strokeOf Sample.platform m (270 * (JS.PI / 180)) (JS.min 18 (4 * (5 # 10))))
               (Viz.particleArray Sample.simulated2D).
Proof.
  assert (H : exists m, Viz.mapRef Sample.simulated2D = Some m).
  { eexists. vm_compute. reflexivity. }
  destruct H as (m & HM). exists m. split; [exact HM |].
  assert (HW : Viz.windSeriesRef Sample.simulated2D
               = [Viz.mkFrame 90 (Some 4) "2024-12-15"]).
  { vm_compute. reflexivity. }
  destruct (arrows_follow_wind Sample.platform Sample.simulated2D m _ _ HM HW)
    as (_ & _ & _ & _ & T).
  apply T; reflexivity.
Defined.

(** C6.  Every position assigned when the 2D particles are seeded lies in
    the bounds of that moment, and a repaint ages every particle by one:
    exactly when the new age exceeds the cap of 300 the particle gets age
    0 and a position resampled inside the current bounds, else it keeps
    its new age and drifts. *)
Theorem particles_respawn_within_bounds (P : Platform) :
  randomInUnit P ->
  (forall (b : Engine.Bounds) (n count : nat),
      boxBounds b ->
      Forall (fun p => withinBounds b (Viz.lon p) (Viz.lat p)) (Viz.seedParticles b n count)) /\
  (forall (s : Viz.State) (m : Engine.Map),
      Viz.mapRef s = Some m ->
      exists s1 : Viz.State,
        Viz.particleArray s1 = Viz.seedParticles (Engine.getBounds m) (Viz.rngCalls s) 200 /\
        Viz.init2DArrows s = Viz.draw (Viz.show3D s) s1) /\
  (forall (s : Viz.State) (m : Engine.Map) (f0 : Viz.FlowFrame) (fs : list Viz.FlowFrame),
      Viz.mapRef s = Some m -> Viz.windSeriesRef s = f0 :: fs ->
      boxBounds (Engine.getBounds m) ->
      Forall2 (Viz.repainted m (Viz.currentFrame s f0))
              (Viz.particleArray s) (Viz.particleArray (Viz.draw false s))).
Proof.
  intros HR. split; [| split].
  - intros b n count HB. now apply seedParticles_within.
  - intros s m HM. unfold Viz.init2DArrows. rewrite HM.
    eexists. split; [| reflexivity]. reflexivity.
  - intros s m f0 fs HM HW HB.
    destruct (draw_paints s m f0 fs HM HW) as (A & _). rewrite A.
    now apply forEachParticle_repainted.
Qed.

Lemma particles_respawn_within_bounds_witness :
  exists m : Engine.Map,
    Viz.mapRef Sample.simulated2D = Some m /\
    Forall2 (@Viz.repainted Sample.platform m
               (Viz.currentFrame Sample.simulated2D (Viz.mkFrame 90 (Some 4) "2024-12-15")))
            (Viz.particleArray Sample.simulated2D)
            (Viz.particleArray (@Viz.draw Sample.platform false Sample.simulated2D)).
Proof.
  assert (H : exists m, Viz.mapRef Sample.simulated2D = Some m /\
                        boxBounds (Engine.getBounds m)).
  { eexists. split; [vm_compute; reflexivity |]. split; vm_compute; discriminate. }
  destruct H as (m & HM & HB). exists m. split; [exact HM |].
  assert (HW : Viz.windSeriesRef Sample.simulated2D
               = [Viz.mkFrame 90 (Some 4) "2024-12-15"]).
  { vm_compute. reflexivity. }
  destruct (particles_respawn_within_bounds Sample.platform sample_random_in_unit)
    as (_ & _ & T).
  exact (T Sample.simulated2D m _ _ HM HW HB).
Defined.

(** ** Re-running the simulation *)

Section RerunFacts.
Import Engine Viz.
Context {P : Platform}.

Lemma forEachParticle_length (m : Map) (f : FlowFrame) (ps : list Particle) :
  forall n, length (fst (fst (forEachParticle m f ps n))) = length ps.
Proof.
  induction ps as [| p rest IH]; intros n; simpl; [reflexivity |].
  destruct (stepParticle m f p n) as [[p' st] n1].
  specialize (IH n1). destruct (forEachParticle m f rest n1) as [[rest' sts] n2].
  simpl in *. now rewrite IH.
Qed.

Lemma draw_keeps (c : bool) (s : State) :
  drawLoops (draw c s) = drawLoops s /\
  windSeriesRef (draw c s) = windSeriesRef s /\
  length (particleArray (draw c s)) = length (particleArray s).
Proof.
  unfold draw. destruct c; [repeat split |].
  cbn [mapRef windSeriesRef particleArray rngCalls flowFrameRef set_canvas].
  destruct (mapRef s) as [m |]; [| repeat split].
  destruct (windSeriesRef s) as [| f0 fs] eqn:W; [repeat split; now rewrite ?W |].
  set (f := nth (flowFrameRef s mod length (f0 :: fs)) (f0 :: fs) f0).
  pose proof (forEachParticle_length m f (particleArray s) (rngCalls s)) as Len.
  destruct (forEachParticle m f (particleArray s) (rngCalls s)) as [[ps sts] n].
  cbn [drawLoops windSeriesRef particleArray fst
       set_canvas set_particleArray set_rngCalls set_flowFrameRef] in *.
  repeat split; auto.
Qed.

Lemma seedParticles_length (b : Bounds) (n count : nat) :
  length (seedParticles b n count) = count.
Proof. unfold seedParticles. now rewrite length_map, length_seq. Qed.

Lemma init2DArrows_rebuilds (s : State) (m : Map) :
  mapRef s = Some m ->
  drawLoops (init2DArrows s) = drawLoops s ++ [show3D s] /\
  windSeriesRef (init2DArrows s) = windSeriesRef s /\
  length (particleArray (init2DArrows s)) = 200%nat /\
  (forall ps, particleArray (init2DArrows (set_particleArray ps s))
              = particleArray (init2DArrows s)).
Proof.
  intros HM. unfold init2DArrows.
  cbn [mapRef set_particleArray]. rewrite HM.
  match goal with |- context [draw (show3D s) ?x] =>
    destruct (draw_keeps (show3D s) x) as (A & B & C) end.
  split; [exact A |]. split; [exact B |]. split; [| reflexivity].
  rewrite C. cbn [particleArray set_drawLoops set_rngCalls set_particleArray].
  apply seedParticles_length.
Qed.

Lemma add3DLayer_fresh (s : State) (m : Map) :
  mapRef s = Some m -> isStyleLoaded m = true ->
  getLayer "flux-3d-particles" m = None -> getLayer "waterway-label" m <> None ->
  add3DLayer s
  = Ok (set_mapRef
          (Some (set_layers (insertBefore "waterway-label" customLayer (layers m)) m))
          (set_threeStateRef
             (mkThree true true true
                (Some (List.map (fun i => samplePoint m (rngCalls s + 12 + 3 * i))
                                (List.seq 0 1800))))
             (set_rngCalls (rngCalls s + 5420) s))).
Proof.
  intros HM L C W. assert (L' : styleLoaded m = true) by exact L.
  unfold add3DLayer. rewrite HM, C. cbn [is_some].
  unfold onMap. cbn [mapRef set_threeStateRef set_rngCalls]. rewrite HM.
  unfold addLayer, isStyleLoaded, sourceKnown. rewrite L'.
  cbn [negb layer_id customLayer layer_source]. rewrite C. cbn [is_some negb].
  apply is_some_true in W. rewrite W. reflexivity.
Qed.

Lemma remove_then_add3D (s : State) (m : Map) :
  mapRef s = Some m -> isStyleLoaded m = true -> getLayer "waterway-label" m <> None ->
  (remove3DLayer >>> add3DLayer) s
  = Ok (set_mapRef (Some (withCustom m))
          (set_threeStateRef
             (mkThree true true true
                (Some (List.map (fun i => samplePoint (withoutCustom m) (rngCalls s + 12 + 3 * i))
                                (List.seq 0 1800))))
             (set_rngCalls (rngCalls s + 5420) s))) /\
  getLayer "flux-3d-particles" (withCustom m) = Some customLayer.
Proof.
  intros HM L W.
  assert (R : remove3DLayer s = Ok (set_mapRef (Some (withoutCustom m)) s)).
  { unfold remove3DLayer, onMap. rewrite HM.
    now rewrite removeLayerIfPresent_ok by exact L. }
  assert (C1 : getLayer "flux-3d-particles" (withoutCustom m) = None)
    by apply find_filter_same.
  split.
  - unfold chain. rewrite R. cbn [andThen].
    rewrite (add3DLayer_fresh (set_mapRef (Some (withoutCustom m)) s)
                              (withoutCustom m) eq_refl L C1).
    + reflexivity.
    + unfold getLayer, withoutCustom. cbn [layers set_layers].
      now rewrite find_filter_other by discriminate.
  - unfold getLayer, withCustom. cbn [layers set_layers].
    apply (find_insertBefore_new "waterway-label" customLayer). exact C1.
Qed.

End RerunFacts.

(** C4 (as amended).  A re-run of the simulation, with the map mounted
    and a city selected, replaces the stored wind-frame sequence and
    rebuilds the active renderer: in 2D mode [init2DArrows] seeds all 200
    particles anew, whatever the particle array held; in 3D mode, when the
    style is loaded and has the layer "waterway-label", the custom layer is
    removed and added again with 1800 newly sampled points, whatever the
    point cloud held. *)
Theorem rerun_rebuilds_renderer (P : Platform) (data : Viz.FluxResponse) (s : Viz.State)
    (m : Engine.Map) (city : string) :
  Viz.mapRef s = Some m -> Viz.truthy (Viz.selectedCity s) = Some city ->
  let s' := Viz.runSimulation (Some data) s in
  (Viz.show3D s = false ->
   Viz.windSeriesRef s' = match Viz.wind_series data with Some w => w | None => [] end /\
   length (Viz.particleArray s') = 200%nat /\
   forall ps : list Viz.Particle,
     Viz.particleArray (Viz.runSimulation (Some data) (Viz.set_particleArray ps s))
     = Viz.particleArray s') /\
  (Viz.show3D s = true -> Engine.isStyleLoaded m = true ->
   Engine.getLayer "waterway-label" m <> None ->
   Viz.windSeriesRef s' = match Viz.wind_series data with Some w => w | None => [] end /\
   Viz.customRegistered s' = true /\
   (exists pts : list (Q * Q * Q),
       Viz.points (Viz.threeStateRef s') = Some pts /\ length pts = 1800%nat) /\
   forall t : Viz.ThreeState,
     Viz.threeStateRef (Viz.runSimulation (Some data) (Viz.set_threeStateRef t s))
     = Viz.threeStateRef s').
Proof.
  intros HM HC s'. subst s'. split.
  - intros H2D. unfold Viz.runSimulation.
    cbn [Viz.selectedCity Viz.show3D Viz.set_particleArray Viz.set_windSeriesRef
         Viz.set_fetchLog]. rewrite HC.
    cbn [Viz.selectedCity Viz.show3D Viz.set_particleArray Viz.set_windSeriesRef
         Viz.set_fetchLog]. rewrite H2D.
    match goal with |- context [Viz.init2DArrows ?x] =>
      destruct (init2DArrows_rebuilds x m HM) as (_ & B & C & D) end.
    cbn [Viz.show3D Viz.set_windSeriesRef Viz.set_fetchLog Viz.drawLoops
         Viz.windSeriesRef] in B.
    split; [exact B |]. split; [exact C |].
    intros ps. etransitivity; [| apply (D ps)]. reflexivity.
  - intros H3D L W. unfold Viz.runSimulation.
    cbn [Viz.selectedCity Viz.show3D Viz.set_threeStateRef Viz.set_windSeriesRef
         Viz.set_fetchLog]. rewrite HC.
    cbn [Viz.selectedCity Viz.show3D Viz.set_threeStateRef Viz.set_windSeriesRef
         Viz.set_fetchLog]. rewrite H3D.
    match goal with |- context [Engine.chain Viz.remove3DLayer Viz.add3DLayer ?x] =>
      destruct (remove_then_add3D x m HM L W) as (R & C) end.
    rewrite R. cbn [Engine.finalState].
    split; [reflexivity |]. split.
    { unfold Viz.customRegistered. cbn [Viz.mapRef Viz.set_mapRef]. now rewrite C. }
    split.
    { eexists. split; [reflexivity |]. now rewrite length_map, length_seq. }
    intros t.
    match goal with |- context [Engine.chain Viz.remove3DLayer Viz.add3DLayer ?x] =>
      destruct (remove_then_add3D x m HM L W) as (R' & C') end.
    rewrite R'. cbn [Engine.finalState]. reflexivity.
Qed.

Lemma rerun_rebuilds_renderer_witness :
  Viz.windSeriesRef (@Viz.runSimulation Sample.platform (Some Sample.east4) Sample.afterFrame)
  = match Viz.wind_series Sample.east4 with Some w => w | None => [] end /\
  length (Viz.particleArray
            (@Viz.runSimulation Sample.platform (Some Sample.east4) Sample.afterFrame))
  = 200%nat.
Proof.
  assert (H : exists m, Viz.mapRef Sample.afterFrame = Some m).
  { eexists. vm_compute. reflexivity. }
  destruct H as (m & HM).
  assert (HC : Viz.truthy (Viz.selectedCity Sample.afterFrame) = Some "Paris"%string).
  { vm_compute. reflexivity. }
  destruct (rerun_rebuilds_renderer Sample.platform Sample.east4 Sample.afterFrame m
              "Paris" HM HC) as (T & _).
  assert (H2 : Viz.show3D Sample.afterFrame = false) by (vm_compute; reflexivity).
  destruct (T H2) as (A & B & _). split; assumption.
Defined.

(** C4, the claim as stated fails in both modes.  After a simulation ran
    in 2D mode and one frame went by, running it again replaces the
    particles (the first one has another age).  After the 3D mode was
    switched on for a selected city, running the simulation replaces the
    point cloud (its first point lies elsewhere), with the custom layer
    registered before and after.  When the basemap was swapped meanwhile,
    to a style without the layer "waterway-label" or to one that is not
    loaded yet, the run replaces the point cloud all the same, but the
    engine refuses the custom layer: it is not registered afterwards. *)
Lemma rerun_reseeds_particles_counterexample :
  (let s0 := Sample.afterFrame in
   let s1 := @Viz.runSimulation Sample.platform (Some Sample.east4) s0 in
   let p0 := nth 0 (Viz.particleArray s0) (Viz.mkParticle 0 0 0) in
   let p1 := nth 0 (Viz.particleArray s1) (Viz.mkParticle 0 0 0) in
   Viz.show3D s0 = false /\
   nth_error (Viz.particleArray s0) 0 = Some p0 /\
   nth_error (Viz.particleArray s1) 0 = Some p1 /\
   ~ Viz.age p0 == Viz.age p1) /\
  (let s0 := Sample.selected3D in
   let s1 := @Viz.runSimulation Sample.platform (Some Sample.east4) s0 in
   exists q0 q1 : Q * Q * Q,
     Viz.show3D s0 = true /\
     Viz.customRegistered s0 = true /\ Viz.customRegistered s1 = true /\
     Observe.firstPoint s0 = Some q0 /\ Observe.firstPoint s1 = Some q1 /\
     ~ fst (fst q0) == fst (fst q1)) /\
  (let s0 := Engine.finalState (Viz.reloadStyle Sample.unlabelled Sample.selected3D) in
   let s1 := @Viz.runSimulation Sample.platform (Some Sample.east4) s0 in
   exists (m0 : Engine.Map) (q0 q1 : Q * Q * Q),
     Viz.show3D s0 = true /\ Viz.mapRef s0 = Some m0 /\
     Engine.isStyleLoaded m0 = true /\ Engine.getLayer "waterway-label" m0 = None /\
     Observe.firstPoint s0 = Some q0 /\ Observe.firstPoint s1 = Some q1 /\
     ~ fst (fst q0) == fst (fst q1) /\
     Viz.customRegistered s1 = false) /\
  (let s0 := Engine.finalState (Viz.switchBase Sample.streets Sample.selected3D) in
   let s1 := @Viz.runSimulation Sample.platform (Some Sample.east4) s0 in
   exists (m0 : Engine.Map) (q0 q1 : Q * Q * Q),
     Viz.show3D s0 = true /\ Viz.mapRef s0 = Some m0 /\
     Engine.isStyleLoaded m0 = false /\ Engine.getLayer "waterway-label" m0 <> None /\
     Observe.firstPoint s0 = Some q0 /\ Observe.firstPoint s1 = Some q1 /\
     ~ fst (fst q0) == fst (fst q1) /\
     Viz.customRegistered s1 = false).
Proof.
  split; [| split; [| split]].
  - cbv zeta. split; [vm_compute; reflexivity |].
    split; [vm_compute; reflexivity |]. split; [vm_compute; reflexivity |].
    apply Qeq_bool_neq. vm_compute. reflexivity.
  - cbv zeta. do 2 eexists.
    split; [vm_compute; reflexivity |]. split; [vm_compute; reflexivity |].
    split; [vm_compute; reflexivity |]. split; [vm_compute; reflexivity |].
    split; [vm_compute; reflexivity |].
    apply Qeq_bool_neq. vm_compute. reflexivity.
  - cbv zeta. do 3 eexists.
    split; [vm_compute; reflexivity |]. split; [vm_compute; reflexivity |].
    split; [vm_compute; reflexivity |]. split; [vm_compute; reflexivity |].
    split; [vm_compute; reflexivity |]. split; [vm_compute; reflexivity |].
    split; [apply Qeq_bool_neq; vm_compute; reflexivity |].
    vm_compute. reflexivity.
  - cbv zeta. do 3 eexists.
    split; [vm_compute; reflexivity |]. split; [vm_compute; reflexivity |].
    split; [vm_compute; reflexivity |]. split; [vm_compute; discriminate |].
    split; [vm_compute; reflexivity |]. split; [vm_compute; reflexivity |].
    split; [apply Qeq_bool_neq; vm_compute; reflexivity |].
    vm_compute. reflexivity.
Qed.

(** ** The guarded resume timer of the results component *)

Section FluxPause.
Import Engine Timers Flux.

Lemma flux_animateOrbit_keeps (s : State) :
  rotatingRef (animateOrbit s) = rotatingRef s /\
  modeRef (animateOrbit s) = modeRef s /\
  clock (animateOrbit s) = clock s /\
  resumeTimerRef (animateOrbit s) = resumeTimerRef s.
Proof.
  unfold animateOrbit.
  destruct (rotatingRef s) eqn:R, (mapRef s), (modeRef s) eqn:M; simpl; auto.
Qed.

Lemma flux_run_settled (evs : list Idle) : forall s : State,
  pending (clock s) = [] ->
  rotatingRef (run evs s) = rotatingRef s /\ modeRef (run evs s) = modeRef s.
Proof.
  induction evs as [| ev rest IH]; intros s E; [now split |].
  change (run (ev :: rest) s) with (run rest (idle ev s)).
  assert (H : rotatingRef (idle ev s) = rotatingRef s /\ modeRef (idle ev s) = modeRef s /\
              pending (clock (idle ev s)) = []).
  { destruct ev as [| dt]; simpl.
    - destruct (flux_animateOrbit_keeps s) as (A & B & C & _). now rewrite A, B, C.
    - unfold advance, elapse. rewrite E. simpl. auto. }
  destruct H as (R' & M' & E'). destruct (IH _ E') as (A & B). split; congruence.
Qed.

Lemma flux_run_armed (evs : list Idle) : forall (s : State) (id : nat) (D : N),
  rotatingRef s = false -> pending (clock s) = [mkTimer id D] ->
  (now (clock s) < D)%N ->
  rotatingRef (run evs s)
  = match modeRef s with
    | GlobeMode => (D <=? now (clock s) + elapsed evs)%N
    | FocusMode => false
    end.
Proof.
  induction evs as [| ev rest IH]; intros s id D R E L.
  - simpl. rewrite N.add_0_r, R.
    destruct (modeRef s); [| reflexivity]. symmetry. now apply N.leb_gt.
  - change (run (ev :: rest) s) with (run rest (idle ev s)).
    destruct ev as [| dt].
    + simpl idle. destruct (flux_animateOrbit_keeps s) as (A & B & C & _).
      rewrite <- A in R. rewrite <- C in E, L.
      rewrite (IH _ id D R E L), B, C. reflexivity.
    + simpl idle. simpl elapsed.
      destruct (N.leb D (now (clock s) + dt)) eqn:Due.
      * assert (A : advance dt s = resumeOrbit
                      (set_clock (mkClock (now (clock s) + dt) [] (nextId (clock s))) s)).
        { unfold advance, elapse. rewrite E. simpl. unfold isDue. simpl. now rewrite Due. }
        rewrite A.
        destruct (flux_run_settled rest
                    (resumeOrbit (set_clock (mkClock (now (clock s) + dt) [] (nextId (clock s))) s)))
          as (X & _).
        { unfold resumeOrbit. simpl. now destruct (modeRef s). }
        rewrite X. unfold resumeOrbit. simpl.
        destruct (modeRef s); simpl; [| exact R].
        symmetry. apply N.leb_le. apply N.leb_le in Due. lia.
      * assert (A : advance dt s =
                    set_clock (mkClock (now (clock s) + dt) [mkTimer id D] (nextId (clock s))) s).
        { unfold advance, elapse. rewrite E. simpl. unfold isDue. simpl. now rewrite Due. }
        rewrite A.
        rewrite (IH (set_clock (mkClock (now (clock s) + dt) [mkTimer id D] (nextId (clock s))) s)
                    id D R eq_refl).
        { simpl. now rewrite N.add_assoc. }
        simpl. apply N.leb_gt in Due. exact Due.
Qed.

(** In the results component the timer resumes the orbit after the
    delay in globe mode, and never in focus mode (where that component
    has no orbit). *)
Lemma flux_pause_then_idle (evs : list Idle) (s : State) :
  tracked s ->
  rotatingRef (run evs (pauseOrbit s))
  = match modeRef s with
    | GlobeMode => (resumeDelay <=? elapsed evs)%N
    | FocusMode => false
    end.
Proof.
  intros T. unfold tracked in T.
  assert (A : rotatingRef (pauseOrbit s) = false /\ modeRef (pauseOrbit s) = modeRef s /\
              now (clock (pauseOrbit s)) = now (clock s) /\
              exists id, pending (clock (pauseOrbit s))
                         = [mkTimer id (now (clock s) + resumeDelay)]).
  { unfold pauseOrbit. simpl.
    destruct (resumeTimerRef s) as [id |] eqn:E; simpl.
    - rewrite clear_tracked.
      + simpl. repeat split. eexists. reflexivity.
      + intros t Ht. specialize (T t Ht). congruence.
    - destruct (pending (clock s)) as [| t rest] eqn:F.
      + simpl. repeat split. eexists. reflexivity.
      + specialize (T t (or_introl eq_refl)). discriminate. }
  destruct A as (R & M & Nw & id & E).
  rewrite (flux_run_armed evs (pauseOrbit s) id _ R E).
  - rewrite M, Nw. destruct (modeRef s); [| reflexivity].
    destruct (N.leb_spec resumeDelay (elapsed evs));
      [apply N.leb_le | apply N.leb_gt]; lia.
  - rewrite Nw. unfold resumeDelay. lia.
Qed.

End FluxPause.

(** ** Pauses under all signals of the engine *)

Section FrontendSignals.
Import Engine Timers Frontend.

Lemma listeners_run (k : nat) (s : State) :
  clock (Nat.iter k onMoveEnd s) = clock s /\
  resumeTimerRef (Nat.iter k onMoveEnd s) = resumeTimerRef s /\
  modeRef (Nat.iter k onMoveEnd s) = modeRef s /\
  rotatingRef (Nat.iter k onMoveEnd s) = negb (Nat.eqb k 0) || rotatingRef s.
Proof.
  induction k as [| k (A & B & C & D)]; [now repeat split |].
  change (Nat.iter (S k) onMoveEnd s) with (onMoveEnd (Nat.iter k onMoveEnd s)).
  unfold onMoveEnd. cbn [clock resumeTimerRef modeRef rotatingRef set_rotatingRef
                         set_bearingRef Nat.eqb negb orb].
  now repeat split.
Qed.

Lemma fireMoveEnd_facts (s : State) :
  clock (fireMoveEnd s) = clock s /\
  resumeTimerRef (fireMoveEnd s) = resumeTimerRef s /\
  modeRef (fireMoveEnd s) = modeRef s /\
  moveEndOnce (fireMoveEnd s) = 0%nat /\
  rotatingRef (fireMoveEnd s) = negb (Nat.eqb (moveEndOnce s) 0) || rotatingRef s.
Proof.
  unfold fireMoveEnd. destruct (listeners_run (moveEndOnce s) s) as (A & B & C & D).
  cbn [clock resumeTimerRef modeRef rotatingRef moveEndOnce set_moveEndOnce].
  now repeat split.
Qed.

Lemma resumed_all (fired : list Timer) : forall s : State,
  clock (fold_left (fun acc _ => resumeOrbit acc) fired s) = clock s /\
  resumeTimerRef (fold_left (fun acc _ => resumeOrbit acc) fired s) = resumeTimerRef s /\
  moveEndOnce (fold_left (fun acc _ => resumeOrbit acc) fired s) = moveEndOnce s /\
  rotatingRef (fold_left (fun acc _ => resumeOrbit acc) fired s)
  = match fired with [] => rotatingRef s | _ :: _ => true end.
Proof.
  induction fired as [| t rest IH]; intros s; [now repeat split |].
  cbn [fold_left]. destruct (IH (resumeOrbit s)) as (A & B & C & D).
  rewrite A, B, C, D. repeat split. now destruct rest.
Qed.

Lemma advance_facts (dt : N) (s : State) :
  clock (advance dt s) = snd (elapse dt (clock s)) /\
  resumeTimerRef (advance dt s) = resumeTimerRef s /\
  moveEndOnce (advance dt s) = moveEndOnce s /\
  rotatingRef (advance dt s)
  = match fst (elapse dt (clock s)) with [] => rotatingRef s | _ :: _ => true end.
Proof.
  unfold advance, elapse. cbn [fst snd].
  match goal with |- context [fold_left _ ?l ?x] =>
    destruct (resumed_all l x) as (A & B & C & D) end.
  rewrite A, B, C, D. now repeat split.
Qed.

Lemma animateOrbit_keeps_listeners (s : State) :
  moveEndOnce (animateOrbit s) = moveEndOnce s.
Proof. unfold animateOrbit. destruct (rotatingRef s), (mapRef s); reflexivity. Qed.

Lemma settle_keeps_on (g : Signal) (s : State) :
  rotatingRef s = true -> rotatingRef (settle g s) = true.
Proof.
  intros R. destruct g as [[| dt] |]; cbn [settle idle].
  - destruct (animateOrbit_keeps_timers s) as (A & _). congruence.
  - destruct (advance_facts dt s) as (_ & _ & _ & D). rewrite D, R.
    now destruct (fst (elapse dt (clock s))).
  - destruct (fireMoveEnd_facts s) as (_ & _ & _ & _ & D). rewrite D, R.
    apply orb_true_r.
Qed.

Lemma unattended_on (gs : list Signal) : forall s : State,
  rotatingRef s = true -> rotatingRef (unattended gs s) = true.
Proof.
  induction gs as [| g rest IH]; intros s R; [exact R |].
  change (unattended (g :: rest) s) with (unattended rest (settle g s)).
  apply IH. now apply settle_keeps_on.
Qed.

Lemma settle_tracked (g : Signal) (s : State) : tracked s -> tracked (settle g s).
Proof.
  intros T. unfold tracked in *. destruct g as [[| dt] |]; cbn [settle idle].
  - destruct (animateOrbit_keeps_timers s) as (_ & B & C). now rewrite B, C.
  - destruct (advance_facts dt s) as (A & B & _). rewrite A, B.
    unfold elapse. cbn [snd pending]. intros t Ht.
    apply List.filter_In in Ht. apply T. tauto.
  - destruct (fireMoveEnd_facts s) as (A & B & _). now rewrite A, B.
Qed.

Lemma unattended_tracked (gs : list Signal) : forall s : State,
  tracked s -> tracked (unattended gs s).
Proof.
  induction gs as [| g rest IH]; intros s T; [exact T |].
  change (unattended (g :: rest) s) with (unattended rest (settle g s)).
  apply IH. now apply settle_tracked.
Qed.

Lemma pauseOrbit_tracked (s : State) : tracked s -> tracked (pauseOrbit s).
Proof.
  intros T. destruct (pauseOrbit_arms s T) as (_ & _ & id & E & I).
  intros t Ht. rewrite E in Ht. destruct Ht as [<- | []]. exact I.
Qed.

Lemma pauseOrbit_keeps_listeners (s : State) :
  moveEndOnce (pauseOrbit s) = moveEndOnce s.
Proof. unfold pauseOrbit. simpl. now destruct (resumeTimerRef s). Qed.

Lemma unattended_armed (gs : list Signal) : forall (s : State) (id : nat) (D : N),
  rotatingRef s = false -> pending (clock s) = [mkTimer id D] ->
  (now (clock s) < D)%N ->
  rotatingRef (unattended gs s) = heard s gs || (D <=? now (clock s) + waited gs)%N.
Proof.
  induction gs as [| g rest IH]; intros s id D R E L.
  - unfold heard. cbn [unattended fold_left existsb waited].
    rewrite andb_false_r, N.add_0_r, R. symmetry. now apply N.leb_gt.
  - change (unattended (g :: rest) s) with (unattended rest (settle g s)).
    destruct g as [[| dt] |]; cbn [settle idle waited].
    + assert (A : animateOrbit s = s) by (unfold animateOrbit; now rewrite R).
      rewrite A. rewrite (IH s id D R E L). reflexivity.
    + destruct (advance_facts dt s) as (A & B & C & F).
      unfold elapse in A, F. cbn [fst snd] in A, F. rewrite E in A, F.
      cbn [List.filter] in A, F. unfold isDue in A, F. cbn [due] in A, F.
      destruct (N.leb D (now (clock s) + dt)) eqn:Due; cbn [negb] in A, F.
      * rewrite (unattended_on rest _ F). symmetry. apply orb_true_iff. right.
        apply N.leb_le. apply N.leb_le in Due. lia.
      * rewrite (IH (advance dt s) id D).
        -- unfold heard. rewrite C, A. cbn [now existsb isMoveEnd orb].
           now rewrite N.add_assoc.
        -- now rewrite F.
        -- now rewrite A.
        -- rewrite A. cbn [now]. now apply N.leb_gt.
    + destruct (fireMoveEnd_facts s) as (A & B & C & Z & F).
      unfold heard. cbn [existsb isMoveEnd orb]. rewrite andb_true_r.
      destruct (Nat.eqb (moveEndOnce s) 0) eqn:K; cbn [negb orb] in *.
      * rewrite (IH (fireMoveEnd s) id D).
        -- unfold heard. rewrite Z, A. reflexivity.
        -- now rewrite F.
        -- now rewrite A.
        -- now rewrite A.
      * now apply unattended_on.
Qed.

Lemma pause_then_signals (gs : list Signal) (s : State) :
  tracked s ->
  rotatingRef (unattended gs (pauseOrbit s)) = heard s gs || (resumeDelay <=? waited gs)%N.
Proof.
  intros T. destruct (pauseOrbit_arms s T) as (R & Nw & id & E & I).
  assert (L : (now (clock (pauseOrbit s)) < now (clock s) + resumeDelay)%N).
  { rewrite Nw. unfold resumeDelay. lia. }
  rewrite (unattended_armed gs (pauseOrbit s) id _ R E L), Nw.
  unfold heard. rewrite pauseOrbit_keeps_listeners. f_equal.
  destruct (N.leb_spec resumeDelay (waited gs)); [apply N.leb_le | apply N.leb_gt]; lia.
Qed.

(** The condition [tracked] of the pause lemmas is an invariant: it
    holds when the component is mounted, and pauses, signals and
    selections keep it. *)
Lemma selection_tracked (coords : Q * Q) (s : State) :
  tracked s -> tracked (onGeocoderResult coords s).
Proof.
  intros T. unfold tracked, onGeocoderResult in *.
  cbn [mapRef set_rotatingRef set_modeRef]. now destruct (mapRef s).
Qed.
End FrontendSignals.

Section FluxSignals.
Import Engine Timers Flux.

Lemma flux_listeners_run (k : nat) (s : State) :
  clock (Nat.iter k onMoveEnd s) = clock s /\
  resumeTimerRef (Nat.iter k onMoveEnd s) = resumeTimerRef s /\
  modeRef (Nat.iter k onMoveEnd s) = modeRef s /\
  rotatingRef (Nat.iter k onMoveEnd s) = negb (Nat.eqb k 0) || rotatingRef s.
Proof.
  induction k as [| k (A & B & C & D)]; [now repeat split |].
  change (Nat.iter (S k) onMoveEnd s) with (onMoveEnd (Nat.iter k onMoveEnd s)).
  unfold onMoveEnd. cbn [clock resumeTimerRef modeRef rotatingRef set_rotatingRef
                         Nat.eqb negb orb].
  now repeat split.
Qed.

Lemma flux_fireMoveEnd_facts (s : State) :
  clock (fireMoveEnd s) = clock s /\
  resumeTimerRef (fireMoveEnd s) = resumeTimerRef s /\
  modeRef (fireMoveEnd s) = modeRef s /\
  moveEndOnce (fireMoveEnd s) = 0%nat /\
  rotatingRef (fireMoveEnd s) = negb (Nat.eqb (moveEndOnce s) 0) || rotatingRef s.
Proof.
  unfold fireMoveEnd. destruct (flux_listeners_run (moveEndOnce s) s) as (A & B & C & D).
  cbn [clock resumeTimerRef modeRef rotatingRef moveEndOnce set_moveEndOnce].
  now repeat split.
Qed.

Lemma flux_resumed_all (fired : list Timer) : forall s : State,
  clock (fold_left (fun acc _ => resumeOrbit acc) fired s) = clock s /\
  resumeTimerRef (fold_left (fun acc _ => resumeOrbit acc) fired s) = resumeTimerRef s /\
  moveEndOnce (fold_left (fun acc _ => resumeOrbit acc) fired s) = moveEndOnce s /\
  modeRef (fold_left (fun acc _ => resumeOrbit acc) fired s) = modeRef s /\
  rotatingRef (fold_left (fun acc _ => resumeOrbit acc) fired s)
  = match fired, modeRef s with
    | _ :: _, GlobeMode => true
    | _, _ => rotatingRef s
    end.
Proof.
  induction fired as [| t rest IH]; intros s; [now repeat split |].
  cbn [fold_left]. destruct (IH (resumeOrbit s)) as (A & B & C & M & D).
  rewrite A, B, C, M, D. unfold resumeOrbit.
  destruct (modeRef s) eqn:Mo; cbn [clock resumeTimerRef moveEndOnce modeRef rotatingRef
                                    set_rotatingRef]; rewrite ?Mo; repeat split;
    now destruct rest.
Qed.

Lemma flux_advance_facts (dt : N) (s : State) :
  clock (advance dt s) = snd (elapse dt (clock s)) /\
  resumeTimerRef (advance dt s) = resumeTimerRef s /\
  moveEndOnce (advance dt s) = moveEndOnce s /\
  modeRef (advance dt s) = modeRef s /\
  rotatingRef (advance dt s)
  = match fst (elapse dt (clock s)), modeRef s with
    | _ :: _, GlobeMode => true
    | _, _ => rotatingRef s
    end.
Proof.
  unfold advance, elapse. cbn [fst snd].
  match goal with |- context [fold_left _ ?l ?x] =>
    destruct (flux_resumed_all l x) as (A & B & C & M & D) end.
  rewrite A, B, C, M, D. now repeat split.
Qed.

Lemma flux_animateOrbit_keeps_listeners (s : State) :
  moveEndOnce (animateOrbit s) = moveEndOnce s.
Proof.
  unfold animateOrbit. destruct (rotatingRef s), (mapRef s), (modeRef s); reflexivity.
Qed.

Lemma flux_settle_keeps_on (g : Signal) (s : State) :
  rotatingRef s = true -> rotatingRef (settle g s) = true.
Proof.
  intros R. destruct g as [[| dt] |]; cbn [settle idle].
  - destruct (flux_animateOrbit_keeps s) as (A & _). congruence.
  - destruct (flux_advance_facts dt s) as (_ & _ & _ & _ & D). rewrite D, R.
    now destruct (fst (elapse dt (clock s))), (modeRef s).
  - destruct (flux_fireMoveEnd_facts s) as (_ & _ & _ & _ & D). rewrite D, R.
    apply orb_true_r.
Qed.

Lemma flux_unattended_on (gs : list Signal) : forall s : State,
  rotatingRef s = true -> rotatingRef (unattended gs s) = true.
Proof.
  induction gs as [| g rest IH]; intros s R; [exact R |].
  change (unattended (g :: rest) s) with (unattended rest (settle g s)).
  apply IH. now apply flux_settle_keeps_on.
Qed.

Lemma flux_settle_tracked (g : Signal) (s : State) : tracked s -> tracked (settle g s).
Proof.
  intros T. unfold tracked in *. destruct g as [[| dt] |]; cbn [settle idle].
  - destruct (flux_animateOrbit_keeps s) as (_ & _ & B & C). now rewrite B, C.
  - destruct (flux_advance_facts dt s) as (A & B & _). rewrite A, B.
    unfold elapse. cbn [snd pending]. intros t Ht.
    apply List.filter_In in Ht. apply T. tauto.
  - destruct (flux_fireMoveEnd_facts s) as (A & B & _). now rewrite A, B.
Qed.

Lemma flux_unattended_tracked (gs : list Signal) : forall s : State,
  tracked s -> tracked (unattended gs s).
Proof.
  induction gs as [| g rest IH]; intros s T; [exact T |].
  change (unattended (g :: rest) s) with (unattended rest (settle g s)).
  apply IH. now apply flux_settle_tracked.
Qed.

Lemma flux_pauseOrbit_arms (s : State) :
  tracked s ->
  rotatingRef (pauseOrbit s) = false /\ modeRef (pauseOrbit s) = modeRef s /\
  moveEndOnce (pauseOrbit s) = moveEndOnce s /\
  now (clock (pauseOrbit s)) = now (clock s) /\
  exists id, pending (clock (pauseOrbit s)) = [mkTimer id (now (clock s) + resumeDelay)] /\
             resumeTimerRef (pauseOrbit s) = Some id.
Proof.
  intros T. unfold tracked in T. unfold pauseOrbit. simpl.
  destruct (resumeTimerRef s) as [id |] eqn:E; simpl.
  - rewrite clear_tracked.
    + simpl. repeat split. eexists. split; reflexivity.
    + intros t Ht. specialize (T t Ht). congruence.
  - destruct (pending (clock s)) as [| t rest] eqn:F.
    + simpl. repeat split. eexists. split; reflexivity.
    + specialize (T t (or_introl eq_refl)). discriminate.
Qed.

Lemma flux_pauseOrbit_tracked (s : State) : tracked s -> tracked (pauseOrbit s).
Proof.
  intros T. destruct (flux_pauseOrbit_arms s T) as (_ & _ & _ & _ & id & E & I).
  intros t Ht. rewrite E in Ht. destruct Ht as [<- | []]. exact I.
Qed.

Lemma flux_unattended_settled (gs : list Signal) : forall s : State,
  rotatingRef s = false -> pending (clock s) = [] ->
  rotatingRef (unattended gs s) = heard s gs.
Proof.
  induction gs as [| g rest IH]; intros s R E.
  - unfold heard. cbn [unattended fold_left existsb]. now rewrite andb_false_r.
  - change (unattended (g :: rest) s) with (unattended rest (settle g s)).
    destruct g as [[| dt] |]; cbn [settle idle].
    + assert (A : animateOrbit s = s) by (unfold animateOrbit; now rewrite R).
      rewrite A. now rewrite (IH s R E).
    + destruct (flux_advance_facts dt s) as (A & B & C & M & F).
      unfold elapse in A, F. cbn [fst snd] in A, F. rewrite E in A, F.
      cbn [List.filter] in A, F.
      rewrite (IH (advance dt s)).
      * unfold heard. now rewrite C.
      * now rewrite F.
      * now rewrite A.
    + destruct (flux_fireMoveEnd_facts s) as (A & B & C & Z & F).
      unfold heard. cbn [existsb isMoveEnd orb]. rewrite andb_true_r.
      destruct (Nat.eqb (moveEndOnce s) 0) eqn:K; cbn [negb orb] in *.
      * rewrite (IH (fireMoveEnd s)).
        -- unfold heard. now rewrite Z.
        -- now rewrite F.
        -- now rewrite A.
      * now apply flux_unattended_on.
Qed.

Lemma flux_unattended_armed (gs : list Signal) : forall (s : State) (id : nat) (D : N),
  rotatingRef s = false -> pending (clock s) = [mkTimer id D] ->
  (now (clock s) < D)%N ->
  rotatingRef (unattended gs s)
  = heard s gs || match modeRef s with
                  | GlobeMode => (D <=? now (clock s) + waited gs)%N
                  | FocusMode => false
                  end.
Proof.
  induction gs as [| g rest IH]; intros s id D R E L.
  - unfold heard. cbn [unattended fold_left existsb waited].
    rewrite andb_false_r, N.add_0_r, R.
    destruct (modeRef s); [| reflexivity]. symmetry. now apply N.leb_gt.
  - change (unattended (g :: rest) s) with (unattended rest (settle g s)).
    destruct g as [[| dt] |]; cbn [settle idle waited].
    + assert (A : animateOrbit s = s) by (unfold animateOrbit; now rewrite R).
      rewrite A. rewrite (IH s id D R E L). reflexivity.
    + destruct (flux_advance_facts dt s) as (A & B & C & M & F).
      unfold elapse in A, F. cbn [fst snd] in A, F. rewrite E in A, F.
      cbn [List.filter] in A, F. unfold isDue in A, F. cbn [due] in A, F.
      destruct (N.leb D (now (clock s) + dt)) eqn:Due; cbn [negb] in A, F.
      * destruct (modeRef s) eqn:Mo.
        -- rewrite (flux_unattended_on rest _ F). symmetry. apply orb_true_iff. right.
           apply N.leb_le. apply N.leb_le in Due. lia.
        -- rewrite (flux_unattended_settled rest (advance dt s)).
           ++ unfold heard. rewrite C. cbn [existsb isMoveEnd orb]. now rewrite orb_false_r.
           ++ now rewrite F.
           ++ now rewrite A.
      * rewrite (IH (advance dt s) id D).
        -- unfold heard. rewrite C, A, M. cbn [now existsb isMoveEnd orb].
           now rewrite N.add_assoc.
        -- rewrite F. now destruct (modeRef s).
        -- now rewrite A.
        -- rewrite A. cbn [now]. now apply N.leb_gt.
    + destruct (flux_fireMoveEnd_facts s) as (A & B & C & Z & F).
      unfold heard. cbn [existsb isMoveEnd orb]. rewrite andb_true_r.
      destruct (Nat.eqb (moveEndOnce s) 0) eqn:K; cbn [negb orb] in *.
      * rewrite (IH (fireMoveEnd s) id D).
        -- unfold heard. rewrite Z, A, C. reflexivity.
        -- now rewrite F.
        -- now rewrite A.
        -- now rewrite A.
      * now apply flux_unattended_on.
Qed.

Lemma flux_pause_then_signals (gs : list Signal) (s : State) :
  tracked s ->
  rotatingRef (unattended gs (pauseOrbit s))
  = heard s gs || match modeRef s with
                  | GlobeMode => (resumeDelay <=? waited gs)%N
                  | FocusMode => false
                  end.
Proof.
  intros T. destruct (flux_pauseOrbit_arms s T) as (R & M & K & Nw & id & E & I).
  assert (L : (now (clock (pauseOrbit s)) < now (clock s) + resumeDelay)%N).
  { rewrite Nw. unfold resumeDelay. lia. }
  rewrite (flux_unattended_armed gs (pauseOrbit s) id _ R E L), Nw, M.
  unfold heard. rewrite K. f_equal. destruct (modeRef s); [| reflexivity].
  destruct (N.leb_spec resumeDelay (waited gs)); [apply N.leb_le | apply N.leb_gt]; lia.
Qed.

Lemma flux_onMap_timers (f : Map -> outcome Map) (s : State) :
  clock (finalState (onMap f s)) = clock s /\
  resumeTimerRef (finalState (onMap f s)) = resumeTimerRef s.
Proof.
  unfold onMap. destruct (mapRef s) as [m |]; [| now split].
  destruct (f m); now split.
Qed.

Lemma flux_selection_tracked (name : string) (coords : Q * Q)
    (resp : option Viz.BoundaryResponse) (s : State) :
  tracked s -> tracked (finalState (onGeocoderResult name coords resp s)).
Proof.
  intros T. unfold tracked in *.
  assert (K : clock (finalState (onGeocoderResult name coords resp s)) = clock s /\
              resumeTimerRef (finalState (onGeocoderResult name coords resp s))
              = resumeTimerRef s).
  { unfold onGeocoderResult. cbv zeta.
    set (s1 := set_rotatingRef false (set_modeRef FocusMode (set_selectedCity (Some name) s))).
    match goal with |- context [onMap ?f ?x] =>
      destruct (flux_onMap_timers f x) as [A B];
      assert (X : clock x = clock s /\ resumeTimerRef x = resumeTimerRef s);
      [| destruct (onMap f x) as [s3 | e s3]; cbn [andThen finalState] in *;
         cbn [clock resumeTimerRef set_moveEndOnce]; destruct X; split; congruence]
    end.
    destruct resp as [[[g |]] |]; try (now split).
    unfold addHighlightLayer. destruct (mapRef s1); [| now split].
    match goal with |- context [onMap ?f ?x] => destruct (flux_onMap_timers f x) as [A' B'] end.
    split; [rewrite A' | rewrite B']; reflexivity. }
  destruct K as [A B]. now rewrite A, B.
Qed.
End FluxSignals.

(** C8 (as amended).  From a state in which the only pending timer is
    the one [resumeTimerRef] holds (mounting, pauses, signals and
    selections maintain this): after [pauseOrbit], with no further
    interaction of the user (display frames, the passing of time and the
    engine's [moveend] only), and as long as no [moveend] reaches a
    listener that a selection left waiting, the rotation flag of the
    frontend component is off while less than the delay of 5000 ms has
    elapsed and on from then on; the flag of the results component does
    the same in globe mode and stays off in focus mode, where the timer's
    callback does nothing.  In both components a [moveend] that reaches a
    waiting listener switches the flag on at once.  A second [pauseOrbit]
    restarts the timer, so the delay counts from the last call; and the
    resume callback is idempotent. *)
Theorem pause_resumes_after_delay (s : Frontend.State) (t : Flux.State) :
  Frontend.tracked s -> Flux.tracked t ->
  (forall gs : list Signal,
      Frontend.rotatingRef (Frontend.unattended gs (Frontend.pauseOrbit s))
      = Frontend.heard s gs || (resumeDelay <=? waited gs)%N) /\
  (forall gs : list Signal,
      Flux.rotatingRef (Flux.unattended gs (Flux.pauseOrbit t))
      = Flux.heard t gs || match Flux.modeRef t with
                           | GlobeMode => (resumeDelay <=? waited gs)%N
                           | FocusMode => false
                           end) /\
  (forall gs : list Signal,
      Frontend.heard s gs = false ->
      Frontend.rotatingRef (Frontend.unattended gs (Frontend.pauseOrbit s))
      = (resumeDelay <=? waited gs)%N) /\
  (forall gs1 gs2 : list Signal,
      let s' := Frontend.unattended gs1 (Frontend.pauseOrbit s) in
      Frontend.rotatingRef (Frontend.unattended gs2 (Frontend.pauseOrbit s'))
      = Frontend.heard s' gs2 || (resumeDelay <=? waited gs2)%N) /\
  (forall gs1 gs2 : list Signal,
      let t' := Flux.unattended gs1 (Flux.pauseOrbit t) in
      Flux.rotatingRef (Flux.unattended gs2 (Flux.pauseOrbit t'))
      = Flux.heard t' gs2 || match Flux.modeRef t' with
                             | GlobeMode => (resumeDelay <=? waited gs2)%N
                             | FocusMode => false
                             end) /\
  (forall s' : Frontend.State,
      Frontend.resumeOrbit (Frontend.resumeOrbit s') = Frontend.resumeOrbit s') /\
  (forall t' : Flux.State, Flux.resumeOrbit (Flux.resumeOrbit t') = Flux.resumeOrbit t').
Proof.
  intros T U. split; [| split; [| split; [| split; [| split; [| split]]]]].
  - intros gs. now apply pause_then_signals.
  - intros gs. now apply flux_pause_then_signals.
  - intros gs H. rewrite (pause_then_signals gs s T), H. reflexivity.
  - intros gs1 gs2 s'. apply pause_then_signals.
    apply unattended_tracked. now apply pauseOrbit_tracked.
  - intros gs1 gs2 t'. apply flux_pause_then_signals.
    apply flux_unattended_tracked. now apply flux_pauseOrbit_tracked.
  - intros s'. reflexivity.
  - intros t'. unfold Flux.resumeOrbit. destruct (Flux.modeRef t') eqn:M; cbn; now rewrite ?M.
Qed.

Lemma pause_resumes_after_delay_witness :
  Frontend.rotatingRef
    (Frontend.unattended [Quiet (Elapse 4999); Quiet Frame; MoveEnd; Quiet (Elapse 1)]
       (Frontend.pauseOrbit
          (Frontend.unattended [Quiet Frame; Quiet (Elapse 3000)]
             (Frontend.pauseOrbit (Frontend.mounted Sample.map)))))
  = true /\
  Flux.rotatingRef
    (Flux.unattended [Quiet (Elapse 4999); Quiet Frame]
       (Flux.pauseOrbit (Flux.mounted Sample.map)))
  = false.
Proof.
  assert (T : Frontend.tracked (Frontend.mounted Sample.map)) by (intros x []).
  assert (U : Flux.tracked (Flux.mounted Sample.map)) by (intros x []).
  destruct (pause_resumes_after_delay (Frontend.mounted Sample.map) (Flux.mounted Sample.map)
              T U) as (_ & F & _ & H & _).
  split.
  - rewrite (H [Quiet Frame; Quiet (Elapse 3000)]
               [Quiet (Elapse 4999); Quiet Frame; MoveEnd; Quiet (Elapse 1)]).
    apply orb_true_iff. right. reflexivity.
  - rewrite (F [Quiet (Elapse 4999); Quiet Frame]). reflexivity.
Defined.

(** C8, the claim as stated fails in two ways.  In the frontend
    component a place is selected and, one second after a drag paused the
    orbit, the engine's [moveend] runs the listener the selection left
    waiting: the rotation flag is on again, four seconds before the delay
    is over.  In the results component a place is selected, its flight
    ends, and a drag pauses the orbit: ten seconds later the rotation flag
    is still off. *)
Lemma pause_resume_counterexample :
  (let s := Frontend.pauseOrbit
              (Frontend.onGeocoderResult (235 # 100, 4885 # 100)
                 (Frontend.mounted Sample.map)) in
   let gs := [Quiet (Elapse 1000); MoveEnd] in
   Frontend.rotatingRef s = false /\
   (waited gs < resumeDelay)%N /\
   Frontend.rotatingRef (Frontend.unattended gs s) = true) /\
  (let t := Flux.pauseOrbit
              (Flux.fireMoveEnd
                 (Engine.finalState
                    (Flux.onGeocoderResult "Paris" (235 # 100, 4885 # 100) None
                       (Flux.mounted Sample.map)))) in
   let gs := [Quiet (Elapse 5000); Quiet Frame; MoveEnd; Quiet (Elapse 5000)] in
   (resumeDelay <= waited gs)%N /\
   Flux.rotatingRef (Flux.unattended gs t) = false).
Proof.
  cbv zeta. split; [split; [| split] | split].
  - vm_compute. reflexivity.
  - vm_compute. reflexivity.
  - vm_compute. reflexivity.
  - vm_compute. discriminate.
  - vm_compute. reflexivity.
Qed.

(** * Further properties of the components *)

(** ** Repaints of the 2D arrows *)

Section RepaintFacts.
Import Engine Viz Observe.
Context {P : Platform}.

Lemma draw_keeps_map (c : bool) (s : State) : mapRef (draw c s) = mapRef s.
Proof.
  unfold draw. destruct c; [reflexivity |].
  cbn [mapRef windSeriesRef particleArray rngCalls flowFrameRef set_canvas].
  destruct (mapRef s) as [m |] eqn:M; [| exact M].
  destruct (windSeriesRef s) as [| f0 fs]; [exact M |].
  destruct (forEachParticle m _ (particleArray s) (rngCalls s)) as [[ps sts] n].
  exact M.
Qed.

Lemma repaints_keep (n : nat) (s : State) :
  mapRef (repaints n s) = mapRef s /\ windSeriesRef (repaints n s) = windSeriesRef s.
Proof.
  induction n as [| n [IH1 IH2]]; [now split |].
  change (repaints (S n) s) with (draw false (repaints n s)).
  rewrite draw_keeps_map. destruct (draw_keeps false (repaints n s)) as (_ & W & _).
  split; congruence.
Qed.

Lemma stepParticle_age (m : Map) (f : FlowFrame) (p : Particle) (n : nat) :
  0 <= age p ->
  0 <= age (fst (fst (stepParticle m f p n))) /\
  age (fst (fst (stepParticle m f p n))) <= 300.
Proof.
  intros H. unfold stepParticle.
  destruct (JS.gt (age p + 1) 300) eqn:G; cbn [fst age];
    [split; lra | apply gt_false in G; split; lra].
Qed.

Lemma forEachParticle_ages (m : Map) (f : FlowFrame) (ps : list Particle) :
  forall n, agesInRange ps -> agesInRange (fst (fst (forEachParticle m f ps n))).
Proof.
  unfold agesInRange. induction ps as [| p rest IH]; intros n H; simpl; [constructor |].
  inversion H as [| ? ? [A B] R]; subst.
  pose proof (stepParticle_age m f p n A) as S.
  destruct (stepParticle m f p n) as [[p' st] n1].
  specialize (IH n1 R). destruct (forEachParticle m f rest n1) as [[rest' sts] n2].
  simpl in *. now constructor.
Qed.

Lemma draw_ages (c : bool) (s : State) :
  agesInRange (particleArray s) -> agesInRange (particleArray (draw c s)).
Proof.
  intros H. unfold draw. destruct c; [exact H |].
  cbn [mapRef windSeriesRef particleArray rngCalls flowFrameRef set_canvas].
  destruct (mapRef s) as [m |]; [| exact H].
  destruct (windSeriesRef s) as [| f0 fs]; [exact H |].
  set (f := nth (flowFrameRef s mod length (f0 :: fs)) (f0 :: fs) f0).
  pose proof (forEachParticle_ages m f (particleArray s) (rngCalls s) H) as A.
  destruct (forEachParticle m f (particleArray s) (rngCalls s)) as [[ps sts] n].
  exact A.
Qed.

Lemma fold_draw_ages (loops : list bool) : forall s : State,
  agesInRange (particleArray s) ->
  agesInRange (particleArray (fold_left (fun acc c => draw c acc) loops s)).
Proof.
  induction loops as [| c rest IH]; intros s H; [exact H |].
  simpl. apply IH. now apply draw_ages.
Qed.

Lemma seedParticles_ages (b : Bounds) (n count : nat) :
  randomInUnit P -> agesInRange (seedParticles b n count).
Proof.
  intros HR. unfold agesInRange, seedParticles. apply List.Forall_forall.
  intros p Hp. apply in_map_iff in Hp. destruct Hp as (i & <- & _).
  unfold seedParticle. cbn [age].
  destruct (HR (n + 3 * i + 2)%nat) as [A B]. split; lra.
Qed.

End RepaintFacts.

(** X1.  With a map and a wind series of [len > 0] frames, [n + 1]
    repaints move the frame cursor from [k] to [(k + n + 1) mod len],
    whatever the number of particles; after a repaint the cursor is below
    [len]. *)
Theorem frame_cursor_wraps (P : Platform) (s : Viz.State) (m : Engine.Map)
    (f0 : Viz.FlowFrame) (fs : list Viz.FlowFrame) (n : nat) :
  Viz.mapRef s = Some m -> Viz.windSeriesRef s = f0 :: fs ->
  Viz.flowFrameRef (Observe.repaints (S n) s)
  = ((Viz.flowFrameRef s + S n) mod length (f0 :: fs))%nat /\
  (Viz.flowFrameRef (Observe.repaints (S n) s) < length (f0 :: fs))%nat.
Proof.
  intros HM HW.
  assert (E : Viz.flowFrameRef (Observe.repaints (S n) s)
              = ((Viz.flowFrameRef s + S n) mod length (f0 :: fs))%nat).
  { induction n as [| n IH].
    - change (Observe.repaints 1 s) with (Viz.draw false s).
      destruct (draw_paints s m f0 fs HM HW) as (_ & _ & C & _). exact C.
    - change (Observe.repaints (S (S n)) s)
        with (Viz.draw false (Observe.repaints (S n) s)).
      destruct (repaints_keep (S n) s) as (M & W).
      destruct (draw_paints (Observe.repaints (S n) s) m f0 fs) as (_ & _ & C & _);
        [congruence | congruence |].
      rewrite C, IH, Nat.Div0.add_mod_idemp_l. f_equal. lia. }
  split; [exact E |]. rewrite E. apply Nat.mod_upper_bound. discriminate.
Qed.

Lemma frame_cursor_wraps_witness :
  Viz.flowFrameRef (@Observe.repaints Sample.platform 3 Sample.simulated2D) = 0%nat.
Proof.
  assert (H : exists m, Viz.mapRef Sample.simulated2D = Some m).
  { eexists. vm_compute. reflexivity. }
  destruct H as (m & HM).
  assert (HW : Viz.windSeriesRef Sample.simulated2D
               = [Viz.mkFrame 90 (Some 4) "2024-12-15"]).
  { vm_compute. reflexivity. }
  destruct (frame_cursor_wraps Sample.platform Sample.simulated2D m _ _ 2 HM HW)
    as (H & _).
  rewrite H. cbn [length]. apply Nat.mod_1_r.
Defined.

(** X2.  A repaint that is suppressed (the closure captured [show3D =
    true]) or finds no wind frames only clears the canvas: particles,
    frame cursor and random stream stay as they are. *)
Theorem repaint_without_frames_only_clears (P : Platform) (c : bool) (s : Viz.State) :
  c = true \/ Viz.windSeriesRef s = [] ->
  Viz.draw c s = Viz.set_canvas [] s.
Proof.
  intros [-> | HW]; [reflexivity |].
  unfold Viz.draw. destruct c; [reflexivity |].
  cbn [Viz.mapRef Viz.windSeriesRef Viz.set_canvas]. rewrite HW.
  now destruct (Viz.mapRef s).
Qed.

Lemma repaint_without_frames_only_clears_witness :
  @Viz.draw Sample.platform true Sample.simulated2D
  = Viz.set_canvas [] Sample.simulated2D.
Proof.
  exact (repaint_without_frames_only_clears Sample.platform true Sample.simulated2D
           (or_introl eq_refl)).
Defined.

(** X3.  Particle ages never leave [0, 300]: seeding gives ages in
    [0, 200), and every repaint and every display frame (all live draw
    loops) keeps all ages between 0 and 300. *)
Theorem particle_ages_stay_in_range (P : Platform) :
  randomInUnit P ->
  (forall (s : Viz.State), Observe.agesInRange (Viz.particleArray (Viz.init2DArrows s)) \/
                           Viz.mapRef s = None) /\
  (forall (b : Engine.Bounds) (n count : nat),
      Forall (fun p => 0 <= Viz.age p /\ Viz.age p < 200) (Viz.seedParticles b n count)) /\
  (forall (c : bool) (s : Viz.State),
      Observe.agesInRange (Viz.particleArray s) ->
      Observe.agesInRange (Viz.particleArray (Viz.draw c s))) /\
  (forall s : Viz.State,
      Observe.agesInRange (Viz.particleArray s) ->
      Observe.agesInRange (Viz.particleArray (Viz.animationFrame s))).
Proof.
  intros HR. split; [| split; [| split]].
  - intros s. unfold Viz.init2DArrows. destruct (Viz.mapRef s) as [m |]; [left | now right].
    apply draw_ages. cbn [Viz.particleArray Viz.set_drawLoops Viz.set_rngCalls
                          Viz.set_particleArray].
    now apply seedParticles_ages.
  - intros b n count. unfold Viz.seedParticles. apply List.Forall_forall.
    intros p Hp. apply in_map_iff in Hp. destruct Hp as (i & <- & _).
    unfold Viz.seedParticle. cbn [Viz.age].
    destruct (HR (n + 3 * i + 2)%nat) as [A B]. split; lra.
  - intros c s. apply draw_ages.
  - intros s. unfold Viz.animationFrame. apply fold_draw_ages.
Qed.

Lemma particle_ages_stay_in_range_witness :
  Observe.agesInRange
    (Viz.particleArray
       (@Viz.animationFrame Sample.platform
          (@Viz.init2DArrows Sample.platform (Viz.mounted Sample.map)))).
Proof.
  destruct (particle_ages_stay_in_range Sample.platform sample_random_in_unit)
    as (I & _ & _ & F).
  apply F. destruct (I (Viz.mounted Sample.map)) as [H | H].
  - exact H.
  - discriminate H.
Defined.

(** ** What the handlers of the visualisation component leave alone *)

Section FrameFacts.
Import Engine Viz Observe.
Context {P : Platform} {A : Type} (proj : State -> A).

Hypothesis over_mapRef : forall v s, proj (set_mapRef v s) = proj s.
Hypothesis over_pending : forall v s, proj (set_pendingStyleLoad v s) = proj s.
Hypothesis over_three : forall v s, proj (set_threeStateRef v s) = proj s.
Hypothesis over_rng : forall v s, proj (set_rngCalls v s) = proj s.
Hypothesis over_canvas : forall v s, proj (set_canvas v s) = proj s.
Hypothesis over_particles : forall v s, proj (set_particleArray v s) = proj s.
Hypothesis over_frame : forall v s, proj (set_flowFrameRef v s) = proj s.
Hypothesis over_loops : forall v s, proj (set_drawLoops v s) = proj s.
Hypothesis over_city : forall v s, proj (set_selectedCity v s) = proj s.
Hypothesis over_fetchLog : forall v s, proj (set_fetchLog v s) = proj s.
Hypothesis over_wind : forall v s, proj (set_windSeriesRef v s) = proj s.
Hypothesis over_show3D : forall v s, proj (set_show3D v s) = proj s.
Hypothesis over_marker : forall v s, proj (set_markerRef v s) = proj s.
Hypothesis over_rotating : forall v s, proj (set_rotatingRef v s) = proj s.
Hypothesis over_highlight : forall v s, proj (set_highlightDataRef v s) = proj s.
Hypothesis over_bearing : forall v s, proj (set_bearingRef v s) = proj s.

Lemma keeps_chain (f g : State -> outcome State) :
  keeps proj f -> keeps proj g -> keeps proj (f >>> g).
Proof.
  intros F G s. unfold chain, andThen. specialize (F s).
  destruct (f s) as [s1 | e s1]; cbn [finalState] in *; [| exact F].
  now rewrite G.
Qed.

Lemma keeps_pure (f : State -> State) :
  (forall s, proj (f s) = proj s) -> keeps proj (fun s => Ok (f s)).
Proof. intros H s. apply H. Qed.

Lemma keeps_onMap (f : Map -> outcome Map) : keeps proj (onMap f).
Proof.
  intros s. unfold onMap. destruct (mapRef s); [| reflexivity].
  destruct (f m); cbn [finalState]; apply over_mapRef.
Qed.

Lemma keeps_whenStyleReady (t : StyleTask) : keeps proj (whenStyleReady t).
Proof.
  intros s. unfold whenStyleReady. destruct (mapRef s) as [m |] eqn:M; [| reflexivity].
  destruct (isStyleLoaded m); [apply keeps_onMap | apply over_pending].
Qed.

Lemma keeps_ensureTerrain : keeps proj ensureTerrain.
Proof.
  intros s. unfold ensureTerrain. destruct (mapRef s); [| reflexivity].
  apply keeps_whenStyleReady.
Qed.

Lemma keeps_add3DBuildings : keeps proj add3DBuildings.
Proof.
  intros s. unfold add3DBuildings. destruct (mapRef s); [| reflexivity].
  apply keeps_whenStyleReady.
Qed.

Lemma keeps_addHighlightLayer (g : GeoJSON) : keeps proj (addHighlightLayer g).
Proof.
  intros s. unfold addHighlightLayer. destruct (mapRef s); [| reflexivity].
  apply keeps_whenStyleReady.
Qed.

Lemma keeps_restoreHighlight : keeps proj restoreHighlight.
Proof.
  intros s. unfold restoreHighlight. destruct (highlightDataRef s); [| reflexivity].
  apply keeps_addHighlightLayer.
Qed.

Lemma keeps_styleLoadHandler : keeps proj styleLoadHandler.
Proof.
  unfold styleLoadHandler.
  repeat apply keeps_chain;
    [apply keeps_ensureTerrain | apply keeps_add3DBuildings | apply keeps_restoreHighlight].
Qed.

Lemma keeps_runPending (ts : list StyleTask) : keeps proj (runPending ts).
Proof.
  induction ts as [| t rest IH]; intros s; [reflexivity |].
  change (runPending (t :: rest) s) with ((onMap (runTask t) >>> runPending rest) s).
  apply keeps_chain; [apply keeps_onMap | exact IH].
Qed.

Lemma keeps_fireStyleLoad : keeps proj fireStyleLoad.
Proof.
  intros s. unfold fireStyleLoad. destruct (mapRef s) as [m |]; [| reflexivity].
  cbv zeta.
  match goal with
  | |- proj (finalState (andThen (styleLoadHandler ?x) ?k)) = _ =>
      change (andThen (styleLoadHandler x) k) with ((styleLoadHandler >>> k) x);
      rewrite (keeps_chain _ _ keeps_styleLoadHandler (keeps_runPending _) x)
  end.
  now rewrite over_pending, over_mapRef.
Qed.

Lemma keeps_switchBase (st : Style) : keeps proj (switchBase st).
Proof. unfold switchBase. apply keeps_onMap. Qed.

Lemma keeps_remove3DLayer : keeps proj remove3DLayer.
Proof. unfold remove3DLayer. apply keeps_onMap. Qed.

Lemma keeps_add3DLayer : keeps proj add3DLayer.
Proof.
  intros s. unfold add3DLayer. destruct (mapRef s) as [m |]; [| reflexivity].
  destruct (is_some (getLayer "flux-3d-particles" m)); [reflexivity |].
  cbv zeta. rewrite keeps_onMap. now rewrite over_three, over_rng.
Qed.

Lemma keeps_resetGlobe : keeps proj resetGlobe.
Proof.
  unfold resetGlobe.
  repeat apply keeps_chain; try apply keeps_onMap; try apply keeps_remove3DLayer.
  apply keeps_pure. intros s. apply over_city.
Qed.

Lemma frame_draw (c : bool) (s : State) : proj (draw c s) = proj s.
Proof.
  unfold draw. destruct c; [apply over_canvas |].
  cbn [mapRef windSeriesRef particleArray rngCalls flowFrameRef set_canvas].
  destruct (mapRef s) as [m |]; [| apply over_canvas].
  destruct (windSeriesRef s) as [| f0 fs]; [apply over_canvas |].
  destruct (forEachParticle m _ (particleArray s) (rngCalls s)) as [[ps sts] n].
  now rewrite over_frame, over_rng, over_canvas, over_particles, over_canvas.
Qed.

Lemma frame_init2DArrows (s : State) : proj (init2DArrows s) = proj s.
Proof.
  unfold init2DArrows. destruct (mapRef s) as [m |]; [| reflexivity].
  cbv zeta. rewrite frame_draw. now rewrite over_loops, over_rng, over_particles.
Qed.

Lemma frame_fold_draw (loops : list bool) : forall s : State,
  proj (fold_left (fun acc c => draw c acc) loops s) = proj s.
Proof.
  induction loops as [| c rest IH]; intros s; [reflexivity |].
  simpl. rewrite IH. apply frame_draw.
Qed.

Lemma frame_animationFrame (s : State) : proj (animationFrame s) = proj s.
Proof. unfold animationFrame. apply frame_fold_draw. Qed.

Lemma frame_runSimulation (resp : option FluxResponse) (s : State) :
  proj (runSimulation resp s) = proj s.
Proof.
  unfold runSimulation. destruct (truthy (selectedCity s)) as [city |]; [| reflexivity].
  cbv zeta. destruct resp as [data |]; [| apply over_fetchLog].
  cbn [show3D set_windSeriesRef set_fetchLog].
  destruct (show3D s).
  - rewrite (keeps_chain _ _ keeps_remove3DLayer keeps_add3DLayer).
    now rewrite over_wind, over_fetchLog.
  - rewrite frame_init2DArrows. now rewrite over_wind, over_fetchLog.
Qed.

Lemma keeps_toggle3D : keeps proj toggle3D.
Proof.
  intros s. unfold toggle3D. cbv zeta.
  match goal with
  | |- proj (finalState (match ?r with Ok _ => _ | Threw _ _ => _ end)) = _ =>
      assert (H : proj (finalState r) = proj s); [| destruct r; cbn [finalState] in *;
                                                    now rewrite over_show3D]
  end.
  destruct (negb (show3D s)).
  - repeat apply keeps_chain;
      [apply keeps_onMap | apply keeps_remove3DLayer | apply keeps_add3DLayer].
  - repeat apply keeps_chain;
      try apply keeps_onMap; try apply keeps_remove3DLayer.
    apply keeps_pure. apply frame_init2DArrows.
Qed.

Lemma frame_fetchAndDrawBoundary (name : string) (resp : option BoundaryResponse)
    (s : State) :
  proj (fetchAndDrawBoundary name resp s) = proj s.
Proof.
  unfold fetchAndDrawBoundary. cbv zeta.
  destruct resp as [[[g |]] |]; try apply over_fetchLog.
  rewrite keeps_addHighlightLayer. now rewrite over_highlight, over_fetchLog.
Qed.

Lemma keeps_onGeocoderResult (name : string) (coords : Q * Q)
    (resp : option BoundaryResponse) :
  keeps proj (onGeocoderResult name coords resp).
Proof.
  intros s. unfold onGeocoderResult. cbv zeta.
  rewrite keeps_onMap, frame_fetchAndDrawBoundary.
  now rewrite over_marker, over_rotating, over_city.
Qed.

Lemma frame_animateOrbit (s : State) : proj (animateOrbit s) = proj s.
Proof.
  unfold animateOrbit.
  destruct (rotatingRef s), (mapRef s), (modeRef s); try reflexivity.
  cbv zeta. now rewrite over_mapRef, over_bearing.
Qed.

Lemma keeps_onLoad : keeps proj onLoad.
Proof.
  unfold onLoad.
  repeat apply keeps_chain; [apply keeps_ensureTerrain | apply keeps_add3DBuildings |].
  apply keeps_pure. apply frame_animateOrbit.
Qed.

End FrameFacts.

(** ** Invariants over whole sessions *)

Section SessionFacts.
Import Engine Viz Session.
Context {P : Platform}.

Ltac by_frame proj :=
  first [ apply (keeps_onLoad proj) | apply (keeps_fireStyleLoad proj)
        | apply (keeps_switchBase proj) | apply (keeps_onGeocoderResult proj)
        | apply (frame_runSimulation proj) | apply (keeps_resetGlobe proj)
        | apply (keeps_toggle3D proj) | apply (frame_animateOrbit proj)
        | apply (frame_animationFrame proj) ]; intros; reflexivity.

Lemma run_cons (e : Event) (evs : list Event) (s : State) :
  run (e :: evs) s = run evs (handle e s).
Proof. reflexivity. Qed.

Lemma handle_keeps_mode (e : Event) (s : State) : modeRef (handle e s) = modeRef s.
Proof. destruct e; cbn [handle]; by_frame modeRef. Qed.

Lemma geocoder_stops_orbit (name : string) (coords : Q * Q)
    (resp : option BoundaryResponse) (s : State) :
  rotatingRef (finalState (onGeocoderResult name coords resp s)) = false.
Proof.
  unfold onGeocoderResult. cbv zeta.
  rewrite (keeps_onMap rotatingRef) by (intros; reflexivity).
  rewrite (frame_fetchAndDrawBoundary rotatingRef) by (intros; reflexivity).
  reflexivity.
Qed.

Lemma handle_orbit_off (e : Event) (s : State) :
  rotatingRef s = false ->
  rotatingRef (handle e s) = false /\ bearingRef (handle e s) = bearingRef s.
Proof.
  intros R. destruct e; cbn [handle];
    try (split; [rewrite <- R; by_frame rotatingRef | by_frame bearingRef]).
  - split; [rewrite <- R; by_frame rotatingRef |].
    unfold onLoad, chain, andThen.
    pose proof (keeps_ensureTerrain rotatingRef ltac:(intros; reflexivity)
                  ltac:(intros; reflexivity) s) as R1.
    pose proof (keeps_ensureTerrain bearingRef ltac:(intros; reflexivity)
                  ltac:(intros; reflexivity) s) as B1.
    destruct (ensureTerrain s) as [s1 | e1 s1]; cbn [finalState] in *; [| exact B1].
    pose proof (keeps_add3DBuildings rotatingRef ltac:(intros; reflexivity)
                  ltac:(intros; reflexivity) s1) as R2.
    pose proof (keeps_add3DBuildings bearingRef ltac:(intros; reflexivity)
                  ltac:(intros; reflexivity) s1) as B2.
    destruct (add3DBuildings s1) as [s2 | e2 s2]; cbn [finalState] in *; [| congruence].
    unfold animateOrbit. replace (rotatingRef s2) with false by congruence. congruence.
  - split; [apply geocoder_stops_orbit | by_frame bearingRef].
  - unfold animateOrbit. rewrite R. now split.
Qed.

Lemma run_orbit_off (evs : list Event) : forall s : State,
  rotatingRef s = false ->
  rotatingRef (run evs s) = false /\ bearingRef (run evs s) = bearingRef s /\
  modeRef (run evs s) = modeRef s.
Proof.
  induction evs as [| e rest IH]; intros s R; [now repeat split |].
  rewrite run_cons. destruct (handle_orbit_off e s R) as [R' B'].
  destruct (IH _ R') as (X & Y & Z).
  rewrite X, Y, Z, B', handle_keeps_mode. now repeat split.
Qed.

Lemma handle_highlight (e : Event) (s : State) :
  highlightDataRef (handle e s) = highlightDataRef s \/
  exists g, highlightDataRef (handle e s) = Some g.
Proof.
  destruct e; cbn [handle]; try (left; by_frame highlightDataRef).
  assert (K : forall x, highlightDataRef
                          (finalState (onGeocoderResult name coords resp s)) = x <->
                        highlightDataRef
                          (fetchAndDrawBoundary name resp
                             (set_markerRef (Some coords)
                                (set_rotatingRef false (set_selectedCity (Some name) s)))) = x).
  { intros x. unfold onGeocoderResult. cbv zeta.
    rewrite (keeps_onMap highlightDataRef) by (intros; reflexivity). reflexivity. }
  unfold fetchAndDrawBoundary in K. cbv zeta in K.
  destruct resp as [[[g |]] |]; cbv beta iota in K;
    try (left; apply K; reflexivity).
  right. exists g. apply K.
  rewrite (keeps_addHighlightLayer highlightDataRef) by (intros; reflexivity).
  reflexivity.
Qed.

Lemma handle_loops (e : Event) (s : State) :
  exists started, drawLoops (handle e s) = drawLoops s ++ started.
Proof.
  assert (I : forall s0, exists started,
               drawLoops (init2DArrows s0) = drawLoops s0 ++ started).
  { intros s0. destruct (mapRef s0) as [m |] eqn:M.
    - destruct (init2DArrows_rebuilds s0 m M) as (L & _). eauto.
    - unfold init2DArrows. rewrite M. exists []. now rewrite app_nil_r. }
  assert (Z : forall x : State, x = s -> exists started,
               drawLoops x = drawLoops s ++ started).
  { intros x ->. exists []. now rewrite app_nil_r. }
  destruct e; cbn [handle];
    try (exists []; rewrite app_nil_r; by_frame drawLoops).
  - unfold runSimulation. destruct (truthy (selectedCity s)) as [city |]; [| now apply Z].
    cbv zeta. destruct resp as [data |]; [| exists []; now rewrite app_nil_r].
    cbn [show3D set_windSeriesRef set_fetchLog]. destruct (show3D s).
    + exists []. rewrite app_nil_r.
      rewrite (keeps_chain drawLoops _ _ (keeps_remove3DLayer drawLoops ltac:(intros; reflexivity))
                 (keeps_add3DLayer drawLoops ltac:(intros; reflexivity)
                    ltac:(intros; reflexivity) ltac:(intros; reflexivity))).
      reflexivity.
    + match goal with |- context [init2DArrows ?x] => destruct (I x) as [l Hl] end.
      exists l. rewrite Hl. reflexivity.
  - unfold toggle3D. cbv zeta.
    match goal with
    | |- exists l, drawLoops (finalState (match ?r with Ok _ => _ | Threw _ _ => _ end)) = _ =>
        assert (H : exists l, drawLoops (finalState r) = drawLoops s ++ l);
          [| destruct r; cbn [finalState] in *; exact H]
    end.
    destruct (negb (show3D s)).
    + exists []. rewrite app_nil_r.
      repeat apply keeps_chain;
        [apply keeps_onMap | apply keeps_remove3DLayer | apply keeps_add3DLayer];
        intros; reflexivity.
    + unfold chain, andThen.
      pose proof (keeps_remove3DLayer drawLoops ltac:(intros; reflexivity) s) as K1.
      destruct (remove3DLayer s) as [s1 | e1 s1]; cbn [finalState] in *;
        [| exists []; now rewrite app_nil_r].
      match goal with |- context [onMap ?f s1] =>
        pose proof (keeps_onMap drawLoops ltac:(intros; reflexivity) f s1) as K2;
        destruct (onMap f s1) as [s2 | e2 s2] end; cbn [finalState] in *;
        [| exists []; rewrite app_nil_r; congruence].
      destruct (I s2) as [l Hl].
      match goal with |- context [onMap ?f (init2DArrows s2)] =>
        pose proof (keeps_onMap drawLoops ltac:(intros; reflexivity) f (init2DArrows s2)) as K3
      end.
      exists l. rewrite K3, Hl. congruence.
Qed.

Lemma handle_show3D (e : Event) (s : State) :
  show3D (handle e s) = if isToggle e then negb (show3D s) else show3D s.
Proof.
  destruct e; cbn [handle isToggle]; try by_frame show3D.
  unfold toggle3D. cbv zeta.
  match goal with
  | |- show3D (finalState (match ?r with Ok _ => _ | Threw _ _ => _ end)) = _ =>
      destruct r; reflexivity
  end.
Qed.

End SessionFacts.

(** X4.  In the visualisation component the orbit never turns again
    once a place has been selected: whatever happens afterwards (Reset,
    basemap swaps, simulations, frames), [rotatingRef] stays false and
    [bearingRef] and [modeRef] keep their values. *)
Theorem orbit_stays_off_after_selection (P : Platform) (evs : list Session.Event)
    (name : string) (coords : Q * Q) (resp : option Viz.BoundaryResponse)
    (s : Viz.State) :
  let s1 := Session.handle (Session.GeocoderResult name coords resp) s in
  Viz.rotatingRef (Session.run evs s1) = false /\
  Viz.bearingRef (Session.run evs s1) = Viz.bearingRef s /\
  Viz.modeRef (Session.run evs s1) = Viz.modeRef s.
Proof.
  intros s1.
  assert (R : Viz.rotatingRef s1 = false) by apply geocoder_stops_orbit.
  destruct (run_orbit_off evs s1 R) as (X & Y & Z).
  rewrite X, Y, Z. repeat split.
  - unfold s1. cbn [Session.handle].
    apply (keeps_onGeocoderResult Viz.bearingRef); intros; reflexivity.
  - apply handle_keeps_mode.
Qed.

(** X5.  No handler of the visualisation component clears the cached
    highlight: after any session [highlightDataRef] is what it was or a
    feature a later boundary answer carried. *)
Theorem highlight_cache_is_never_cleared (P : Platform) (evs : list Session.Event) :
  forall s : Viz.State,
    Viz.highlightDataRef (Session.run evs s) = Viz.highlightDataRef s \/
    exists g, Viz.highlightDataRef (Session.run evs s) = Some g.
Proof.
  induction evs as [| e rest IH]; intros s; [now left |].
  rewrite run_cons. destruct (IH (Session.handle e s)) as [H | H]; [| now right].
  rewrite H. apply handle_highlight.
Qed.

(** X6.  A [draw] loop is never stopped: over any session the list of
    running loops only grows at its end. *)
Theorem draw_loops_are_never_stopped (P : Platform) (evs : list Session.Event) :
  forall s : Viz.State,
    exists started : list bool,
      Viz.drawLoops (Session.run evs s) = Viz.drawLoops s ++ started.
Proof.
  induction evs as [| e rest IH]; intros s.
  - exists []. now rewrite app_nil_r.
  - rewrite run_cons. destruct (IH (Session.handle e s)) as [l2 H2].
    destruct (handle_loops e s) as [l1 H1].
    exists (l1 ++ l2). now rewrite H2, H1, app_assoc.
Qed.

(** X7.  Every press of the 3D button flips [show3D], also when the
    engine refuses a command of the handler; nothing else writes it. *)
Theorem show3D_counts_toggles (P : Platform) (evs : list Session.Event) :
  forall s : Viz.State,
    Viz.show3D (Session.run evs s) = xorb (Viz.show3D s) (Nat.odd (Session.toggles evs)).
Proof.
  induction evs as [| e rest IH]; intros s.
  - cbn. now destruct (Viz.show3D s).
  - rewrite run_cons, IH, handle_show3D. unfold Session.toggles. cbn [List.filter].
    destruct (Session.isToggle e); [| reflexivity].
    cbn [length]. rewrite Nat.odd_succ, <- Nat.negb_odd.
    now destruct (Viz.show3D s), (Nat.odd _).
Qed.

Section RenderableFacts.
Import Engine Viz Session Observe.
Context {P : Platform}.
Hypothesis unit_random : randomInUnit P.
Variable n : nat.

Lemma preserves_chain (inv : State -> Prop) (f g : State -> outcome State) :
  preserves inv f -> preserves inv g -> preserves inv (f >>> g).
Proof.
  intros F G s H. unfold chain, andThen. specialize (F s H).
  destruct (f s) as [s1 | e s1]; cbn [finalState] in *; [| exact F].
  now apply G.
Qed.

Lemma renderable_same (s s' : State) :
  particleArray s' = particleArray s -> renderable n s -> renderable n s'.
Proof. unfold renderable. intros ->. auto. Qed.

Lemma renderable_keeps (f : State -> outcome State) :
  keeps particleArray f -> preserves (renderable n) f.
Proof. intros K s H. apply (renderable_same s); [apply K | exact H]. Qed.

Lemma renderable_draw (c : bool) (s : State) :
  renderable n s -> renderable n (draw c s).
Proof.
  intros [A L]. split; [now apply draw_ages |].
  destruct (draw_keeps c s) as (_ & _ & E). now rewrite E.
Qed.

Lemma renderable_fold_draw (loops : list bool) : forall s : State,
  renderable n s -> renderable n (fold_left (fun acc c => draw c acc) loops s).
Proof.
  induction loops as [| c rest IH]; intros s H; [exact H |].
  simpl. apply IH. now apply renderable_draw.
Qed.

Lemma renderable_init2DArrows (s : State) :
  renderable n s -> renderable n (init2DArrows s).
Proof.
  intros H. destruct (mapRef s) as [m |] eqn:M.
  - split.
    + unfold init2DArrows. rewrite M. apply draw_ages.
      cbn [particleArray set_drawLoops set_rngCalls set_particleArray].
      now apply seedParticles_ages.
    + right. now destruct (init2DArrows_rebuilds s m M) as (_ & _ & L & _).
  - unfold init2DArrows. now rewrite M.
Qed.

Lemma renderable_handle (e : Event) (s : State) :
  renderable n s -> renderable n (handle e s).
Proof.
  intros H.
  assert (F : forall f : State -> outcome State,
             keeps particleArray f -> renderable n (finalState (f s))).
  { intros f K. now apply renderable_keeps. }
  destruct e; cbn [handle].
  - apply F, keeps_onLoad; intros; reflexivity.
  - apply F, keeps_fireStyleLoad; intros; reflexivity.
  - apply F, keeps_switchBase; intros; reflexivity.
  - apply F, keeps_onGeocoderResult; intros; reflexivity.
  - unfold runSimulation. destruct (truthy (selectedCity s)) as [city |]; [| exact H].
    cbv zeta. destruct resp as [data |]; [| exact H].
    match goal with |- context [set_windSeriesRef ?w ?x] =>
      assert (H2 : renderable n (set_windSeriesRef w x)) by exact H;
      generalize dependent (set_windSeriesRef w x) end.
    intros s2 H2. destruct (show3D s2).
    + apply preserves_chain; [| | exact H2]; apply renderable_keeps;
        [apply keeps_remove3DLayer | apply keeps_add3DLayer]; intros; reflexivity.
    + now apply renderable_init2DArrows.
  - apply F, keeps_resetGlobe; intros; reflexivity.
  - unfold toggle3D. cbv zeta.
    match goal with
    | |- renderable n (finalState (match ?r with Ok _ => _ | Threw _ _ => _ end)) =>
        assert (R : renderable n (finalState r)); [| destruct r; exact R]
    end.
    destruct (negb (show3D s)).
    + repeat apply preserves_chain; try exact H; apply renderable_keeps;
        [apply keeps_onMap | apply keeps_remove3DLayer | apply keeps_add3DLayer];
        intros; reflexivity.
    + repeat apply preserves_chain; try exact H;
        try (apply renderable_keeps;
             first [apply keeps_onMap | apply keeps_remove3DLayer]; intros; reflexivity).
      intros s0 H0. now apply renderable_init2DArrows.
  - apply (renderable_same s); [| exact H].
    apply (frame_animateOrbit particleArray); intros; reflexivity.
  - unfold animationFrame. now apply renderable_fold_draw.
Qed.

End RenderableFacts.

(** X8.  Over any session the 2D renderer keeps a well-formed particle
    array: every age stays within [0, 300], and the array has the length
    it started with or exactly 200 entries. *)
Theorem particles_stay_renderable (P : Platform) (n : nat) (evs : list Session.Event) :
  randomInUnit P ->
  forall s : Viz.State,
    Observe.renderable n s -> Observe.renderable n (Session.run evs s).
Proof.
  intros HR. induction evs as [| e rest IH]; intros s H; [exact H |].
  rewrite run_cons. apply IH. now apply renderable_handle.
Qed.

Lemma particles_stay_renderable_witness :
  Observe.renderable 0
    (@Session.run Sample.platform
       [Session.RunSimulation (Some Sample.east4); Session.PaintFrame; Session.Toggle3D;
        Session.PaintFrame; Session.Toggle3D; Session.ResetGlobe; Session.PaintFrame]
       Sample.parisSelected).
Proof.
  apply (particles_stay_renderable Sample.platform 0 _ sample_random_in_unit).
  split; [constructor | left; reflexivity].
Defined.

(** ** Toggling the 3D mode *)

Section ToggleFacts.
Import Engine Viz Observe.
Context {P : Platform}.

Lemma filter_hasId_absent (id : string) (ls : list Layer) :
  List.find (hasId id) ls = None -> List.filter (hasId id) ls = [].
Proof.
  induction ls as [| l rest IH]; [reflexivity |].
  simpl. destruct (hasId id l); [discriminate | exact IH].
Qed.



Lemma fold_draw_last (loops : list bool) (c : bool) (s : State) :
  fold_left (fun acc k => draw k acc) (loops ++ [c]) s
  = draw c (fold_left (fun acc k => draw k acc) loops s).
Proof. now rewrite fold_left_app. Qed.

Lemma blank_frames (loops : list bool) (k : nat) : forall s : State,
  drawLoops s = loops ++ [true] ->
  canvas (Nat.iter (S k) animationFrame s) = [] /\
  drawLoops (Nat.iter (S k) animationFrame s) = loops ++ [true].
Proof.
  induction k as [| k IH]; intros s L.
  - cbn [Nat.iter nat_rect]. split.
    + unfold animationFrame. rewrite L, fold_draw_last. reflexivity.
    + rewrite <- L. apply (frame_animationFrame drawLoops); intros; reflexivity.
  - destruct (IH s L) as [_ L'].
    change (Nat.iter (S (S k)) animationFrame s)
      with (animationFrame (Nat.iter (S k) animationFrame s)).
    split.
    + unfold animationFrame at 1. rewrite L', fold_draw_last. reflexivity.
    + rewrite <- L'. apply (frame_animationFrame drawLoops); intros; reflexivity.
Qed.

End ToggleFacts.



(** X10.  Switching the 3D mode off (style loaded) completes: the custom
    layer is gone, the map is back in globe projection with pitch and
    bearing 0, and 200 particles are seeded; but the [draw] loop it
    starts was built while [show3D] was still true, so it only clears:
    it runs last in every display frame and leaves the canvas empty. *)
Theorem toggle3D_off_starts_suppressed_loop (P : Platform) (s : Viz.State) (m : Engine.Map) :
  Viz.mapRef s = Some m -> Viz.show3D s = true -> Engine.isStyleLoaded m = true ->
  exists (s' : Viz.State) (m' : Engine.Map),
    Viz.toggle3D s = Engine.Ok s' /\ Viz.mapRef s' = Some m' /\
    Viz.show3D s' = false /\
    Engine.getLayer "flux-3d-particles" m' = None /\
    Engine.projection m' = Engine.Globe /\
    Engine.pitch (Engine.camera m') = 0 /\ Engine.bearing (Engine.camera m') = 0 /\
    Engine.center (Engine.camera m') = Engine.center (Engine.camera m) /\
    Engine.zoom (Engine.camera m') = Engine.zoom (Engine.camera m) /\
    Viz.drawLoops s' = Viz.drawLoops s ++ [true] /\
    length (Viz.particleArray s') = 200%nat /\
    forall k : nat, Viz.canvas (Nat.iter (S k) Viz.animationFrame s') = [].
Proof.
  intros HM H3 HL. unfold Viz.toggle3D. rewrite H3. cbn [negb]. cbv zeta.
  unfold Engine.chain.
  set (m1 := Engine.set_layers
               (List.filter (fun l => negb (Engine.hasId "flux-3d-particles" l))
                            (Engine.layers m)) m).
  assert (E1 : Viz.remove3DLayer s = Engine.Ok (Viz.set_mapRef (Some m1) s)).
  { unfold Viz.remove3DLayer, Viz.onMap. rewrite HM, (removeLayerIfPresent_ok _ _ HL).
    reflexivity. }
  rewrite E1. cbn [Engine.andThen].
  set (m2 := Engine.setProjection Engine.Globe m1).
  set (s2 := Viz.set_mapRef (Some m2) (Viz.set_mapRef (Some m1) s)).
  assert (E2 : forall f, Viz.onMap (fun x => Engine.Ok (f x)) (Viz.set_mapRef (Some m1) s)
                         = Engine.Ok (Viz.set_mapRef (Some (f m1)) (Viz.set_mapRef (Some m1) s)))
    by reflexivity.
  rewrite E2. fold m2. fold s2. cbn [Engine.andThen].
  assert (M2 : Viz.mapRef s2 = Some m2) by reflexivity.
  destruct (init2DArrows_rebuilds s2 m2 M2) as (L & _ & N & _).
  assert (M3 : Viz.mapRef (Viz.init2DArrows s2) = Some m2).
  { rewrite <- M2. apply (frame_init2DArrows Viz.mapRef); intros; reflexivity. }
  unfold Viz.onMap. rewrite M3.
  set (m3 := Engine.flyTo _ m2).
  remember (Viz.init2DArrows s2) as s3 eqn:E3.
  exists (Viz.set_show3D false (Viz.set_mapRef (Some m3) s3)), m3.
  split; [reflexivity |]. split; [reflexivity |]. split; [reflexivity |].
  split; [apply (find_filter_same "flux-3d-particles" (Engine.layers m)) |].
  split; [reflexivity |]. split; [reflexivity |]. split; [reflexivity |].
  split; [reflexivity |]. split; [reflexivity |].
  assert (L' : Viz.drawLoops (Viz.set_show3D false (Viz.set_mapRef (Some m3) s3))
               = Viz.drawLoops s ++ [true]).
  { cbn [Viz.drawLoops Viz.set_show3D Viz.set_mapRef]. rewrite L.
    unfold s2. cbn [Viz.drawLoops Viz.show3D Viz.set_mapRef]. now rewrite H3. }
  split; [exact L' |]. split; [exact N |].
  intros k. now destruct (blank_frames _ k _ L').
Qed.

Lemma toggle3D_off_starts_suppressed_loop_witness :
  exists (s' : Viz.State) (m' : Engine.Map),
    @Viz.toggle3D Sample.platform Sample.in3D = Engine.Ok s' /\
    Viz.mapRef s' = Some m' /\
    Engine.getLayer "flux-3d-particles" m' = None /\
    Viz.drawLoops s' = Viz.drawLoops Sample.in3D ++ [true] /\
    Viz.canvas (Nat.iter 2 (@Viz.animationFrame Sample.platform) s') = [].
Proof.
  assert (H : exists m, Viz.mapRef Sample.in3D = Some m /\ Viz.show3D Sample.in3D = true /\
                        Engine.isStyleLoaded m = true).
  { eexists. split; [vm_compute; reflexivity |]. split; reflexivity. }
  destruct H as (m & HM & H3 & HL).
  destruct (toggle3D_off_starts_suppressed_loop Sample.platform Sample.in3D m HM H3 HL)
    as (s' & m' & E & M & _ & C & _ & _ & _ & _ & _ & L & _ & B).
  exists s', m'. repeat split; try assumption. apply (B 1%nat).
Defined.

(** ** Deferred tasks, failed requests and the reset *)

Section HandlerFacts.
Import Engine Viz Observe.

Lemma layerCount_withHighlight (g : GeoJSON) (m : Map) :
  layerCount "highlight-fill" (withHighlight g m) = 1%nat /\
  layerCount "highlight-outline" (withHighlight g m) = 1%nat.
Proof.
  unfold layerCount, withHighlight. cbn [layers set_layers set_sources].
  rewrite !List.filter_app, !length_app.
  rewrite (filter_hasId_absent _ _ (strip_no_fill (layers m))).
  rewrite (filter_hasId_absent _ _ (strip_no_outline (layers m))).
  split; reflexivity.
Qed.

Lemma markStyleLoaded_facts (m : Map) :
  isStyleLoaded (markStyleLoaded m) = true /\
  layers (markStyleLoaded m) = layers m /\ sources (markStyleLoaded m) = sources m.
Proof. repeat split. Qed.

Context {P : Platform}.

Lemma draw_no_frames (c : bool) (s : State) :
  windSeriesRef s = [] -> draw c s = set_canvas [] s.
Proof.
  intros HW. unfold draw. destruct c; [reflexivity |].
  cbn [mapRef windSeriesRef set_canvas]. rewrite HW. now destruct (mapRef s).
Qed.

Lemma fold_draw_no_frames (loops : list bool) : forall s : State,
  windSeriesRef s = [] -> canvas s = [] ->
  fold_left (fun acc c => draw c acc) loops s = s.
Proof.
  induction loops as [| c rest IH]; intros s HW HC; [reflexivity |].
  simpl. rewrite (draw_no_frames c s HW).
  assert (E : set_canvas [] s = s) by (destruct s; cbn in *; now subst).
  rewrite E. now apply IH.
Qed.

Lemma still_frames (k : nat) (s : State) :
  windSeriesRef s = [] -> canvas s = [] -> Nat.iter k animationFrame s = s.
Proof.
  intros HW HC. induction k as [| k IH]; [reflexivity |].
  cbn [Nat.iter nat_rect]. change (nat_rect _ s (fun _ => animationFrame) k)
    with (Nat.iter k animationFrame s).
  rewrite IH. unfold animationFrame. now apply fold_draw_no_frames.
Qed.

End HandlerFacts.

(** X11.  A boundary that arrives while the style is loading is not
    drawn at once: the map is left as it is and the task waits.  At the
    next [style.load] it is drawn, by the permanent listener and again by
    the waiting task, and the map ends as after a single replay, with one
    fill and one outline layer and no task left waiting. *)
Theorem deferred_highlight_is_drawn_on_style_load (s : Viz.State) (m : Engine.Map)
    (name : string) (g : Engine.GeoJSON) :
  Viz.mapRef s = Some m -> Engine.isStyleLoaded m = false ->
  Viz.pendingStyleLoad s = [] ->
  Engine.getLayer "waterway-label" m <> None -> Viz.highlightOwned m ->
  let s1 := Viz.fetchAndDrawBoundary name (Some (Viz.mkBoundaryResponse (Some g))) s in
  let m2 := Viz.replayed (Some g) (Engine.markStyleLoaded m) in
  Viz.mapRef s1 = Some m /\ Viz.pendingStyleLoad s1 = [Viz.HighlightTask g] /\
  exists s2 : Viz.State,
    Viz.fireStyleLoad s1 = Engine.Ok s2 /\ Viz.pendingStyleLoad s2 = [] /\
    Viz.mapRef s2 = Some m2 /\
    Viz.highlightLayers s2 = (Some Viz.highlightFill, Some Viz.highlightOutline) /\
    Engine.getSource "highlight" m2 = Some (Engine.GeoJsonSource g) /\
    Observe.layerCount "highlight-fill" m2 = 1%nat /\
    Observe.layerCount "highlight-outline" m2 = 1%nat.
Proof.
  intros HM HL HP HW HO s1 m2.
  assert (E1 : s1 = Viz.set_pendingStyleLoad [Viz.HighlightTask g]
                      (Viz.set_highlightDataRef (Some g)
                         (Viz.set_fetchLog (Viz.fetchLog s ++ [Viz.BoundaryRequest name]) s))).
  { unfold s1, Viz.fetchAndDrawBoundary, Viz.addHighlightLayer, Viz.whenStyleReady.
    cbn [Viz.mapRef Viz.set_highlightDataRef Viz.set_fetchLog Viz.pendingStyleLoad].
    rewrite HM, HL, HP. reflexivity. }
  clearbody s1. subst s1.
  split; [exact HM |]. split; [reflexivity |].
  set (m0 := Engine.markStyleLoaded m) in *.
  assert (HW0 : Engine.getLayer "waterway-label" m0 <> None) by exact HW.
  assert (HO0 : Viz.highlightOwned m0) by exact HO.
  destruct (replayed_facts (Some g) m0 eq_refl HW0 HO0) as (RL & _ & RO).
  unfold Viz.fireStyleLoad.
  cbn [Viz.mapRef Viz.pendingStyleLoad Viz.set_pendingStyleLoad Viz.set_highlightDataRef
       Viz.set_fetchLog].
  rewrite HM. fold m0.
  match goal with |- context [Viz.styleLoadHandler ?x] =>
    rewrite (styleLoadHandler_ok x m0 eq_refl eq_refl HW0 HO0);
    change (Viz.highlightDataRef x) with (Some g)
  end.
  fold m2. cbn [Engine.andThen Viz.runPending Viz.runTask].
  unfold Viz.onMap at 1. cbn [Viz.mapRef Viz.set_mapRef].
  rewrite (highlightTask_ok g m2 RL RO).
  assert (T : Viz.withHighlight g m2 = m2) by apply withHighlight_twice.
  rewrite T. cbn [Engine.andThen].
  destruct (withHighlight_facts g (Viz.withBuildings (Viz.withTerrain m0)))
    as (S1 & F1 & O1 & _).
  destruct (layerCount_withHighlight g (Viz.withBuildings (Viz.withTerrain m0))) as [C1 C2].
  eexists. split; [reflexivity |]. split; [reflexivity |]. split; [reflexivity |].
  split.
  - unfold Viz.highlightLayers. cbn [Viz.mapRef Viz.set_mapRef]. unfold m2, Viz.replayed.
    now rewrite F1, O1.
  - repeat split; assumption.
Qed.

Lemma deferred_highlight_is_drawn_on_style_load_witness :
  let s := Engine.finalState (Viz.switchBase Sample.streets (Viz.mounted Sample.map)) in
  let s1 := Viz.fetchAndDrawBoundary "Paris" (Some (Viz.mkBoundaryResponse (Some Sample.paris))) s in
  Viz.pendingStyleLoad s1 = [Viz.HighlightTask Sample.paris] /\
  exists s2 : Viz.State,
    Viz.fireStyleLoad s1 = Engine.Ok s2 /\ Viz.pendingStyleLoad s2 = [] /\
    Viz.highlightLayers s2 = (Some Viz.highlightFill, Some Viz.highlightOutline).
Proof.
  intros s s1.
  assert (H : exists m, Viz.mapRef s = Some m /\ Engine.isStyleLoaded m = false /\
                        Engine.getLayer "waterway-label" m <> None /\ Viz.highlightOwned m).
  { eexists. split; [vm_compute; reflexivity |]. split; [reflexivity |].
    split; [discriminate | reflexivity]. }
  destruct H as (m & HM & HL & HW & HO).
  destruct (deferred_highlight_is_drawn_on_style_load s m "Paris" Sample.paris
              HM HL eq_refl HW HO)
    as (_ & Q1 & s2 & F & Q2 & _ & HLs & _).
  split; [exact Q1 |]. exists s2. repeat split; assumption.
Defined.

(** X12.  When the boundary request of a selection fails or carries no
    feature, the place is selected all the same (orbit stopped, marker
    set, camera flown to it), while the cached feature and the highlight
    layers of the previous place stay as they were. *)
Theorem failed_boundary_keeps_previous_highlight (s : Viz.State) (m : Engine.Map)
    (name : string) (coords : Q * Q) (resp : option Viz.BoundaryResponse) :
  Viz.mapRef s = Some m ->
  resp = None \/ resp = Some (Viz.mkBoundaryResponse None) ->
  exists s' : Viz.State,
    Viz.onGeocoderResult name coords resp s = Engine.Ok s' /\
    Viz.selectedCity s' = Some name /\ Viz.rotatingRef s' = false /\
    Viz.markerRef s' = Some coords /\
    Viz.mapRef s'
    = Some (Engine.flyTo (Engine.mkCameraOptions (Some coords) (Some 11) (Some 60) (Some 30)) m) /\
    Viz.fetchLog s' = Viz.fetchLog s ++ [Viz.BoundaryRequest name] /\
    Viz.highlightDataRef s' = Viz.highlightDataRef s /\
    Viz.highlightLayers s' = Viz.highlightLayers s /\
    Viz.pendingStyleLoad s' = Viz.pendingStyleLoad s.
Proof.
  intros HM [-> | ->]; unfold Viz.onGeocoderResult, Viz.fetchAndDrawBoundary, Viz.onMap;
    cbn [Viz.mapRef Viz.set_fetchLog Viz.set_markerRef Viz.set_rotatingRef
         Viz.set_selectedCity Viz.fetchLog];
    rewrite HM; eexists; (split; [reflexivity |]);
    unfold Viz.highlightLayers; cbn [Viz.mapRef Viz.set_mapRef]; rewrite HM;
    repeat split.
Qed.

Lemma failed_boundary_keeps_previous_highlight_witness :
  exists s' : Viz.State,
    Viz.onGeocoderResult "Lyon" (483 # 100, 4576 # 100) None Sample.parisSelected
    = Engine.Ok s' /\
    Viz.selectedCity s' = Some "Lyon"%string /\
    Viz.highlightDataRef s' = Viz.highlightDataRef Sample.parisSelected /\
    Viz.highlightLayers s' = Viz.highlightLayers Sample.parisSelected.
Proof.
  assert (H : exists m, Viz.mapRef Sample.parisSelected = Some m).
  { eexists. vm_compute. reflexivity. }
  destruct H as (m & HM).
  destruct (failed_boundary_keeps_previous_highlight Sample.parisSelected m "Lyon"
              (483 # 100, 4576 # 100) None HM (or_introl eq_refl))
    as (s' & E & C & _ & _ & _ & _ & D & L & _).
  exists s'. repeat split; assumption.
Defined.

(** X13.  A flux answer without wind frames (no [wind_series], or an
    empty one) in 2D mode still seeds 200 particles and starts a loop,
    but nothing is ever painted: the canvas is empty after every display
    frame and the frame cursor does not move. *)
Theorem simulation_without_frames_paints_nothing (P : Platform) (s : Viz.State)
    (m : Engine.Map) (city : string) (data : Viz.FluxResponse) :
  Viz.mapRef s = Some m -> Viz.truthy (Viz.selectedCity s) = Some city ->
  Viz.show3D s = false ->
  Viz.wind_series data = None \/ Viz.wind_series data = Some [] ->
  let s' := Viz.runSimulation (Some data) s in
  Viz.windSeriesRef s' = [] /\ length (Viz.particleArray s') = 200%nat /\
  Viz.drawLoops s' = Viz.drawLoops s ++ [false] /\
  Viz.fetchLog s' = Viz.fetchLog s ++ [Viz.FluxRequest city] /\
  forall k : nat,
    Viz.canvas (Nat.iter k Viz.animationFrame s') = [] /\
    Viz.flowFrameRef (Nat.iter k Viz.animationFrame s') = Viz.flowFrameRef s.
Proof.
  intros HM HC H3 HW s'.
  set (s2 := Viz.set_windSeriesRef []
               (Viz.set_fetchLog (Viz.fetchLog s ++ [Viz.FluxRequest city]) s)).
  assert (E : s' = Viz.init2DArrows s2).
  { unfold s', Viz.runSimulation. rewrite HC. cbv zeta.
    cbn [Viz.show3D Viz.set_windSeriesRef Viz.set_fetchLog]. rewrite H3.
    destruct HW as [-> | ->]; reflexivity. }
  clearbody s'. subst s'.
  assert (M2 : Viz.mapRef s2 = Some m) by exact HM.
  destruct (init2DArrows_rebuilds s2 m M2) as (L & W & N & _).
  assert (W' : Viz.windSeriesRef (Viz.init2DArrows s2) = []) by (rewrite W; reflexivity).
  assert (C : Viz.canvas (Viz.init2DArrows s2) = []).
  { unfold Viz.init2DArrows. rewrite M2. cbv zeta.
    rewrite draw_no_frames by reflexivity. reflexivity. }
  assert (F : Viz.flowFrameRef (Viz.init2DArrows s2) = Viz.flowFrameRef s).
  { unfold Viz.init2DArrows. rewrite M2. cbv zeta.
    rewrite draw_no_frames by reflexivity. reflexivity. }
  assert (G : Viz.fetchLog (Viz.init2DArrows s2) = Viz.fetchLog s ++ [Viz.FluxRequest city]).
  { apply (frame_init2DArrows Viz.fetchLog); intros; reflexivity. }
  split; [exact W' |]. split; [exact N |]. split.
  - rewrite L. unfold s2. cbn [Viz.drawLoops Viz.show3D Viz.set_windSeriesRef Viz.set_fetchLog].
    now rewrite H3.
  - split; [exact G |]. intros k. rewrite (still_frames k _ W' C). now split.
Qed.

Lemma simulation_without_frames_paints_nothing_witness :
  let s' := @Viz.runSimulation Sample.platform (Some (Viz.mkFluxResponse None))
              Sample.parisSelected in
  length (Viz.particleArray s') = 200%nat /\
  Viz.canvas (Nat.iter 3 (@Viz.animationFrame Sample.platform) s') = [].
Proof.
  intros s'.
  assert (H : exists m, Viz.mapRef Sample.parisSelected = Some m).
  { eexists. vm_compute. reflexivity. }
  destruct H as (m & HM).
  destruct (simulation_without_frames_paints_nothing Sample.platform Sample.parisSelected m
              "Paris" (Viz.mkFluxResponse None) HM eq_refl eq_refl (or_introl eq_refl))
    as (_ & N & _ & _ & K).
  split; [exact N | exact (proj1 (K 3%nat))].
Defined.

(** X14.  [resetGlobe] (style loaded) completes: the camera is back at
    the globe view, the highlight source and layers and the custom layer
    are gone and no place is selected; the 3D flag, the projection, the
    orbit flag, the wind frames, the draw loops and the point cloud are
    left as they were. *)
Theorem reset_leaves_mode_and_renderers (s : Viz.State) (m : Engine.Map) :
  Viz.mapRef s = Some m -> Engine.isStyleLoaded m = true -> Viz.highlightOwned m ->
  exists (s' : Viz.State) (m' : Engine.Map),
    Viz.resetGlobe s = Engine.Ok s' /\ Viz.mapRef s' = Some m' /\
    Engine.camera m' = Engine.mkCamera (0, 20) (15 # 10) 0 0 /\
    Engine.getSource "highlight" m' = None /\
    Viz.highlightLayers s' = (None, None) /\
    Viz.customRegistered s' = false /\
    Viz.selectedCity s' = None /\
    Viz.show3D s' = Viz.show3D s /\ Engine.projection m' = Engine.projection m /\
    Viz.rotatingRef s' = Viz.rotatingRef s /\
    Viz.windSeriesRef s' = Viz.windSeriesRef s /\
    Viz.drawLoops s' = Viz.drawLoops s /\
    Viz.threeStateRef s' = Viz.threeStateRef s.
Proof.
  intros HM HL HO. unfold Viz.resetGlobe, Viz.remove3DLayer, Engine.chain.
  assert (O : forall (f : Engine.Map -> Engine.outcome Engine.Map) (x : Viz.State)
                     (a b : Engine.Map),
             Viz.mapRef x = Some a -> f a = Engine.Ok b ->
             Viz.onMap f x = Engine.Ok (Viz.set_mapRef (Some b) x)).
  { intros f x a b Hx Hf. unfold Viz.onMap. now rewrite Hx, Hf. }
  set (m1 := Engine.flyTo (Engine.mkCameraOptions (Some (0, 20)) (Some (15 # 10))
                                                  (Some 0) (Some 0)) m).
  match goal with |- context [Viz.onMap ?f s] =>
    rewrite (O f s m m1 HM eq_refl) end. cbn [Engine.andThen].
  set (m2 := Engine.set_layers
               (List.filter (fun l => negb (Engine.hasId "highlight-fill" l))
                            (Engine.layers m1)) m1).
  match goal with |- context [Viz.onMap ?f (Viz.set_mapRef (Some m1) ?x)] =>
    rewrite (O f (Viz.set_mapRef (Some m1) x) m1 m2 eq_refl (removeLayerIfPresent_ok _ m1 HL)) end. cbn [Engine.andThen].
  set (m3 := Engine.set_layers
               (List.filter (fun l => negb (Engine.hasId "highlight-outline" l))
                            (Engine.layers m2)) m2).
  match goal with |- context [Viz.onMap ?f (Viz.set_mapRef (Some m2) ?x)] =>
    rewrite (O f (Viz.set_mapRef (Some m2) x) m2 m3 eq_refl (removeLayerIfPresent_ok _ m2 HL)) end. cbn [Engine.andThen].
  assert (U : existsb (Engine.usesSource "highlight") (Engine.layers m3) = false).
  { apply (strip_no_users (Engine.layers m)). exact HO. }
  set (m4 := Engine.set_sources (delete "highlight"%string (Engine.sources m3)) m3).
  match goal with |- context [Viz.onMap ?f (Viz.set_mapRef (Some m3) ?x)] =>
    rewrite (O f (Viz.set_mapRef (Some m3) x) m3 m4 eq_refl (removeSourceIfPresent_ok _ m3 HL U)) end. cbn [Engine.andThen].
  set (m5 := Engine.set_layers
               (List.filter (fun l => negb (Engine.hasId "flux-3d-particles" l))
                            (Engine.layers m4)) m4).
  match goal with |- context [Viz.onMap ?f (Viz.set_selectedCity None ?x)] =>
    rewrite (O f (Viz.set_selectedCity None x) m4 m5 eq_refl (removeLayerIfPresent_ok _ m4 HL))
  end.
  eexists. exists m5.
  split; [reflexivity |]. split; [reflexivity |]. split; [reflexivity |].
  split.
  { unfold Engine.getSource, m5, m4. cbn [Engine.sources Engine.set_layers Engine.set_sources].
    apply lookup_delete_eq. }
  split.
  { unfold Viz.highlightLayers, Engine.getLayer. cbn [Viz.mapRef Viz.set_mapRef Viz.set_selectedCity].
    unfold m5. cbn [Engine.layers Engine.set_layers Engine.set_sources m4].
    rewrite !find_filter_other by discriminate.
    change (Engine.layers m3) with (Viz.stripHighlight (Engine.layers m)).
    now rewrite strip_no_fill, strip_no_outline. }
  split.
  { unfold Viz.customRegistered, Engine.getLayer. cbn [Viz.mapRef Viz.set_mapRef Viz.set_selectedCity].
    unfold m5. cbn [Engine.layers Engine.set_layers].
    now rewrite find_filter_same. }
  repeat split.
Qed.

Lemma reset_leaves_mode_and_renderers_witness :
  exists (s' : Viz.State) (m' : Engine.Map),
    Viz.resetGlobe Sample.in3D = Engine.Ok s' /\ Viz.mapRef s' = Some m' /\
    Viz.customRegistered s' = false /\
    Viz.show3D s' = Viz.show3D Sample.in3D /\
    Viz.threeStateRef s' = Viz.threeStateRef Sample.in3D.
Proof.
  assert (H : exists m, Viz.mapRef Sample.in3D = Some m /\ Engine.isStyleLoaded m = true /\
                        Viz.highlightOwned m).
  { eexists. split; [vm_compute; reflexivity |]. split; reflexivity. }
  destruct H as (m & HM & HL & HO).
  destruct (reset_leaves_mode_and_renderers Sample.in3D m HM HL HO)
    as (s' & m' & E & M & _ & _ & _ & C & _ & S3 & _ & _ & _ & _ & T).
  exists s', m'. repeat split; assumption.
Defined.

(** ** The focus orbit of the frontend component *)

Section FocusOrbit.
Import Engine Frontend.

Lemma focus_tick (s : State) (m : Map) :
  rotatingRef s = true -> modeRef s = FocusMode -> mapRef s = Some m ->
  exists m', mapRef (animateOrbit s) = Some m' /\
             center (camera m') = center (camera m) /\
             zoom (camera m') = zoom (camera m) /\
             pitch (camera m') = pitch (camera m) /\
             bearing (camera m') = bearingRef s + (2 # 10) /\
             bearingRef (animateOrbit s) = bearingRef s + (2 # 10) /\
             rotatingRef (animateOrbit s) = true /\ modeRef (animateOrbit s) = FocusMode.
Proof.
  intros R F M. unfold animateOrbit. rewrite R, M, F. cbv zeta.
  eexists. split; [reflexivity |]. repeat split; assumption.
Qed.

Lemma focus_ticks (n : nat) (s : State) (m : Map) :
  rotatingRef s = true -> modeRef s = FocusMode -> mapRef s = Some m ->
  bearing (camera m) = bearingRef s ->
  exists m', mapRef (ticks n s) = Some m' /\
             center (camera m') = center (camera m) /\
             zoom (camera m') = zoom (camera m) /\
             pitch (camera m') = pitch (camera m) /\
             bearing (camera m') = Nat.iter n (fun b => b + (2 # 10)) (bearingRef s) /\
             bearingRef (ticks n s) = Nat.iter n (fun b => b + (2 # 10)) (bearingRef s) /\
             bearingRef s <= bearingRef (ticks n s) /\
             rotatingRef (ticks n s) = true /\ modeRef (ticks n s) = FocusMode /\
             moveEndOnce (ticks n s) = moveEndOnce s.
Proof.
  intros R F M B. induction n as [| n IH].
  - exists m. cbn [ticks Nat.iter nat_rect]. repeat split; try assumption. lra.
  - destruct IH as (m1 & M1 & C1 & Z1 & P1 & _ & B1 & L1 & R1 & F1 & K1).
    change (ticks (S n) s) with (animateOrbit (ticks n s)).
    destruct (focus_tick (ticks n s) m1 R1 F1 M1)
      as (m2 & M2 & C2 & Z2 & P2 & B2 & B2' & R2 & F2).
    exists m2. split; [exact M2 |]. split; [congruence |]. split; [congruence |].
    split; [congruence |].
    change (Nat.iter (S n) ?f ?x) with (f (Nat.iter n f x)). cbv beta.
    split; [now rewrite B2, B1 |]. split; [now rewrite B2', B1 |].
    split; [rewrite B2'; lra |]. split; [exact R2 |]. split; [exact F2 |].
    now rewrite (animateOrbit_keeps_listeners (ticks n s)).
Qed.

Lemma listeners_keep_map (k : nat) (s : State) :
  mapRef (Nat.iter k onMoveEnd s) = mapRef s /\
  modeRef (Nat.iter k onMoveEnd s) = modeRef s.
Proof. induction k as [| k [A B]]; [now split | exact (conj A B)]. Qed.

Lemma flight_ended (coords : Q * Q) (s : State) (m : Map) :
  mapRef s = Some m ->
  let s1 := fireMoveEnd (onGeocoderResult coords s) in
  mapRef s1 = Some (flyTo (mkCameraOptions (Some coords) (Some 10) (Some 60) (Some 30)) m) /\
  rotatingRef s1 = true /\ modeRef s1 = FocusMode /\ bearingRef s1 = 30 /\
  moveEndOnce s1 = 0%nat.
Proof.
  intros HM s1. subst s1. unfold onGeocoderResult.
  cbn [mapRef set_rotatingRef set_modeRef]. rewrite HM. cbv zeta.
  unfold fireMoveEnd.
  cbn [moveEndOnce set_moveEndOnce set_mapRef set_rotatingRef set_modeRef mapRef rotatingRef
       modeRef bearingRef].
  match goal with |- context [Nat.iter ?k onMoveEnd ?x] =>
    destruct (listeners_keep_map k x) as [A B]
  end.
  split; [rewrite A; reflexivity |]. split; [reflexivity |].
  split; [rewrite B; reflexivity |]. split; reflexivity.
Qed.

End FocusOrbit.

(** X15.  In the frontend component, after a place is selected and the
    flight has ended, the orbit circles the place: after [n] frames the
    camera is still centred on it at zoom 10 and pitch 60, its bearing is
    30 with 0.2 added [n] times, one addition per frame, hence at least
    30, and no listener is left waiting for [moveend]. *)
Theorem focus_orbit_circles_the_place (n : nat) (s : Frontend.State) (m : Engine.Map)
    (coords : Q * Q) :
  Frontend.mapRef s = Some m ->
  let s1 := Frontend.fireMoveEnd (Frontend.onGeocoderResult coords s) in
  exists m' : Engine.Map,
    Frontend.mapRef (Frontend.ticks n s1) = Some m' /\
    Engine.center (Engine.camera m') = coords /\
    Engine.zoom (Engine.camera m') = 10 /\ Engine.pitch (Engine.camera m') = 60 /\
    Engine.bearing (Engine.camera m') = Nat.iter n (fun b => b + (2 # 10)) 30 /\
    Frontend.bearingRef (Frontend.ticks n s1) = Engine.bearing (Engine.camera m') /\
    30 <= Engine.bearing (Engine.camera m') /\
    Frontend.modeRef (Frontend.ticks n s1) = FocusMode /\
    Frontend.moveEndOnce (Frontend.ticks n s1) = 0%nat.
Proof.
  intros HM s1.
  destruct (flight_ended coords s m HM) as (M1 & R1 & F1 & B1 & K1). fold s1 in M1, R1, F1, B1, K1.
  destruct (focus_ticks n s1 _ R1 F1 M1) as (m' & M' & C & Z & Pt & B & B' & L & _ & F' & K').
  { now rewrite B1. }
  rewrite B1 in B, B', L.
  exists m'. split; [exact M' |]. split; [exact C |]. split; [exact Z |].
  split; [exact Pt |]. split; [exact B |]. split; [congruence |].
  split; [now rewrite B, <- B' |]. split; [exact F' | congruence].
Qed.

Lemma focus_orbit_circles_the_place_witness :
  exists m' : Engine.Map,
    Frontend.mapRef
      (Frontend.ticks 5 (Frontend.fireMoveEnd
                           (Frontend.onGeocoderResult (235 # 100, 4885 # 100)
                                                      (Frontend.mounted Sample.map))))
    = Some m' /\
    Engine.center (Engine.camera m') = (235 # 100, 4885 # 100) /\
    Engine.bearing (Engine.camera m') = Nat.iter 5 (fun b => b + (2 # 10)) 30.
Proof.
  destruct (focus_orbit_circles_the_place 5 (Frontend.mounted Sample.map) Sample.map
              (235 # 100, 4885 # 100) eq_refl)
    as (m' & M & C & _ & _ & B & _).
  exists m'. repeat split; assumption.
Defined.

(** ** The results panel *)

Section ResultsFacts.
Import Results.

Lemma total_scaled (k : Q) (series : list FluxPoint) :
  total (List.map (scalePoint k) series) == total series * k.
Proof.
  induction series as [| d rest IH]; simpl; [ring |].
  rewrite IH. ring.
Qed.

Lemma scaled_by_one (k : Q) (series : list FluxPoint) :
  k == 1 ->
  Forall2 (fun a b => date a = date b /\ flux_L a == flux_L b)
          (List.map (scalePoint k) series) series.
Proof.
  intros K. induction series as [| d rest IH]; simpl; constructor; [| exact IH].
  split; [reflexivity |]. simpl. rewrite K. ring.
Qed.

Lemma divide_spec (x y : Q) :
  (~ y == 0 -> exists q, divide x y = Some q /\ q * y == x) /\
  (y == 0 -> divide x y = None).
Proof.
  unfold divide. destruct (Qeq_bool y 0) eqn:E.
  - apply Qeq_bool_iff in E. split; [intros H; contradiction | reflexivity].
  - split.
    + intros H. exists (x / y). split; [reflexivity |]. field. exact H.
    + intros H. apply Qeq_bool_iff in H. congruence.
Qed.

End ResultsFacts.

(** X16.  The results effect scales linearly with the wind-speed
    slider: every flux value and hence the total of the series is the
    backend's times [windSpeed / 2], dates and the other fields are kept,
    the ratio is recomputed from the scaled flux (none for a zero
    demand), and at wind speed 2 the fluxes are the backend's own. *)
Theorem results_scale_with_wind_speed (w : Q) (r : Results.FluxData) :
  let r' := Results.scale w r in
  Results.total (Results.daily_flux_series r')
    == Results.total (Results.daily_flux_series r) * (w / 2) /\
  List.map Results.date (Results.daily_flux_series r')
    = List.map Results.date (Results.daily_flux_series r) /\
  (Results.city r', Results.area_km2 r', Results.mean_AH_gm3 r', Results.total_stock_L r',
   Results.demand_L r')
    = (Results.city r, Results.area_km2 r, Results.mean_AH_gm3 r, Results.total_stock_L r,
       Results.demand_L r) /\
  (~ Results.demand_L r == 0 ->
   exists q : Q, Results.flux_to_demand_ratio r' = Some q /\
                 q * Results.demand_L r == Results.net_flux_L r * (w / 2)) /\
  (Results.demand_L r == 0 -> Results.flux_to_demand_ratio r' = None) /\
  (w == 2 ->
   Results.net_flux_L r' == Results.net_flux_L r /\
   Forall2 (fun a b => Results.date a = Results.date b /\ Results.flux_L a == Results.flux_L b)
           (Results.daily_flux_series r') (Results.daily_flux_series r)).
Proof.
  intros r'. unfold r', Results.scale.
  cbn [Results.daily_flux_series Results.city Results.area_km2 Results.mean_AH_gm3
       Results.total_stock_L Results.demand_L Results.flux_to_demand_ratio
       Results.net_flux_L].
  split; [apply total_scaled |]. split.
  { rewrite List.map_map. apply List.map_ext. reflexivity. }
  split; [reflexivity |].
  destruct (divide_spec (Results.net_flux_L r * (w / 2)) (Results.demand_L r)) as [D1 D2].
  split; [exact D1 |]. split; [exact D2 |].
  intros W. assert (K : w / 2 == 1) by (rewrite W; reflexivity).
  split; [rewrite K; ring | now apply scaled_by_one].
Qed.


(** ** The highlight and the orbit of the results component *)

Section FluxHighlight.
Import Engine Flux.

Lemma flux_dropHighlight_ok (m : Map) :
  isStyleLoaded m = true -> Viz.highlightOwned m -> layersNeedSource m ->
  dropHighlight m
  = Ok (set_layers (Viz.stripHighlight (layers m))
          (set_sources (delete "highlight"%string (sources m)) m)).
Proof.
  intros L O N. unfold dropHighlight.
  destruct (is_some (getSource "highlight" m)) eqn:E.
  - unfold chain.
    rewrite removeLayerIfPresent_ok by exact L. cbn [andThen].
    rewrite removeLayerIfPresent_ok by exact L. cbn [andThen].
    unfold removeSource.
    cbn [isStyleLoaded styleLoaded set_layers getSource sources layers].
    assert (L' : styleLoaded m = true) by exact L. rewrite L'. cbn [negb].
    match goal with |- context [getSource "highlight" ?x] =>
      change (getSource "highlight" x) with (getSource "highlight" m) end.
    rewrite E.
    change (List.filter _ (List.filter _ (layers m))) with (Viz.stripHighlight (layers m)).
    rewrite (strip_no_users (layers m) O). reflexivity.
  - apply is_some_false in E. destruct (N E) as [F1 F2].
    unfold getSource in E. rewrite (delete_id _ _ E).
    unfold Viz.stripHighlight. unfold getLayer in F1, F2.
    rewrite (filter_absent _ _ F1), (filter_absent _ _ F2).
    now destruct m.
Qed.

Lemma flux_highlight_attached (g : GeoJSON) (m : Map) :
  isStyleLoaded m = true -> Viz.highlightOwned m -> layersNeedSource m ->
  (dropHighlight >>> addSource "highlight" (GeoJsonSource g)
   >>> addLayer highlightFill None >>> addLayer highlightOutline None) m
  = Ok (withHighlight g m).
Proof.
  intros L O N. assert (L' : styleLoaded m = true) by exact L.
  unfold chain. rewrite (flux_dropHighlight_ok m L O N). cbn [andThen].
  unfold addSource, isStyleLoaded. simpl. rewrite L'. simpl.
  unfold getSource. simpl. rewrite lookup_delete_eq. simpl.
  rewrite insert_delete_eq.
  unfold addLayer, isStyleLoaded. simpl. rewrite L'. simpl.
  unfold getLayer. simpl.
  rewrite strip_no_fill. simpl.
  unfold sourceKnown, getSource. simpl. rewrite lookup_insert_eq. simpl.
  rewrite find_hasId_app, strip_no_outline. simpl.
  rewrite lookup_insert_eq. simpl. rewrite L'. simpl.
  unfold withHighlight, set_layers, set_sources. simpl.
  rewrite <- app_assoc. reflexivity.
Qed.

Lemma flux_withHighlight_facts (g : GeoJSON) (m : Map) :
  Viz.highlightOwned m ->
  isStyleLoaded (withHighlight g m) = isStyleLoaded m /\
  Viz.highlightOwned (withHighlight g m) /\ layersNeedSource (withHighlight g m) /\
  getSource "highlight" (withHighlight g m) = Some (GeoJsonSource g) /\
  getLayer "highlight-fill" (withHighlight g m) = Some highlightFill /\
  getLayer "highlight-outline" (withHighlight g m) = Some highlightOutline /\
  Observe.layerCount "highlight-fill" (withHighlight g m) = 1%nat /\
  Observe.layerCount "highlight-outline" (withHighlight g m) = 1%nat.
Proof.
  intros O.
  assert (S : getSource "highlight" (withHighlight g m) = Some (GeoJsonSource g)).
  { unfold getSource, withHighlight. cbn [sources set_layers set_sources].
    apply lookup_insert_eq. }
  split; [reflexivity |]. split.
  { unfold Viz.highlightOwned, withHighlight. cbn [layers set_layers set_sources].
    rewrite existsb_app. unfold Viz.stripHighlight.
    rewrite (existsb_filter_false _ _ _ (existsb_filter_false _ _ _ O)). reflexivity. }
  split; [intros H; rewrite S in H; discriminate |].
  split; [exact S |].
  unfold getLayer, Observe.layerCount, withHighlight. cbn [layers set_layers set_sources].
  rewrite !find_hasId_app, strip_no_fill, strip_no_outline.
  rewrite !List.filter_app, !length_app.
  rewrite (filter_hasId_absent _ _ (strip_no_fill (layers m))).
  rewrite (filter_hasId_absent _ _ (strip_no_outline (layers m))).
  repeat split.
Qed.

Lemma flux_withHighlight_replaces (g1 g2 : GeoJSON) (m : Map) :
  withHighlight g2 (withHighlight g1 m) = withHighlight g2 m.
Proof.
  unfold withHighlight. cbn [layers sources set_layers set_sources].
  rewrite insert_insert_eq, strip_app, strip_strip.
  change (Viz.stripHighlight [highlightFill; highlightOutline]) with (@nil Layer).
  now rewrite app_nil_r.
Qed.

Lemma flux_addHighlightLayer_ok (g : GeoJSON) (s : State) (m : Map) :
  mapRef s = Some m ->
  isStyleLoaded m = true -> Viz.highlightOwned m -> layersNeedSource m ->
  addHighlightLayer g s
  = Ok (set_mapRef (Some (withHighlight g m)) (set_highlightDataRef (Some g) s)).
Proof.
  intros M L O N. unfold addHighlightLayer. rewrite M. unfold onMap.
  cbn [mapRef set_highlightDataRef]. rewrite M.
  now rewrite (flux_highlight_attached g m L O N).
Qed.

Lemma flux_onMap_keeps {A : Type} (proj : State -> A) (f : Map -> outcome Map) (s : State) :
  (forall v x, proj (set_mapRef v x) = proj x) ->
  proj (finalState (onMap f s)) = proj s.
Proof.
  intros H. unfold onMap. destruct (mapRef s); [| reflexivity].
  destruct (f m); cbn [finalState]; apply H.
Qed.

Lemma flux_onMap_ok (f : Map -> outcome Map) (s : State) (a b : Map) :
  mapRef s = Some a -> f a = Ok b -> onMap f s = Ok (set_mapRef (Some b) s).
Proof. intros Hs Hf. unfold onMap. now rewrite Hs, Hf. Qed.

Lemma flux_onMap_some (f : Map -> outcome Map) (s : State) (m : Map) :
  mapRef s = Some m -> exists m', mapRef (finalState (onMap f s)) = Some m'.
Proof.
  intros M. unfold onMap. rewrite M. destruct (f m); cbn [finalState]; eauto.
Qed.

Lemma flux_ticks_focus (n : nat) (s : State) :
  modeRef s = FocusMode -> ticks n s = s.
Proof.
  intros F. induction n as [| n IH]; [reflexivity |].
  change (ticks (S n) s) with (animateOrbit (ticks n s)). rewrite IH.
  unfold animateOrbit. rewrite F. now destruct (rotatingRef s), (mapRef s).
Qed.

End FluxHighlight.

(** X18.  In the results component a new boundary replaces the old one
    (style loaded): after [addHighlightLayer g1] then [addHighlightLayer
    g2] the state is the one [addHighlightLayer g2] alone gives, with the
    feature cached, its source registered and exactly one fill and one
    outline layer; so drawing the same boundary twice changes nothing. *)
Theorem flux_highlight_is_replaced (s : Flux.State) (m : Engine.Map)
    (g1 g2 : Engine.GeoJSON) :
  Flux.mapRef s = Some m -> Engine.isStyleLoaded m = true ->
  Viz.highlightOwned m -> Flux.layersNeedSource m ->
  exists (s1 s2 : Flux.State) (m2 : Engine.Map),
    Flux.addHighlightLayer g1 s = Engine.Ok s1 /\
    Flux.addHighlightLayer g2 s1 = Engine.Ok s2 /\
    Flux.addHighlightLayer g2 s = Engine.Ok s2 /\
    Flux.addHighlightLayer g2 s2 = Engine.Ok s2 /\
    Flux.highlightDataRef s2 = Some g2 /\ Flux.mapRef s2 = Some m2 /\
    Engine.getSource "highlight" m2 = Some (Engine.GeoJsonSource g2) /\
    Engine.getLayer "highlight-fill" m2 = Some Flux.highlightFill /\
    Engine.getLayer "highlight-outline" m2 = Some Flux.highlightOutline /\
    Observe.layerCount "highlight-fill" m2 = 1%nat /\
    Observe.layerCount "highlight-outline" m2 = 1%nat.
Proof.
  intros M L O N.
  destruct (flux_withHighlight_facts g1 m O) as (L1 & O1 & N1 & _).
  destruct (flux_withHighlight_facts g2 m O) as (L2 & O2 & N2 & S2 & F2 & U2 & C2 & D2).
  rewrite L in L1, L2.
  set (s1 := Flux.set_mapRef (Some (Flux.withHighlight g1 m))
               (Flux.set_highlightDataRef (Some g1) s)).
  set (s2 := Flux.set_mapRef (Some (Flux.withHighlight g2 m))
               (Flux.set_highlightDataRef (Some g2) s)).
  exists s1, s2, (Flux.withHighlight g2 m).
  split; [apply (flux_addHighlightLayer_ok g1 s m M L O N) |].
  split.
  { rewrite (flux_addHighlightLayer_ok g2 s1 (Flux.withHighlight g1 m) eq_refl L1 O1 N1).
    rewrite flux_withHighlight_replaces. reflexivity. }
  split; [apply (flux_addHighlightLayer_ok g2 s m M L O N) |].
  split.
  { rewrite (flux_addHighlightLayer_ok g2 s2 (Flux.withHighlight g2 m) eq_refl L2 O2 N2).
    rewrite flux_withHighlight_replaces. reflexivity. }
  repeat split; assumption.
Qed.

Lemma flux_highlight_is_replaced_witness :
  exists (s1 s2 : Flux.State) (m2 : Engine.Map),
    Flux.addHighlightLayer Sample.paris (Flux.mounted Sample.map) = Engine.Ok s1 /\
    Flux.addHighlightLayer Sample.paris s1 = Engine.Ok s2 /\
    Flux.mapRef s2 = Some m2 /\
    Observe.layerCount "highlight-fill" m2 = 1%nat.
Proof.
  assert (N : Flux.layersNeedSource Sample.map) by (intros _; split; reflexivity).
  destruct (flux_highlight_is_replaced (Flux.mounted Sample.map) Sample.map
              Sample.paris Sample.paris eq_refl eq_refl eq_refl N)
    as (s1 & s2 & m2 & E1 & E2 & _ & _ & _ & M2 & _ & _ & _ & C & _).
  exists s1, s2, m2. repeat split; assumption.
Defined.

(** X19.  In the results component [resetGlobe] forgets the highlight:
    after a boundary was drawn, a reset (style loaded) removes its source
    and layers and clears the cache, so the next basemap swap restores
    nothing and the map holds the new style's layers only. *)
Theorem flux_reset_forgets_highlight (s : Flux.State) (m : Engine.Map)
    (g : Engine.GeoJSON) (st : Engine.Style) :
  Flux.mapRef s = Some m -> Engine.isStyleLoaded m = true ->
  Viz.highlightOwned m -> Flux.layersNeedSource m ->
  exists (s1 s2 s3 : Flux.State) (m2 m3 : Engine.Map),
    Flux.addHighlightLayer g s = Engine.Ok s1 /\
    Flux.highlightDataRef s1 = Some g /\
    Flux.resetGlobe s1 = Engine.Ok s2 /\
    Flux.highlightDataRef s2 = None /\ Flux.mapRef s2 = Some m2 /\
    Engine.getSource "highlight" m2 = None /\
    Engine.getLayer "highlight-fill" m2 = None /\
    Engine.getLayer "highlight-outline" m2 = None /\
    Flux.reloadStyle st s2 = Engine.Ok s3 /\
    Flux.highlightDataRef s3 = None /\ Flux.mapRef s3 = Some m3 /\
    Engine.layers m3 = Engine.style_layers st /\
    Engine.sources m3 = Engine.style_sources st.
Proof.
  intros M L O N.
  destruct (flux_withHighlight_facts g m O) as (L1 & O1 & N1 & _).
  rewrite L in L1.
  set (m1 := Flux.withHighlight g m) in *.
  set (s1 := Flux.set_mapRef (Some m1) (Flux.set_highlightDataRef (Some g) s)).
  set (c := Engine.flyTo (Engine.mkCameraOptions (Some (0, 20)) (Some (15 # 10))
                                                 (Some 0) (Some 0)) m1).
  assert (Lc : Engine.isStyleLoaded c = true) by exact L1.
  assert (Oc : Viz.highlightOwned c) by exact O1.
  assert (Nc : Flux.layersNeedSource c) by exact N1.
  set (m2 := Engine.set_layers (Viz.stripHighlight (Engine.layers c))
               (Engine.set_sources (delete "highlight"%string (Engine.sources c)) c)).
  set (s2 := Flux.set_highlightDataRef None
               (Flux.set_mapRef (Some m2)
                  (Flux.set_mapRef (Some c)
                     (Flux.set_rotatingRef true
                        (Flux.set_modeRef GlobeMode (Flux.set_selectedCity None s1)))))).
  set (m3 := Engine.markStyleLoaded (Engine.setStyle st m2)).
  exists s1, s2, (Flux.set_mapRef (Some m3) s2), m2, m3.
  split; [apply (flux_addHighlightLayer_ok g s m M L O N) |].
  split; [reflexivity |].
  split.
  { unfold Flux.resetGlobe, Engine.chain. cbn [Engine.andThen].
    match goal with |- context [Flux.onMap ?f ?x] =>
      rewrite (flux_onMap_ok f x m1 c eq_refl eq_refl) end.
    cbn [Engine.andThen].
    match goal with |- context [Flux.onMap Flux.dropHighlight ?x] =>
      rewrite (flux_onMap_ok Flux.dropHighlight x c m2 eq_refl
                 (flux_dropHighlight_ok c Lc Oc Nc)) end.
    reflexivity. }
  split; [reflexivity |]. split; [reflexivity |].
  split.
  { unfold Engine.getSource, m2. cbn [Engine.sources Engine.set_layers Engine.set_sources].
    apply lookup_delete_eq. }
  split; [apply strip_no_fill |]. split; [apply strip_no_outline |].
  repeat split.
Qed.

Lemma flux_reset_forgets_highlight_witness :
  exists (s1 s2 s3 : Flux.State) (m3 : Engine.Map),
    Flux.addHighlightLayer Sample.paris (Flux.mounted Sample.map) = Engine.Ok s1 /\
    Flux.resetGlobe s1 = Engine.Ok s2 /\
    Flux.reloadStyle Sample.streets s2 = Engine.Ok s3 /\
    Flux.highlightDataRef s3 = None /\ Flux.mapRef s3 = Some m3 /\
    Engine.layers m3 = Engine.style_layers Sample.streets.
Proof.
  assert (N : Flux.layersNeedSource Sample.map) by (intros _; split; reflexivity).
  destruct (flux_reset_forgets_highlight (Flux.mounted Sample.map) Sample.map
              Sample.paris Sample.streets eq_refl eq_refl eq_refl N)
    as (s1 & s2 & s3 & m2 & m3 & E1 & _ & E2 & _ & _ & _ & _ & _ & E3 & H3 & M3 & L3 & _).
  exists s1, s2, s3, m3. repeat split; assumption.
Defined.

(** X20.  In the results component the orbit is dead while a place is
    selected: the selection puts the component in focus mode, in which no
    frame moves the camera although the flag is set again when the flight
    ends, and after a drag or zoom the resume timer fires without
    switching the rotation back on. *)
Theorem flux_focus_mode_stops_the_orbit (s : Flux.State) (m : Engine.Map)
    (name : string) (coords : Q * Q) (resp : option Viz.BoundaryResponse) :
  Flux.mapRef s = Some m -> Flux.tracked s ->
  let s1 := Flux.onMoveEnd (Engine.finalState (Flux.onGeocoderResult name coords resp s)) in
  Flux.modeRef s1 = FocusMode /\ Flux.rotatingRef s1 = true /\
  Flux.selectedCity s1 = Some name /\
  (forall n : nat, Flux.ticks n s1 = s1) /\
  (forall evs : list Idle, Flux.rotatingRef (Flux.run evs (Flux.pauseOrbit s1)) = false).
Proof.
  intros M T s1.
  set (s0 := Flux.set_rotatingRef false
               (Flux.set_modeRef FocusMode (Flux.set_selectedCity (Some name) s))).
  assert (K : forall {A : Type} (proj : Flux.State -> A),
             (forall v x, proj (Flux.set_mapRef v x) = proj x) ->
             (forall v x, proj (Flux.set_highlightDataRef v x) = proj x) ->
             (forall v x, proj (Flux.set_rotatingRef v x) = proj x) ->
             (forall v x, proj (Flux.set_moveEndOnce v x) = proj x) ->
             proj s1 = proj s0).
  { intros A proj H1 H2 H3 H4. unfold s1, Flux.onMoveEnd, Flux.onGeocoderResult. cbv zeta.
    fold s0. rewrite H3.
    match goal with |- context [Flux.onMap ?f ?x] =>
      pose proof (flux_onMap_keeps proj f x H1) as K1;
      destruct (Flux.onMap f x) as [s3 | e s3] end;
      cbn [Engine.andThen Engine.finalState] in *; rewrite ?H4, K1; clear K1.
    all: destruct resp as [[[g |]] |]; try reflexivity.
    all: unfold Flux.addHighlightLayer; (destruct (Flux.mapRef s0); [| reflexivity]).
    all: rewrite flux_onMap_keeps by exact H1; apply H2. }
  assert (F : Flux.modeRef s1 = FocusMode).
  { rewrite (K _ Flux.modeRef) by reflexivity. reflexivity. }
  assert (T1 : Flux.tracked s1).
  { unfold Flux.tracked. rewrite (K _ Flux.clock), (K _ Flux.resumeTimerRef) by reflexivity.
    exact T. }
  split; [exact F |]. split; [reflexivity |]. split.
  { rewrite (K _ Flux.selectedCity) by reflexivity. reflexivity. }
  split.
  - intros n. now apply flux_ticks_focus.
  - intros evs. rewrite (flux_pause_then_idle evs s1 T1), F. reflexivity.
Qed.

Lemma flux_mounted_tracked (m : Engine.Map) : Flux.tracked (Flux.mounted m).
Proof. intros t []. Qed.

Lemma flux_focus_mode_stops_the_orbit_witness :
  let s1 := Flux.onMoveEnd
              (Engine.finalState
                 (Flux.onGeocoderResult "Paris" (235 # 100, 4885 # 100)
                    (Some (Viz.mkBoundaryResponse (Some Sample.paris)))
                    (Flux.mounted Sample.map))) in
  Flux.ticks 10 s1 = s1 /\
  Flux.rotatingRef (Flux.run [Elapse 6000; Frame] (Flux.pauseOrbit s1)) = false.
Proof.
  intros s1.
  destruct (flux_focus_mode_stops_the_orbit (Flux.mounted Sample.map) Sample.map "Paris"
              (235 # 100, 4885 # 100) (Some (Viz.mkBoundaryResponse (Some Sample.paris)))
              eq_refl (flux_mounted_tracked _))
    as (_ & _ & _ & A & B).
  split; [apply (A 10%nat) | apply (B [Elapse 6000; Frame])].
Defined.

(** X21.  In the results component [resetGlobe] switches the orbit back
    on, whether or not the engine accepts its commands: globe mode,
    rotation on, no place selected.  The bearing ref is not reset, so the
    first frame after the reset commits the old bearing plus 0.05, not
    the bearing 0 the reset flew to. *)
Theorem flux_reset_restarts_orbit_at_old_bearing (s : Flux.State) (m : Engine.Map) :
  Flux.mapRef s = Some m ->
  let s' := Engine.finalState (Flux.resetGlobe s) in
  Flux.rotatingRef s' = true /\ Flux.modeRef s' = GlobeMode /\
  Flux.selectedCity s' = None /\ Flux.bearingRef s' = Flux.bearingRef s /\
  exists m' : Engine.Map,
    Flux.mapRef (Flux.animateOrbit s') = Some m' /\
    Engine.bearing (Engine.camera m') = Flux.bearingRef s + (5 # 100) /\
    Engine.center (Engine.camera m') = (0, 20) /\
    Engine.zoom (Engine.camera m') = 15 # 10 /\ Engine.pitch (Engine.camera m') = 0.
Proof.
  intros M s'.
  set (s0 := Flux.set_rotatingRef true
               (Flux.set_modeRef GlobeMode (Flux.set_selectedCity None s))).
  assert (K : forall {A : Type} (proj : Flux.State -> A),
             (forall v x, proj (Flux.set_mapRef v x) = proj x) ->
             (forall v x, proj (Flux.set_highlightDataRef v x) = proj x) ->
             proj s' = proj s0).
  { intros A proj H1 H2. unfold s', Flux.resetGlobe, Engine.chain. cbn [Engine.andThen].
    fold s0.
    match goal with |- context [Flux.onMap ?f s0] =>
      pose proof (flux_onMap_keeps proj f s0 H1) as K1;
      destruct (Flux.onMap f s0) as [sa | e sa] end; cbn [Engine.andThen Engine.finalState] in *;
      [| exact K1].
    pose proof (flux_onMap_keeps proj Flux.dropHighlight sa H1) as K2.
    destruct (Flux.onMap Flux.dropHighlight sa) as [sb | e sb];
      cbn [Engine.andThen Engine.finalState] in *; [rewrite H2 |]; congruence. }
  assert (S : exists m0, Flux.mapRef s' = Some m0).
  { unfold s', Flux.resetGlobe, Engine.chain. cbn [Engine.andThen]. fold s0.
    match goal with |- context [Flux.onMap ?f s0] =>
      destruct (flux_onMap_some f s0 m M) as [ma Ha];
      destruct (Flux.onMap f s0) as [sa | e sa] end; cbn [Engine.andThen Engine.finalState] in *;
      [| eauto].
    destruct (flux_onMap_some Flux.dropHighlight sa ma Ha) as [mb Hb].
    destruct (Flux.onMap Flux.dropHighlight sa) as [sb | e sb];
      cbn [Engine.andThen Engine.finalState] in *; eauto. }
  destruct S as [m0 M0].
  assert (R : Flux.rotatingRef s' = true) by (rewrite (K _ Flux.rotatingRef); reflexivity).
  assert (G : Flux.modeRef s' = GlobeMode) by (rewrite (K _ Flux.modeRef); reflexivity).
  assert (B : Flux.bearingRef s' = Flux.bearingRef s)
    by (rewrite (K _ Flux.bearingRef); reflexivity).
  split; [exact R |]. split; [exact G |].
  split; [rewrite (K _ Flux.selectedCity); reflexivity |]. split; [exact B |].
  unfold Flux.animateOrbit. rewrite R, M0, G. cbv zeta.
  eexists. split; [reflexivity |]. cbn. rewrite B. repeat split.
Qed.

Lemma flux_reset_restarts_orbit_at_old_bearing_witness :
  let s := Flux.ticks 100 (Flux.mounted Sample.map) in
  exists m' : Engine.Map,
    Flux.mapRef (Flux.animateOrbit (Engine.finalState (Flux.resetGlobe s))) = Some m' /\
    Engine.bearing (Engine.camera m') = Flux.bearingRef s + (5 # 100).
Proof.
  intros s.
  assert (H : exists m, Flux.mapRef s = Some m) by (eexists; vm_compute; reflexivity).
  destruct H as (m & HM).
  destruct (flux_reset_restarts_orbit_at_old_bearing s m HM) as (_ & _ & _ & _ & m' & A & B & _).
  exists m'. split; assumption.
Defined.

(** ** Drawing the wind layer *)

Section WindLayerDrawFacts.
Import WindLayer WindLayerDraw.
Context {P : Platform}.

Lemma clip_of_globe (p : Particle) :
  onGlobe p -> inClip (clipX p) /\ inClip (clipY p).
Proof.
  unfold onGlobe, inClip, clipX, clipY. intros (A & B & C & D).
  assert (EX : (lon p + 180) / 360 * 2 - 1 == lon p * (1 # 180)) by field.
  assert (EY : (90 - lat p) / 180 * 2 - 1 == - lat p * (1 # 90)) by field.
  rewrite EX, EY. repeat split; lra.
Qed.

Lemma positions_in_clip (ps : list Particle) :
  Forall onGlobe ps -> Forall inClip (positionsOf ps).
Proof.
  induction 1 as [| p rest H _ IH]; [constructor |].
  destruct (clip_of_globe p H) as [X Y].
  unfold positionsOf in *. cbn [flat_map app].
  constructor; [exact X |]. constructor; [exact Y |].
  constructor; [unfold inClip; split; lra | exact IH].
Qed.

Lemma positions_length (ps : list Particle) :
  length (positionsOf ps) = (3 * length ps)%nat.
Proof.
  induction ps as [| p rest IH]; [reflexivity |].
  unfold positionsOf in *. cbn [flat_map app length]. rewrite IH. lia.
Qed.

Lemma forEachParticle_count (ps : list Particle) :
  forall n, length (forEachParticle ps n) = length ps.
Proof.
  induction ps as [| p rest IH]; intros n; [reflexivity |].
  cbn [forEachParticle length]. now rewrite IH.
Qed.

Lemma draws_succ (k : nat) (s : State) : draws (S k) s = draw (draws k s).
Proof. reflexivity. Qed.

Lemma draw_facts (s : State) :
  model (draw s) = Some (positionsOf (particles (layer (draw s)))) /\
  layer (draw s) = updateParticles (layer s) /\
  drawCalls (draw s) = (drawCalls s + match model s with Some _ => 1 | None => 0 end)%nat.
Proof.
  unfold draw. destruct (model s); cbn [model layer drawCalls]; repeat split; lia.
Qed.

Lemma draws_facts (k : nat) (s : State) :
  length (particles (layer (draws k s))) = length (particles (layer s)) /\
  rngCalls (layer (draws k s))
  = (rngCalls (layer s) + k * (2 * length (particles (layer s))))%nat /\
  drawCalls (draws (S k) s) = (drawCalls s + match model s with Some _ => S k | None => k end)%nat /\
  model (draws (S k) s) = Some (positionsOf (particles (layer (draws (S k) s)))).
Proof.
  induction k as [| k (L & R & D & M)].
  - cbn [draws Nat.iter nat_rect]. destruct (draw_facts s) as (M & _ & D).
    repeat split; [lia | | exact M].
    rewrite D. now destruct (model s).
  - destruct (draw_facts (draws (S k) s)) as (M' & Ly & D').
    assert (Ly0 : layer (draws (S k) s) = updateParticles (layer (draws k s))).
    { rewrite draws_succ. apply draw_facts. }
    split.
    { rewrite Ly0. unfold updateParticles. cbn [particles].
      now rewrite forEachParticle_count. }
    split.
    { rewrite Ly0. unfold updateParticles. cbn [rngCalls]. rewrite R, L. lia. }
    split; [| rewrite draws_succ; exact M'].
    rewrite draws_succ, D', D, M. destruct (model s); lia.
Qed.

End WindLayerDrawFacts.

(** X22.  Every vertex the wind layer hands to the GPU lies in clip
    space: when the particles are on the globe before a [draw], the model
    holds three coordinates per particle afterwards, each between -1 and
    1, and the particles are on the globe again. *)
Theorem wind_layer_draws_inside_clip_space (P : Platform) (s : WindLayerDraw.State) :
  randomInUnit P ->
  Forall WindLayer.onGlobe (WindLayer.particles (WindLayerDraw.layer s)) ->
  forall k : nat,
    exists positions : list Q,
      WindLayerDraw.model (WindLayerDraw.draws (S k) s) = Some positions /\
      Forall WindLayerDraw.inClip positions /\
      length positions = (3 * length (WindLayer.particles (WindLayerDraw.layer s)))%nat /\
      Forall WindLayer.onGlobe
             (WindLayer.particles (WindLayerDraw.layer (WindLayerDraw.draws (S k) s))).
Proof.
  intros HR H0 k.
  assert (G : forall j, Forall WindLayer.onGlobe
                          (WindLayer.particles (WindLayerDraw.layer (WindLayerDraw.draws j s)))).
  { induction j as [| j IH]; [exact H0 |].
    rewrite draws_succ. destruct (draw_facts (WindLayerDraw.draws j s)) as (_ & Ly & _).
    rewrite Ly. unfold WindLayer.updateParticles. cbn [WindLayer.particles].
    now apply forEachParticle_on_globe. }
  destruct (draws_facts k s) as (_ & _ & _ & M).
  destruct (draws_facts (S k) s) as (L & _).
  eexists. split; [exact M |]. split; [apply positions_in_clip, G |].
  split; [| apply G]. now rewrite positions_length, L.
Qed.

Lemma wind_layer_draws_inside_clip_space_witness :
  exists positions : list Q,
    WindLayerDraw.model
      (@WindLayerDraw.draws Sample.platform 3 (@WindLayerDraw.created Sample.platform (Some 4%nat) 0))
    = Some positions /\
    Forall WindLayerDraw.inClip positions.
Proof.
  assert (H0 : Forall WindLayer.onGlobe
                 (WindLayer.particles
                    (WindLayerDraw.layer (@WindLayerDraw.created Sample.platform (Some 4%nat) 0)))).
  { unfold WindLayerDraw.created, WindLayer.initializeState.
    cbn [WindLayerDraw.layer WindLayer.particles].
    apply List.Forall_forall. intros p Hp. apply in_map_iff in Hp.
    destruct Hp as (i & <- & _). apply newParticle_on_globe, sample_random_in_unit. }
  destruct (wind_layer_draws_inside_clip_space Sample.platform _ sample_random_in_unit H0 2)
    as (positions & M & C & _).
  exists positions. split; assumption.
Defined.

(** X23.  The first [draw] of a fresh wind layer only builds the model;
    every later one issues one draw call.  After [k] draws there were
    [k - 1] draw calls, the layer still has its particles, and the random
    stream was advanced by two numbers per particle and draw. *)
Theorem wind_layer_first_draw_builds_model (P : Platform) (numParticles : option nat)
    (n k : nat) :
  let s0 := WindLayerDraw.created numParticles n in
  let count := WindLayer.numParticlesOr500 numParticles in
  WindLayerDraw.model s0 = None /\
  WindLayerDraw.drawCalls (WindLayerDraw.draws k s0) = Nat.pred k /\
  (k <> 0%nat -> WindLayerDraw.model (WindLayerDraw.draws k s0) <> None) /\
  length (WindLayer.particles (WindLayerDraw.layer (WindLayerDraw.draws k s0))) = count /\
  WindLayer.rngCalls (WindLayerDraw.layer (WindLayerDraw.draws k s0))
  = (n + 2 * count + k * (2 * count))%nat.
Proof.
  intros s0 count.
  assert (C0 : length (WindLayer.particles (WindLayerDraw.layer s0)) = count).
  { unfold s0, WindLayerDraw.created, WindLayer.initializeState.
    cbn [WindLayerDraw.layer WindLayer.particles]. now rewrite length_map, length_seq. }
  destruct (draws_facts k s0) as (L & R & _).
  split; [reflexivity |]. split.
  { destruct k as [| k]; [reflexivity |].
    destruct (draws_facts k s0) as (_ & _ & D & _). rewrite D. reflexivity. }
  split.
  { destruct k as [| k]; [congruence |]. intros _.
    destruct (draws_facts k s0) as (_ & _ & _ & M). rewrite M. discriminate. }
  split; [now rewrite L |].
  rewrite R, C0. reflexivity.
Qed.

(** X24.  A wind layer is never empty: [initializeState] makes 500
    particles when [numParticles] is missing or 0 and [numParticles] many
    otherwise, and every new particle has a longitude below 180 and a
    latitude below 90. *)
Theorem wind_layer_is_never_empty (P : Platform) (numParticles : option nat) (n : nat) :
  randomInUnit P ->
  let ps := WindLayer.particles (WindLayer.initializeState numParticles n) in
  length ps = WindLayer.numParticlesOr500 numParticles /\
  (0 < length ps)%nat /\
  (numParticles = None \/ numParticles = Some 0%nat -> length ps = 500%nat) /\
  Forall (fun p => -180 <= WindLayer.lon p /\ WindLayer.lon p < 180 /\
                   -90 <= WindLayer.lat p /\ WindLayer.lat p < 90) ps.
Proof.
  intros HR ps.
  assert (L : length ps = WindLayer.numParticlesOr500 numParticles).
  { unfold ps, WindLayer.initializeState. cbn [WindLayer.particles].
    now rewrite length_map, length_seq. }
  split; [exact L |]. split.
  { rewrite L. destruct numParticles as [[| c] |]; cbn; lia. }
  split.
  { rewrite L. intros [-> | ->]; reflexivity. }
  unfold ps, WindLayer.initializeState. cbn [WindLayer.particles].
  apply List.Forall_forall. intros p Hp. apply in_map_iff in Hp.
  destruct Hp as (i & <- & _). unfold WindLayer.newParticle.
  cbn [WindLayer.lon WindLayer.lat].
  destruct (HR (n + 2 * i)%nat) as [A B], (HR (n + 2 * i + 1)%nat) as [C D].
  repeat split; lra.
Qed.

Lemma wind_layer_is_never_empty_witness :
  length (WindLayer.particles (@WindLayer.initializeState Sample.platform (Some 0%nat) 7))
  = 500%nat.
Proof.
  destruct (wind_layer_is_never_empty Sample.platform (Some 0%nat) 7 sample_random_in_unit)
    as (_ & _ & H & _).
  apply H. now right.
Defined.

(** ** The simulation form *)

(** X25.  The simulation form shows a download link exactly after a
    completed run: a rejected request or a [null] answer leaves the error
    message and an empty link, whatever link was shown before; an answer
    without [zip_name] still completes, with a link that ends in
    "undefined". *)
Theorem form_link_only_after_completed_run (resp : Form.Response) (s : Form.State) :
  let s' := Form.runSimulation resp s in
  (Form.message s' = Form.Completed <-> Form.zipLink s' <> EmptyString) /\
  (Form.message s' = Form.ErrorDuring <-> Form.zipLink s' = EmptyString) /\
  (resp = Form.Rejected \/ resp = Form.JsonNull -> Form.message s' = Form.ErrorDuring) /\
  (resp = Form.Json None ->
   Form.zipLink s' = "http://127.0.0.1:5000/download/undefined"%string) /\
  Form.message s' <> Form.Running /\ Form.message s' <> Form.NoMessage.
Proof.
  intros s'. unfold s'. destruct resp as [| | z]; cbn.
  - repeat split; try discriminate; try reflexivity; intros H; try contradiction;
      try discriminate; destruct H; discriminate.
  - repeat split; try discriminate; try reflexivity; intros H; try contradiction;
      try discriminate; destruct H; discriminate.
  - repeat split; try discriminate; try reflexivity; intros H; try discriminate;
      try (destruct H; discriminate).
    injection H as ->. reflexivity.
Qed.

(** ** The highlight of the frontend component *)

Section OverlayFacts.
Import Engine Overlay.

Lemma overlay_addHighlightLayer_ok (g : GeoJSON) (s : State) (m : Map) :
  mapRef s = Some m ->
  isStyleLoaded m = true -> Viz.highlightOwned m -> Flux.layersNeedSource m ->
  addHighlightLayer g s = Ok (set_mapRef (Some (Flux.withHighlight g m)) s).
Proof.
  intros M L O N. unfold addHighlightLayer. rewrite M. unfold onMap. rewrite M.
  now rewrite (flux_highlight_attached g m L O N).
Qed.

End OverlayFacts.

(** X26.  In the frontend component the highlight survives basemap
    swaps: once a boundary was fetched, pressing "satellite" or "streets"
    and the following [style.load] end with the cached feature drawn on
    the new style, with one fill and one outline layer; any other button
    only changes the active label.  Nothing clears the cached feature. *)
Theorem frontend_highlight_survives_basemap_swaps (s : Overlay.State) (m : Engine.Map)
    (g : Engine.GeoJSON) (satellite streets : Engine.Style) (layer : string) :
  Overlay.mapRef s = Some m -> Overlay.highlightFeatureRef s = Some g ->
  Viz.highlightOwned (Overlay.swapped satellite m) ->
  Flux.layersNeedSource (Overlay.swapped satellite m) ->
  Viz.highlightOwned (Overlay.swapped streets m) ->
  Flux.layersNeedSource (Overlay.swapped streets m) ->
  exists s1 : Overlay.State,
    Overlay.handleLayerChange satellite streets layer s = Engine.Ok s1 /\
    Overlay.activeLayer s1 = layer /\ Overlay.highlightFeatureRef s1 = Some g /\
    (layer = "satellite"%string \/ layer = "streets"%string ->
     exists (s2 : Overlay.State) (m2 : Engine.Map),
       Overlay.fireStyleLoad s1 = Engine.Ok s2 /\ Overlay.mapRef s2 = Some m2 /\
       m2 = Flux.withHighlight g
              (Overlay.swapped (if String.eqb layer "satellite" then satellite else streets) m) /\
       Engine.getSource "highlight" m2 = Some (Engine.GeoJsonSource g) /\
       Observe.layerCount "highlight-fill" m2 = 1%nat /\
       Observe.layerCount "highlight-outline" m2 = 1%nat /\
       Overlay.highlightFeatureRef s2 = Some g) /\
    (layer <> "satellite"%string -> layer <> "streets"%string ->
     Overlay.mapRef s1 = Some m).
Proof.
  intros M H O1 N1 O2 N2. unfold Overlay.handleLayerChange. rewrite M.
  assert (A : forall st,
             Viz.highlightOwned (Overlay.swapped st m) ->
             Flux.layersNeedSource (Overlay.swapped st m) ->
             exists (s2 : Overlay.State) (m2 : Engine.Map),
               Overlay.fireStyleLoad
                 (Overlay.set_activeLayer layer
                    (Overlay.set_mapRef (Some (Engine.setStyle st m)) s)) = Engine.Ok s2 /\
               Overlay.mapRef s2 = Some m2 /\
               m2 = Flux.withHighlight g (Overlay.swapped st m) /\
               Engine.getSource "highlight" m2 = Some (Engine.GeoJsonSource g) /\
               Observe.layerCount "highlight-fill" m2 = 1%nat /\
               Observe.layerCount "highlight-outline" m2 = 1%nat /\
               Overlay.highlightFeatureRef s2 = Some g).
  { intros st O N.
    destruct (flux_withHighlight_facts g (Overlay.swapped st m) O)
      as (_ & _ & _ & S & _ & _ & C1 & C2).
    unfold Overlay.fireStyleLoad, Overlay.styleLoadHandler.
    cbn [Overlay.mapRef Overlay.set_activeLayer Overlay.set_mapRef Overlay.highlightFeatureRef].
    rewrite H.
    match goal with |- context [Overlay.addHighlightLayer g ?x] =>
      rewrite (overlay_addHighlightLayer_ok g x (Overlay.swapped st m) eq_refl eq_refl O N)
    end.
    eexists. exists (Flux.withHighlight g (Overlay.swapped st m)).
    split; [reflexivity |]. split; [reflexivity |]. split; [reflexivity |].
    repeat split; try assumption. }
  unfold Overlay.onMap. rewrite M.
  destruct (String.eqb layer "satellite") eqn:E1; [| destruct (String.eqb layer "streets") eqn:E2];
    cbn [Engine.andThen]; eexists; (split; [reflexivity |]);
    (split; [reflexivity |]); (split; [exact H |]); split.
  - intros _. now apply A.
  - apply String.eqb_eq in E1. intros X. contradiction.
  - intros _. now apply A.
  - apply String.eqb_eq in E2. intros _ X. contradiction.
  - apply String.eqb_neq in E1. apply String.eqb_neq in E2. intros [X | X]; contradiction.
  - intros _ _. exact M.
Qed.

Lemma frontend_highlight_survives_basemap_swaps_witness :
  let s := Overlay.onBoundary (Some Sample.paris) (Overlay.mounted Sample.map) in
  exists s1 s2 : Overlay.State,
    Overlay.handleLayerChange Sample.satelliteStreets Sample.streets "streets" s
    = Engine.Ok s1 /\
    Overlay.fireStyleLoad s1 = Engine.Ok s2 /\
    Overlay.highlightFeatureRef s2 = Some Sample.paris.
Proof.
  intros s.
  assert (H : exists m, Overlay.mapRef s = Some m) by (eexists; vm_compute; reflexivity).
  destruct H as (m & HM).
  assert (C : forall st : Engine.Style,
             st = Sample.satelliteStreets \/ st = Sample.streets ->
             Viz.highlightOwned (Overlay.swapped st m) /\
             Flux.layersNeedSource (Overlay.swapped st m)).
  { intros st [-> | ->]; (split; [reflexivity | intros _; split; reflexivity]). }
  destruct (frontend_highlight_survives_basemap_swaps s m Sample.paris
              Sample.satelliteStreets Sample.streets "streets" HM eq_refl
              (proj1 (C _ (or_introl eq_refl))) (proj2 (C _ (or_introl eq_refl)))
              (proj1 (C _ (or_intror eq_refl))) (proj2 (C _ (or_intror eq_refl))))
    as (s1 & E1 & _ & _ & K & _).
  destruct (K (or_intror eq_refl)) as (s2 & m2 & E2 & _ & _ & _ & _ & _ & F).
  exists s1, s2. repeat split; assumption.
Defined.

(** ** The point cloud and the resume timer *)

Section CloudFacts.
Import Engine Viz Observe.
Context {P : Platform}.


End CloudFacts.



Section ResumeTimer.
Import Engine Timers Frontend.

Lemma filter_short {A : Type} (p : A -> bool) (l : list A) :
  (length (List.filter p l) <= length l)%nat.
Proof.
  induction l as [| x rest IH]; [reflexivity |].
  simpl. destruct (p x); simpl; lia.
Qed.

Lemma resumable_pause (s : State) : resumable s -> resumable (pauseOrbit s).
Proof.
  intros (T & _ & _). destruct (pauseOrbit_arms s T) as (_ & _ & id & E & I).
  unfold resumable, tracked. rewrite E, I. split.
  - intros t [<- | []]. reflexivity.
  - split; [cbn; lia | discriminate].
Qed.

Lemma resumable_frame (s : State) : resumable s -> resumable (animateOrbit s).
Proof.
  destruct (animateOrbit_keeps_timers s) as (A & B & C).
  unfold resumable, tracked. now rewrite A, B, C.
Qed.

Lemma resumable_advance (dt : N) (s : State) : resumable s -> resumable (advance dt s).
Proof.
  intros (T & L & R). unfold tracked in T.
  destruct (pending (clock s)) as [| t [| t' rest]] eqn:E; [| | cbn in L; lia].
  - assert (A : advance dt s = set_clock (mkClock (now (clock s) + dt) [] (nextId (clock s))) s).
    { unfold advance, elapse. rewrite E. reflexivity. }
    rewrite A. unfold resumable, tracked.
    cbn [clock set_clock pending resumeTimerRef rotatingRef].
    split; [intros x [] |]. split; [cbn; lia |].
    intros F. specialize (R F). congruence.
  - destruct (isDue (now (clock s) + dt) t) eqn:D.
    + assert (A : advance dt s
                  = resumeOrbit (set_clock (mkClock (now (clock s) + dt) [] (nextId (clock s))) s)).
      { unfold advance, elapse. rewrite E. cbn [List.filter]. rewrite D. reflexivity. }
      rewrite A. unfold resumable, tracked.
      cbn [clock set_clock pending resumeTimerRef rotatingRef resumeOrbit set_rotatingRef].
      split; [intros x [] |]. split; [cbn; lia | discriminate].
    + assert (A : advance dt s
                  = set_clock (mkClock (now (clock s) + dt) [t] (nextId (clock s))) s).
      { unfold advance, elapse. rewrite E. cbn [List.filter]. rewrite D. reflexivity. }
      rewrite A. unfold resumable, tracked.
      cbn [clock set_clock pending resumeTimerRef rotatingRef].
      split; [| split; [cbn; lia | discriminate]].
      intros x Hx. apply T. exact Hx.
Qed.

Lemma resumable_react (i : Input) (s : State) : resumable s -> resumable (react i s).
Proof.
  destruct i as [| [| dt]]; cbn [react idle];
    [apply resumable_pause | apply resumable_frame | apply resumable_advance].
Qed.

End ResumeTimer.

(** X28.  In the frontend component a drag or zoom never leaves the
    orbit off for good and never arms a second timer: over any sequence
    of drags, frames and waiting, at most one resume timer is pending, it
    is the one [resumeTimerRef] holds, and whenever the orbit is off a
    timer is pending; once the waiting after the last drag adds up to the
    delay the orbit is on. *)
Theorem orbit_always_resumes (ins : list Frontend.Input) (s : Frontend.State) :
  Frontend.resumable s ->
  Frontend.resumable (Frontend.session ins s) /\
  forall evs : list Idle,
    (resumeDelay <= elapsed evs)%N ->
    Frontend.rotatingRef
      (Frontend.run evs (Frontend.pauseOrbit (Frontend.session ins s))) = true.
Proof.
  intros H.
  assert (R : Frontend.resumable (Frontend.session ins s)).
  { revert s H. induction ins as [| i rest IH]; intros s H; [exact H |].
    change (Frontend.session (i :: rest) s)
      with (Frontend.session rest (Frontend.react i s)).
    apply IH. now apply resumable_react. }
  split; [exact R |]. intros evs D.
  rewrite (pause_then_idle evs _ (proj1 R)). now apply N.leb_le.
Qed.

Lemma orbit_always_resumes_witness :
  Frontend.resumable
    (Frontend.session [Frontend.Drag; Frontend.Wait (Elapse 2000); Frontend.Drag;
                       Frontend.Wait Frame; Frontend.Wait (Elapse 5000)]
                      (Frontend.mounted Sample.map)).
Proof.
  apply orbit_always_resumes. split; [apply mounted_tracked |].
  split; [cbn; lia | discriminate].
Defined.

(** ** The orbit under the 3D mode, and piled-up draw loops *)

Section PileFacts.
Import Engine Viz Observe.
Context {P : Platform}.

Lemma fold_draw_repeat (k : nat) : forall s : State,
  fold_left (fun acc c => draw c acc) (repeat false k) s = repaints k s.
Proof.
  induction k as [| k IH]; intros s; [reflexivity |].
  cbn [repeat fold_left]. rewrite IH. unfold repaints.
  symmetry. apply Nat.iter_succ_r.
Qed.

Lemma repaints_cursor (s : State) (m : Map) (f0 : FlowFrame) (fs : list FlowFrame) (n : nat) :
  mapRef s = Some m -> windSeriesRef s = f0 :: fs ->
  flowFrameRef (repaints n s) = ((flowFrameRef s + n) mod length (f0 :: fs))%nat \/
  (n = 0%nat /\ flowFrameRef (repaints n s) = flowFrameRef s).
Proof.
  intros HM HW. induction n as [| n IH]; [right; now split |]. left.
  change (repaints (S n) s) with (draw false (repaints n s)).
  destruct (repaints_keep n s) as (M & W).
  destruct (draw_paints (repaints n s) m f0 fs) as (_ & _ & C & _);
    [congruence | congruence |].
  rewrite C. destruct IH as [IH | [-> IH]]; rewrite IH;
    rewrite ?Nat.Div0.add_mod_idemp_l; f_equal; lia.
Qed.

Lemma toggle3D_on_ok (s : State) (m : Map) :
  mapRef s = Some m -> show3D s = false ->
  isStyleLoaded m = true -> getLayer "waterway-label" m <> None ->
  exists m1 : Map,
    m1 = flyTo (mkCameraOptions
                  (Some (match truthy (selectedCity s), markerRef s with
                         | Some _, Some c => c
                         | _, _ => defaultAnchor
                         end)) (Some 12) (Some 60) (Some 30))
               (setProjection Mercator m) /\
    toggle3D s
    = Ok (set_show3D true
            (set_mapRef (Some (withCustom m1))
               (set_threeStateRef
                  (mkThree true true true
                     (Some (List.map
                              (fun i => samplePoint (withoutCustom m1) (rngCalls s + 12 + 3 * i))
                              (List.seq 0 1800))))
                  (set_rngCalls (rngCalls s + 5420) (set_mapRef (Some m1) s))))).
Proof.
  intros HM H3 HL HW. eexists. split; [reflexivity |].
  unfold toggle3D. rewrite H3. cbn [negb]. cbv zeta.
  set (c := match truthy (selectedCity s), markerRef s with
            | Some _, Some c => c
            | _, _ => defaultAnchor
            end).
  set (m1 := flyTo (mkCameraOptions (Some c) (Some 12) (Some 60) (Some 30))
                   (setProjection Mercator m)).
  unfold chain at 1 2. unfold andThen at 2.
  unfold onMap at 1. rewrite HM. fold m1.
  change (andThen (remove3DLayer ?a) add3DLayer) with (chain remove3DLayer add3DLayer a).
  destruct (remove_then_add3D (set_mapRef (Some m1) s) m1 eq_refl HL HW) as [E _].
  rewrite E. reflexivity.
Qed.

End PileFacts.

(** X29.  Switching 3D on does not stop the orbit: when no place was
    selected and the globe still turns, the first orbit frame after the
    switch throws the camera back to the centre (0, 20) and the zoom 1.5
    of the globe view, at the next orbit bearing, in the Mercator
    projection the switch set and with the custom layer registered. *)
Theorem orbit_overrides_the_3D_view (P : Platform) (s : Viz.State) (m : Engine.Map) :
  Viz.mapRef s = Some m -> Viz.show3D s = false ->
  Viz.rotatingRef s = true -> Viz.modeRef s = GlobeMode ->
  Engine.isStyleLoaded m = true -> Engine.getLayer "waterway-label" m <> None ->
  exists (s' : Viz.State) (m' : Engine.Map),
    Viz.toggle3D s = Engine.Ok s' /\
    Viz.mapRef (Viz.animateOrbit s') = Some m' /\
    Engine.center (Engine.camera m') = (0, 20) /\
    Engine.zoom (Engine.camera m') = 15 # 10 /\
    Engine.bearing (Engine.camera m') = Viz.bearingRef s + (5 # 100) /\
    Viz.bearingRef (Viz.animateOrbit s') = Viz.bearingRef s + (5 # 100) /\
    Engine.projection m' = Engine.Mercator /\
    Viz.show3D (Viz.animateOrbit s') = true /\
    Viz.customRegistered (Viz.animateOrbit s') = true.
Proof.
  intros HM H3 HR HG HL HW.
  destruct (toggle3D_on_ok s m HM H3 HL HW) as (m1 & E1 & E).
  rewrite E. eexists. eexists. split; [reflexivity |].
  unfold Viz.animateOrbit.
  cbn [Viz.rotatingRef Viz.mapRef Viz.modeRef Viz.bearingRef Viz.set_show3D Viz.set_mapRef
       Viz.set_threeStateRef Viz.set_rngCalls].
  rewrite HR, HG. cbv zeta. split; [reflexivity |].
  split; [reflexivity |]. split; [reflexivity |]. split; [reflexivity |].
  split; [reflexivity |]. split; [rewrite E1; reflexivity |].
  split; [reflexivity |].
  unfold Viz.customRegistered.
  cbn [Viz.mapRef Viz.set_mapRef Viz.set_bearingRef].
  destruct (remove_then_add3D (Viz.set_mapRef (Some m1) s) m1 eq_refl) as [_ C].
  { rewrite E1. exact HL. }
  { rewrite E1. exact HW. }
  change (Engine.getLayer "flux-3d-particles" (Engine.jumpTo ?o (Viz.withCustom m1)))
    with (Engine.getLayer "flux-3d-particles" (Viz.withCustom m1)).
  now rewrite C.
Qed.

Lemma orbit_overrides_the_3D_view_witness :
  exists (s' : Viz.State) (m' : Engine.Map),
    @Viz.toggle3D Sample.platform (Viz.mounted Sample.map) = Engine.Ok s' /\
    Viz.mapRef (Viz.animateOrbit s') = Some m' /\
    Engine.center (Engine.camera m') = (0, 20) /\
    Engine.zoom (Engine.camera m') = 15 # 10 /\
    Engine.bearing (Engine.camera m') = Viz.bearingRef (Viz.mounted Sample.map) + (5 # 100).
Proof.
  assert (HW : Engine.getLayer "waterway-label" Sample.map <> None) by discriminate.
  destruct (orbit_overrides_the_3D_view Sample.platform (Viz.mounted Sample.map) Sample.map
              eq_refl eq_refl eq_refl eq_refl eq_refl HW)
    as (s' & m' & E & M & C & Z & B & _).
  exists s', m'. repeat split; assumption.
Defined.

(** X30.  Draw loops pile up: with [k + 1] loops running (one per
    simulation run in 2D mode, none ever stopped), a single display frame
    repaints [k + 1] times, so the frame cursor advances by [k + 1] per
    frame and the arrows drift and age [k + 1] times as fast. *)
Theorem every_loop_repaints_each_frame (P : Platform) (s : Viz.State) (m : Engine.Map)
    (f0 : Viz.FlowFrame) (fs : list Viz.FlowFrame) (k : nat) :
  Viz.mapRef s = Some m -> Viz.windSeriesRef s = f0 :: fs ->
  Viz.drawLoops s = repeat false (S k) ->
  Viz.animationFrame s = Observe.repaints (S k) s /\
  Viz.flowFrameRef (Viz.animationFrame s)
  = ((Viz.flowFrameRef s + S k) mod length (f0 :: fs))%nat /\
  Viz.drawLoops (Viz.animationFrame s) = Viz.drawLoops s.
Proof.
  intros HM HW HL.
  assert (E : Viz.animationFrame s = Observe.repaints (S k) s).
  { unfold Viz.animationFrame. rewrite HL. apply fold_draw_repeat. }
  split; [exact E |]. split.
  - rewrite E. destruct (repaints_cursor s m f0 fs (S k) HM HW) as [C | [C _]];
      [exact C | discriminate].
  - apply (frame_animationFrame Viz.drawLoops); intros; reflexivity.
Qed.

Lemma every_loop_repaints_each_frame_witness :
  let s := @Viz.runSimulation Sample.platform (Some Sample.east4) Sample.simulated2D in
  @Viz.animationFrame Sample.platform s = @Observe.repaints Sample.platform 2 s.
Proof.
  intros s.
  assert (H : exists m, Viz.mapRef s = Some m) by (eexists; vm_compute; reflexivity).
  destruct H as (m & HM).
  assert (HW : Viz.windSeriesRef s = [Viz.mkFrame 90 (Some 4) "2024-12-15"]).
  { vm_compute. reflexivity. }
  assert (HL : Viz.drawLoops s = repeat false 2) by (vm_compute; reflexivity).
  exact (proj1 (every_loop_repaints_each_frame Sample.platform s m _ _ 1 HM HW HL)).
Defined.
